(** * media-proxy: a shallow embedding of [server.mjs]

    The repository ships three variants of one Express server:
    - the Jellyfin variant (poster builder with an [auth] tag, the
      [buildWeeklyActivityData] / [buildMonthlyActivityData] aggregators,
      an image proxy that redirects to a placeholder),
    - the Tautulli variant (poster builder through Tautulli's [pms/image],
      an image proxy that answers with JSON errors),
    - the Tautulli+Plex variant (poster builder straight against Plex,
      recently-watched / recently-added assembly, inline monthly loop).

    Each variant is a [Module] below; what the three files share verbatim
    (the TTL cache, [getWatchedAt]) is embedded once.

    Conventions of the embedding:
    - a JavaScript number is an integer [Z]; the timestamps and counters
      the code handles stay far below 2^53, where the arithmetic of
      doubles is exact.  [NaN] is the [None] of an [option Z];
    - a string is a [string] of bytes (UTF-8);
    - a raw upstream record is a [gmap string JsVal]; a missing field reads
      as [JUndefined].  Field values are JSON scalars: nested objects and
      arrays are outside the model;
    - a function that reads the wall clock or may throw is a [Prog] tree
      with one node per clock read. *)

From Stdlib Require Import ZArith List Lia Ascii String DecimalString Permutation Sorted.
From Stdlib Require DecimalPos DecimalZ.
From stdpp Require Import gmap strings list fin_maps.

Local Open Scope string_scope.
Local Open Scope Z_scope.

(* ===================================================================== *)
(** ** JavaScript values *)
(* ===================================================================== *)

Inductive JsVal : Type :=
| JUndefined
| JNull
| JBool (b : bool)
| JNum (z : Z)
| JStr (s : string).

#[global] Instance JsVal_eq_dec : EqDecision JsVal.
Proof. solve_decision. Defined.

(** ToBoolean. *)
Definition truthy (v : JsVal) : bool :=
  match v with
  | JUndefined | JNull => false
  | JBool b => b
  | JNum z => negb (z =? 0)
  | JStr s => negb (String.eqb s EmptyString)
  end.

Definition falsy (v : JsVal) : bool := negb (truthy v).

(** [a || b]. *)
Definition jor (a b : JsVal) : JsVal := if truthy a then a else b.

(** Number::toString for integers (of magnitude below 10^21, where
    JavaScript switches to the exponent form). *)
Definition numToString (z : Z) : string := NilZero.string_of_int (Z.to_int z).

(** ToString, as a template literal or [Date.parse] applies it. *)
Definition toStr (v : JsVal) : string :=
  match v with
  | JUndefined => "undefined"
  | JNull => "null"
  | JBool true => "true"
  | JBool false => "false"
  | JNum z => numToString z
  | JStr s => s
  end.

(** A raw record and the property read [x.f]. *)
Abbreviation Raw := (gmap string JsVal).

Definition field (x : Raw) (f : string) : JsVal := default JUndefined (x !! f).

(** An environment variable: [undefined] when unset. *)
Definition envTruthy (v : option string) : bool :=
  match v with
  | Some s => negb (String.eqb s EmptyString)
  | None => false
  end.

Definition envStr (v : option string) : string :=
  match v with
  | Some s => s
  | None => "undefined"
  end.

(* ===================================================================== *)
(** ** The host: what Node supplies and the repository does not define *)
(* ===================================================================== *)

(** [Date_parse s] is [Date.parse(s)], [None] for [NaN]; outside the ISO
    format its result is implementation-defined.  [localTZA t] is the
    offset, in milliseconds, of local time at the instant [t]. *)
Record Host : Type := {
  Date_parse : string -> option Z;
  localTZA : Z -> Z
}.

Definition msPerDay : Z := 86400000.
Definition msPerHour : Z := 3600000.

(** [Date.prototype.getDay] and [getHours] of a valid date with time value
    [t] (ECMAScript: WeekDay(LocalTime(t)), HourFromTime(LocalTime(t))). *)
Definition getDay (h : Host) (t : Z) : Z :=
  ((t + localTZA h t) / msPerDay + 4) mod 7.

Definition getHours (h : Host) (t : Z) : Z :=
  ((t + localTZA h t) / msPerHour) mod 24.

(* ===================================================================== *)
(** ** Programs: clock reads and exceptions made explicit *)
(* ===================================================================== *)

Inductive Prog (A : Type) : Type :=
| Ret (a : A)
| Throw (e : string)
| Now (k : Z -> Prog A).

Arguments Ret {A} a.
Arguments Throw {A} e.
Arguments Now {A} k.

Fixpoint bind {A B : Type} (p : Prog A) (f : A -> Prog B) : Prog B :=
  match p with
  | Ret a => f a
  | Throw e => Throw e
  | Now k => Now (fun t => bind (k t) f)
  end.

#[global] Instance Prog_ret : MRet Prog := @Ret.
#[global] Instance Prog_bind : MBind Prog := fun A B f p => bind p f.

(** [Date.now()] / [new Date()]. *)
Definition dateNow : Prog Z := Now (fun t => Ret t).

Inductive Outcome (A : Type) : Type :=
| Returned (a : A)
| Thrown (e : string).

Arguments Returned {A} a.
Arguments Thrown {A} e.

(** Running a program against a clock: the [i]-th read since the start
    returns [clock i].  [exec] also gives the number of the next read. *)
Fixpoint exec {A : Type} (p : Prog A) (clock : nat -> Z) (i : nat) : Outcome A * nat :=
  match p with
  | Ret a => (Returned a, i)
  | Throw e => (Thrown e, i)
  | Now k => exec (k (clock i)) clock (S i)
  end.

Definition run {A : Type} (p : Prog A) (clock : nat -> Z) : Outcome A :=
  fst (exec p clock 0).

(** A program that never consults the clock: a leaf, since [Now] is the
    only node with a continuation. *)
Definition clockFree {A : Type} (p : Prog A) : bool :=
  match p with
  | Ret _ | Throw _ => true
  | Now _ => false
  end.

(* ===================================================================== *)
(** ** The tiny cache (identical in the three variants) *)
(* ===================================================================== *)

Module Cache.
Section WithPayload.
Context {Payload : Type}.

(** The object [{ data, t }] stored per key. *)
Record Entry : Type := { data : Payload; t : Z }.

(** [ttl ms] evaluated when the clock shows [now]. *)
Definition ttl (now ms : Z) : Z := now + ms.

(** [getC k] evaluated when the clock shows [now]; [None] is [null]. *)
Definition getC (now : Z) (cache : gmap string Entry) (k : string) : option Payload :=
  match cache !! k with
  | Some v => if now <? t v then Some (data v) else None
  | None => None
  end.

(** [setC k data ms], the third argument defaulting to 10000. *)
Definition setC (now : Z) (cache : gmap string Entry) (k : string)
    (d : Payload) (ms : option Z) : gmap string Entry :=
  <[ k := {| data := d; t := ttl now (default 10000 ms) |} ]> cache.

End WithPayload.
Arguments Entry : clear implicits.
End Cache.

(* ===================================================================== *)
(** ** Strings: [startsWith], [includes], [encodeURIComponent] *)
(* ===================================================================== *)

(** The one-character string holding a double quote. *)
Definition dquote : string := String (ascii_of_nat 34) EmptyString.

(** [hay.includes(needle)]. *)
Fixpoint includes (needle hay : string) : bool :=
  String.prefix needle hay ||
  match hay with
  | EmptyString => false
  | String _ rest => includes needle rest
  end.

(** The characters [encodeURIComponent] leaves alone: ASCII letters,
    digits and [- _ . ! ~ * ' ( )]. *)
Definition isUnreserved (c : ascii) : bool :=
  let n := N_of_ascii c in
  ((65 <=? n) && (n <=? 90) || (97 <=? n) && (n <=? 122) ||
   (48 <=? n) && (n <=? 57))%N ||
  existsb (Ascii.eqb c)
    ["-"; "_"; "."; "!"; "~"; "*"; "'"; "("; ")"]%char.

Definition hexDigit (n : N) : ascii :=
  nth (N.to_nat n)
    ["0"; "1"; "2"; "3"; "4"; "5"; "6"; "7";
     "8"; "9"; "A"; "B"; "C"; "D"; "E"; "F"]%char "0"%char.

Definition percentEncode (c : ascii) : string :=
  let n := N_of_ascii c in
  String "%" (String (hexDigit (n / 16)%N) (String (hexDigit (n mod 16)%N) EmptyString)).

(** [encodeURIComponent] on a well-formed string: every byte of the UTF-8
    form that is not unreserved becomes [%XX]. *)
Fixpoint encodeURIComponent (s : string) : string :=
  match s with
  | EmptyString => EmptyString
  | String c rest =>
      if isUnreserved c then String c (encodeURIComponent rest)
      else percentEncode c +:+ encodeURIComponent rest
  end.

(** [v?.startsWith(p)] for a property value [v]: [undefined] (falsy) on a
    nullish value, the test on a string, a TypeError on any other value,
    which has no [startsWith] method. *)
Definition optStartsWith (v : JsVal) (p : string) : Prog bool :=
  match v with
  | JUndefined | JNull => Ret false
  | JStr s => Ret (String.prefix p s)
  | JBool _ | JNum _ => Throw "TypeError: startsWith is not a function"
  end.

(* ===================================================================== *)
(** ** The image proxy: requests, upstream outcomes, responses *)
(* ===================================================================== *)

(** What [await fetch(u, opts)] does: resolve with a response, or reject
    with an AbortError (the timeout fired) or with another error. *)
Inductive FetchOutcome : Type :=
| Responded (status : Z) (statusText : string) (contentType : option string)
| Aborted
| Failed (message : string).

(** [r.ok]. *)
Definition isOk (status : Z) : bool := (200 <=? status) && (status <=? 299).

(** What the handler sends: [res.status(s).json({ error })],
    [res.redirect(location)], or the upstream body piped with headers. *)
Inductive Response : Type :=
| JsonError (status : Z) (error : string)
| Redirect (location : string)
| Piped (contentType : string) (cacheControl : option string).

(** [fetch] as the handler sees it: URL and request headers in, outcome out. *)
Definition Fetch : Type := string -> list (string * string) -> FetchOutcome.

(** [r.headers.get('content-type') || 'image/jpeg']. *)
Definition contentTypeOr (ct : option string) : string :=
  match ct with
  | Some s => if String.eqb s EmptyString then "image/jpeg" else s
  | None => "image/jpeg"
  end.

(* ===================================================================== *)
(** ** Variant 1: Jellyfin *)
(* ===================================================================== *)

Module Jellyfin.

Record Config : Type := {
  JELLYFIN_URL : option string;
  JELLYFIN_TOKEN : option string;
  JELLYFIN_USER_ID : option string;
  JELLYFIN_DB_PATH : option string;
  TIMEOUT_MS : Z
}.

Definition hasJellyfinEnv (cfg : Config) : bool :=
  envTruthy (JELLYFIN_URL cfg) && envTruthy (JELLYFIN_TOKEN cfg) &&
  envTruthy (JELLYFIN_USER_ID cfg).

(** A Jellyfin item: its scalar properties and the nested [ImageTags]
    object ([None] when the property holds no object). *)
Record Item : Type := {
  props : Raw;
  ImageTags : option Raw
}.

(** [item.ImageTags?.f]. *)
Definition imageTag (item : Item) (f : string) : JsVal :=
  match ImageTags item with
  | Some tags => field tags f
  | None => JUndefined
  end.

Definition posterFromJellyfin (cfg : Config) (item : Item) : option string :=
  if negb (hasJellyfinEnv cfg) then None
  else
    let imageId := jor (imageTag item "Primary") (imageTag item "Thumb") in
    if truthy imageId && truthy (field (props item) "Id") then
      let jellyfinUrl :=
        envStr (JELLYFIN_URL cfg) +:+ "/Items/" +:+ toStr (field (props item) "Id") +:+
        "/Images/Primary?height=450&width=300&quality=96&tag=" +:+ toStr imageId in
      Some ("/api/media/img?u=" +:+ encodeURIComponent jellyfinUrl +:+ "&auth=jellyfin")
    else None.

(** [GET /img]: [u] and [auth] are [req.query.u] and [req.query.auth]. *)
Definition imgHandler (cfg : Config) (fetch : Fetch)
    (u auth : option string) : Response :=
  match u with
  | None => JsonError 400 "missing u"
  | Some url =>
      if String.eqb url EmptyString then JsonError 400 "missing u"
      else
        let headers := [("User-Agent", "media-proxy/1.0")] in
        let headers :=
          if bool_decide (auth = Some "jellyfin")
          then (headers ++ [("Authorization",
                 "MediaBrowser Token=" +:+ dquote +:+ envStr (JELLYFIN_TOKEN cfg) +:+ dquote)])%list
          else headers in
        match fetch url headers with
        | Responded status _ ct =>
            if negb (isOk status) then Redirect "/placeholder-poster.jpg"
            else Piped (contentTypeOr ct) (Some "public, max-age=3600")
        | Aborted | Failed _ => Redirect "/placeholder-poster.jpg"
        end
  end.

End Jellyfin.

(* ===================================================================== *)
(** ** Activity grids of the Jellyfin variant *)
(* ===================================================================== *)

(** [arr[i]] for an array of strings: [undefined] out of range. *)
Definition elemAt (arr : list string) (i : Z) : JsVal :=
  if i <? 0 then JUndefined
  else match arr !! Z.to_nat i with
       | Some s => JStr s
       | None => JUndefined
       end.

Module Activity.

(** A playback event as [getPlaybackEvents] returns it: [timestamp] is the
    time value of a valid [Date] (invalid dates are filtered out there). *)
Record Event : Type := { timestamp : Z }.

Definition days : list string :=
  ["Mon"; "Tue"; "Wed"; "Thu"; "Fri"; "Sat"; "Sun"].

Definition timeBlocks : list string :=
  ["00-03"; "03-06"; "06-09"; "09-12"; "12-15"; "15-18"; "18-21"; "21-24"].

(** The two nested [for ... of] loops that zero every bucket. *)
Definition initWeekly : gmap string Z :=
  foldl (fun data day =>
           foldl (fun data block => <[ day +:+ "_" +:+ block := 0 ]> data)
                 data timeBlocks)
        ∅ days.

(** One turn of the counting loop of [buildWeeklyActivityData]. *)
Definition weeklyStep (h : Host) (data : gmap string Z) (event : Event) : gmap string Z :=
  let date := timestamp event in
  let dayOfWeek := getDay h date in
  let hour := getHours h date in
  let dayIndex := if dayOfWeek =? 0 then 6 else dayOfWeek - 1 in
  let dayName := elemAt days dayIndex in
  let blockIndex := hour / 3 in
  let blockName := elemAt timeBlocks blockIndex in
  let key := toStr dayName +:+ "_" +:+ toStr blockName in
  match data !! key with
  | Some n => <[ key := n + 1 ]> data
  | None => data
  end.

Definition buildWeeklyActivityData (h : Host) (events : list Event) : Prog (gmap string Z) :=
  mret (foldl (weeklyStep h) initWeekly events).

(** [for (let i = 1; i <= 30; i++) data[`day_${i}`] = 0]. *)
Definition initMonthly : gmap string Z :=
  foldl (fun data i => <[ "day_" +:+ numToString i := 0 ]> data) ∅ (seqZ 1 30).

(** One turn of the counting loop of [buildMonthlyActivityData]; [now] is
    the time value of the [new Date()] taken at the top of the function. *)
Definition monthlyStep (now : Z) (data : gmap string Z) (event : Event) : gmap string Z :=
  let eventDate := timestamp event in
  let diffTime := now - eventDate in
  let diffDays := diffTime / (1000 * 60 * 60 * 24) in
  if (0 <=? diffDays) && (diffDays <? 30) then
    let dayKey := "day_" +:+ numToString (30 - diffDays) in
    match data !! dayKey with
    | Some n => <[ dayKey := n + 1 ]> data
    | None => data
    end
  else data.

(** The grid the function returns when its [new Date()] reads [now]. *)
Definition monthlyGrid (now : Z) (events : list Event) : gmap string Z :=
  foldl (monthlyStep now) initMonthly events.

Definition buildMonthlyActivityData (events : list Event) : Prog (gmap string Z) :=
  now ← dateNow;
  mret (monthlyGrid now events).

(** The fixed key sets, written out independently of the loops. *)
Definition weeklyKeys : gset string :=
  list_to_set
    (day ← ["Mon"; "Tue"; "Wed"; "Thu"; "Fri"; "Sat"; "Sun"];
     block ← ["00-03"; "03-06"; "06-09"; "09-12"; "12-15"; "15-18"; "18-21"; "21-24"];
     [day +:+ "_" +:+ block]).

Definition monthlyKeys : gset string :=
  list_to_set
    ["day_1"; "day_2"; "day_3"; "day_4"; "day_5"; "day_6"; "day_7"; "day_8";
     "day_9"; "day_10"; "day_11"; "day_12"; "day_13"; "day_14"; "day_15";
     "day_16"; "day_17"; "day_18"; "day_19"; "day_20"; "day_21"; "day_22";
     "day_23"; "day_24"; "day_25"; "day_26"; "day_27"; "day_28"; "day_29";
     "day_30"].

End Activity.

(* ===================================================================== *)
(** ** [getWatchedAt] (identical in the Tautulli and Tautulli+Plex variants) *)
(* ===================================================================== *)

Definition candidates (x : Raw) : list JsVal :=
  [field x "viewed_at"; field x "date"; field x "started"; field x "time";
   field x "last_played"; field x "played_at"; field x "event_time"].

(** [typeof c === 'number' && c > 100000 && c < 9999999999], then [c * 1000]. *)
Definition epochSeconds (c : JsVal) : option Z :=
  match c with
  | JNum n => if (100000 <? n) && (n <? 9999999999) then Some (n * 1000) else None
  | _ => None
  end.

(** [typeof c === 'number' && c >= 9999999999], then [c]. *)
Definition epochMillis (c : JsVal) : option Z :=
  match c with
  | JNum n => if 9999999999 <=? n then Some n else None
  | _ => None
  end.

(** The [for (const c of candidates)] loop; [None] is the final [null]. *)
Fixpoint scanCandidates (h : Host) (cs : list JsVal) : option Z :=
  match cs with
  | [] => None
  | c :: rest =>
      if negb (truthy c) then scanCandidates h rest
      else
        match epochSeconds c with
        | Some t => Some t
        | None =>
            match epochMillis c with
            | Some t => Some t
            | None =>
                match Date_parse h (toStr c) with
                | Some t => Some t
                | None => scanCandidates h rest
                end
            end
        end
  end.

Definition getWatchedAt (h : Host) (x : Raw) : option Z :=
  scanCandidates h (candidates x).

(** [t || 0] for a value that is [null] or a number. *)
Definition orZero (t : option Z) : Z := default 0 t.

(* ===================================================================== *)
(** ** [Array.prototype.sort] with a consistent numeric comparator *)
(* ===================================================================== *)

(** The sort is stable (ECMAScript 2019): an element moves in front of
    another only when the comparator is positive for the pair in input
    order.  For a consistent comparator every stable sort gives the same
    array; insertion from the right is the one written here. *)
Section Sort.
Context {A : Type} (cmp : A -> A -> Z).

Fixpoint insertSorted (a : A) (l : list A) : list A :=
  match l with
  | [] => [a]
  | b :: rest => if cmp a b <=? 0 then a :: b :: rest else b :: insertSorted a rest
  end.

Definition sortBy (l : list A) : list A := foldr insertSorted [] l.

End Sort.

(* ===================================================================== *)
(** ** The list assembler: push, break at the limit, sort *)
(* ===================================================================== *)

(** [items.length >= limit]; a [NaN] limit ([None]) is never reached. *)
Definition reached (len : nat) (limit : option Z) : bool :=
  match limit with
  | Some l => l <=? Z.of_nat len
  | None => false
  end.

(** The recently-watched and recently-added handlers run the same loop
    around their own item builder and comparator:
    [for (const x of list) { ...; items.push(item); if (items.length >= limit) break; }]
    and then [items.sort(compare)]. *)
Section Assembler.
Context {Item : Type}.
Variable makeItem : Raw -> Prog Item.
Variable compareItems : Item -> Item -> Z.
Variable limit : option Z.

Fixpoint collect (items : list Item) (records : list Raw) : Prog (list Item) :=
  match records with
  | [] => Ret items
  | x :: rest =>
      item ← makeItem x;
      let items := (items ++ [item])%list in
      if reached (length items) limit then Ret items else collect items rest
  end.

Definition assemble (records : list Raw) : Prog (list Item) :=
  items ← collect [] records;
  Ret (sortBy compareItems items).

End Assembler.

(* ===================================================================== *)
(** ** [parseInt] with the radix left out *)
(* ===================================================================== *)

(** ASCII white space and line terminators (the multi-byte ones are not
    modelled). *)
Definition isWhiteSpace (c : ascii) : bool :=
  existsb (N.eqb (N_of_ascii c)) [9; 10; 11; 12; 13; 32]%N.

Fixpoint trimStart (s : string) : string :=
  match s with
  | String c rest => if isWhiteSpace c then trimStart rest else s
  | EmptyString => s
  end.

Definition digitValue (c : ascii) : option Z :=
  let n := Z.of_N (N_of_ascii c) in
  if (48 <=? n) && (n <=? 57) then Some (n - 48)
  else if (97 <=? n) && (n <=? 122) then Some (n - 87)
  else if (65 <=? n) && (n <=? 90) then Some (n - 55)
  else None.

(** The longest prefix of radix-[R] digits, [None] when it is empty. *)
Fixpoint parseDigits (R : Z) (acc : option Z) (s : string) : option Z :=
  match s with
  | String c rest =>
      match digitValue c with
      | Some d => if d <? R then parseDigits R (Some (R * default 0 acc + d)) rest else acc
      | None => acc
      end
  | EmptyString => acc
  end.

(** [parseInt(s)]; [None] is [NaN]. *)
Definition parseInt (s : string) : option Z :=
  let s := trimStart s in
  let '(sign, s) :=
    match s with
    | String "-" rest => (-1, rest)
    | String "+" rest => (1, rest)
    | _ => (1, s)
    end in
  let '(R, s) :=
    match s with
    | String "0" (String "x" rest) | String "0" (String "X" rest) => (16, rest)
    | _ => (10, s)
    end in
  match parseDigits R None s with
  | Some n => Some (sign * n)
  | None => None
  end.

(** [p || q] on two poster calls: [q] runs only when [p] came back falsy. *)
Definition posterOr (p q : Prog (option string)) : Prog (option string) :=
  r ← p;
  match r with
  | Some s => if String.eqb s EmptyString then q else Ret (Some s)
  | None => q
  end.

(* ===================================================================== *)
(** ** Recently watched (Tautulli and Tautulli+Plex variants) *)
(* ===================================================================== *)

Module Watched.

Record Item : Type := {
  title : JsVal;
  grandparent_title : JsVal;
  year : JsVal;
  watched_at : option Z;
  media_type : JsVal;
  poster : option string
}.

Section Assemble.
Variable h : Host.
(** The variant's own [posterFromTautulli], already given its configuration. *)
Variable posterFromTautulli : Raw -> Prog (option string).
Variable limit : option Z.

(** The body of [for (const x of list)] up to [items.push]. *)
Definition makeItem (x : Raw) : Prog Item :=
  let title :=
    jor (jor (jor (jor (field x "title") (field x "full_title"))
                  (field x "media_title"))
             (field x "grandparent_title"))
        (JStr "Unknown") in
  let gp := jor (field x "grandparent_title") JNull in
  let t := getWatchedAt h x in
  poster ← posterOr (posterFromTautulli x)
              (posterFromTautulli
                 {[ "thumb_url" := field x "thumb_url"; "thumb" := field x "thumb" ]});
  Ret {| title := title;
         grandparent_title := gp;
         year := jor (field x "year") JNull;
         watched_at := t;
         media_type := jor (jor (field x "media_type") (field x "section_type"))
                           (JStr EmptyString);
         poster := poster |}.

(** [(a, b) => (b.watched_at || 0) - (a.watched_at || 0)]. *)
Definition compareItems (a b : Item) : Z :=
  orZero (watched_at b) - orZero (watched_at a).

(** From [const items = []] to the sorted [items] of the payload. *)
Definition recentlyWatchedItems (records : list Raw) : Prog (list Item) :=
  assemble makeItem compareItems limit records.

End Assemble.
End Watched.

(* ===================================================================== *)
(** ** Variant 2: Tautulli *)
(* ===================================================================== *)

Module Tautulli.

Record Config : Type := {
  TAUTULLI_URL : option string;
  TAUTULLI_KEY : option string;
  TIMEOUT_MS : Z
}.

Definition hasTautulliEnv (cfg : Config) : bool :=
  envTruthy (TAUTULLI_URL cfg) && envTruthy (TAUTULLI_KEY cfg).

Definition posterFromTautulli (cfg : Config) (raw : Raw) : Prog (option string) :=
  if negb (hasTautulliEnv cfg) then Ret None
  else
    absolute ← optStartsWith (field raw "thumb_url") "http";
    if (absolute : bool) then
      Ret (Some ("/api/media/img?u=" +:+ encodeURIComponent (toStr (field raw "thumb_url"))))
    else
      pms ← optStartsWith (field raw "thumb") "/";
      if (pms : bool) then
        let u := envStr (TAUTULLI_URL cfg) +:+ "/pms/image?url=" +:+
                 encodeURIComponent (toStr (field raw "thumb")) +:+
                 "&width=300&height=450&fallback=poster&apikey=" +:+
                 envStr (TAUTULLI_KEY cfg) in
        Ret (Some ("/api/media/img?u=" +:+ encodeURIComponent u))
      else Ret None.

(** [GET /api/media/img]. *)
Definition imgHandler (cfg : Config) (fetch : Fetch) (u : option string) : Response :=
  match u with
  | None => JsonError 400 "missing u"
  | Some url =>
      if String.eqb url EmptyString then JsonError 400 "missing u"
      else
        match fetch url [] with
        | Responded status _ ct =>
            if negb (isOk status) then JsonError 502 ("upstream " +:+ numToString status)
            else Piped (contentTypeOr ct) None
        | Aborted =>
            JsonError 500 ("timeout after " +:+ numToString (TIMEOUT_MS cfg) +:+ "ms")
        | Failed message => JsonError 500 message
        end
  end.

Definition recentlyWatchedItems (h : Host) (cfg : Config) :=
  Watched.recentlyWatchedItems h (posterFromTautulli cfg).

End Tautulli.

(* ===================================================================== *)
(** ** Variant 3: Tautulli + Plex *)
(* ===================================================================== *)

Module Plex.

Record Config : Type := {
  TAUTULLI_URL : option string;
  TAUTULLI_KEY : option string;
  PLEX_URL : option string;
  PLEX_TOKEN : option string;
  TIMEOUT_MS : Z
}.

Definition hasTautulliEnv (cfg : Config) : bool :=
  envTruthy (TAUTULLI_URL cfg) && envTruthy (TAUTULLI_KEY cfg).

Definition hasPlexEnv (cfg : Config) : bool :=
  envTruthy (PLEX_URL cfg) && envTruthy (PLEX_TOKEN cfg).

Definition posterFromTautulli (cfg : Config) (raw : Raw) : Prog (option string) :=
  if negb (hasPlexEnv cfg) then Ret None
  else
    absolute ← optStartsWith (field raw "thumb_url") "http";
    if (absolute : bool) then
      Ret (Some ("/api/media/img?u=" +:+ encodeURIComponent (toStr (field raw "thumb_url"))))
    else
      pms ← optStartsWith (field raw "thumb") "/";
      if (pms : bool) then
        let plexUrl := envStr (PLEX_URL cfg) +:+ toStr (field raw "thumb") +:+
                       "?width=300&height=450&X-Plex-Token=" +:+
                       envStr (PLEX_TOKEN cfg) in
        Ret (Some ("/api/media/img?u=" +:+ encodeURIComponent plexUrl))
      else Ret None.

(** [GET /img]. *)
Definition imgHandler (cfg : Config) (fetch : Fetch) (u : option string) : Response :=
  match u with
  | None => JsonError 400 "missing u"
  | Some url =>
      if String.eqb url EmptyString then JsonError 400 "missing u"
      else
        match fetch url [("User-Agent", "media-proxy/1.0")] with
        | Responded status _ ct =>
            if negb (isOk status) then Redirect "/placeholder-poster.jpg"
            else Piped (contentTypeOr ct) (Some "public, max-age=3600")
        | Aborted | Failed _ => Redirect "/placeholder-poster.jpg"
        end
  end.

Definition recentlyWatchedItems (h : Host) (cfg : Config) :=
  Watched.recentlyWatchedItems h (posterFromTautulli cfg).

(** *** Recently added *)
Module Added.

(** What [added] holds once the handler is done with it: a number, or
    [true] itself when the record's [added_at] is the boolean [true]. *)
Inductive AddedAt : Type :=
| AddedNum (n : Z)
| AddedTrue.

Record Item : Type := {
  title : JsVal;
  grandparent_title : JsVal;
  year : JsVal;
  added_at : AddedAt;
  media_type : JsVal;
  poster : option string
}.

Definition displayTitle (x : Raw) : JsVal :=
  if bool_decide (field x "media_type" = JStr "season") && truthy (field x "parent_title")
  then JStr (toStr (field x "parent_title") +:+ " — " +:+ toStr (field x "title"))
  else if bool_decide (field x "media_type" = JStr "movie")
  then jor (jor (field x "title") (field x "original_title")) (JStr "Unknown Movie")
  else jor (jor (jor (field x "title") (field x "parent_title")) (field x "full_title"))
           (JStr "Unknown").

(** [if (!added) added = Date.now()] on a numeric [added] ([None]: NaN). *)
Definition numberOrNow (added : option Z) : Prog AddedAt :=
  match added with
  | Some n => if n =? 0 then now ← dateNow; Ret (AddedNum now) else Ret (AddedNum n)
  | None => now ← dateNow; Ret (AddedNum now)
  end.

(** [let added = x.added_at] and the three [if]s after it. *)
Definition resolveAdded (added : JsVal) : Prog AddedAt :=
  match added with
  | JStr s =>
      (* typeof added === 'string': parseInt(added) * 1000 *)
      numberOrNow (n ← parseInt s; Some (n * 1000))
  | JNum n =>
      (* typeof added === 'number' && added < 9999999999: added * 1000 *)
      numberOrNow (Some (if n <? 9999999999 then n * 1000 else n))
  | JBool true => Ret AddedTrue
  | JBool false | JNull | JUndefined => now ← dateNow; Ret (AddedNum now)
  end.

Section Assemble.
Variable cfg : Config.
Variable limit : option Z.

Definition makeItem (x : Raw) : Prog Item :=
  let gp := jor (jor (field x "parent_title") (field x "grandparent_title")) JNull in
  added ← resolveAdded (field x "added_at");
  poster ← posterOr (posterFromTautulli cfg {[ "thumb" := field x "thumb" ]})
              (posterFromTautulli cfg {[ "thumb" := field x "parent_thumb" ]});
  Ret {| title := displayTitle x;
         grandparent_title := gp;
         year := jor (field x "year") JNull;
         added_at := added;
         media_type := jor (field x "media_type") (JStr EmptyString);
         poster := poster |}.

(** [v || 0] under the subtraction: [true] counts as 1. *)
Definition addedKey (v : AddedAt) : Z :=
  match v with
  | AddedNum n => n
  | AddedTrue => 1
  end.

(** [(a, b) => (b.added_at || 0) - (a.added_at || 0)]. *)
Definition compareItems (a b : Item) : Z :=
  addedKey (added_at b) - addedKey (added_at a).

(** From [const items = []] to the sorted [items] of the payload. *)
Definition recentlyAddedItems (records : list Raw) : Prog (list Item) :=
  assemble makeItem compareItems limit records.

End Assemble.
End Added.

(** *** The monthly activity loop of the handler *)

(** [!t] for a [getWatchedAt] result. *)
Definition noStamp (t : option Z) : bool :=
  match t with
  | Some n => n =? 0
  | None => true
  end.

(** [for (let i = 0; i < 30; i++) monthData[`day_${i+1}`] = 0]. *)
Definition initMonthly : gmap string Z :=
  foldl (fun monthData i => <[ "day_" +:+ numToString (i + 1) := 0 ]> monthData)
        ∅ (seqZ 0 30).

Definition monthlyStep (h : Host) (now : Z) (monthData : gmap string Z) (x : Raw)
    : gmap string Z :=
  let monthAgo := now - 30 * 24 * 60 * 60 * 1000 in
  let t := getWatchedAt h x in
  if noStamp t || (orZero t <? monthAgo) then monthData
  else
    let daysAgo := (now - orZero t) / (24 * 60 * 60 * 1000) in
    if daysAgo <? 30 then
      let dayKey := "day_" +:+ numToString (30 - daysAgo) in
      <[ dayKey := default 0 (monthData !! dayKey) + 1 ]> monthData
    else monthData.

(** The grid the loop leaves when [Date.now()] reads [now]. *)
Definition monthlyGrid (h : Host) (now : Z) (records : list Raw) : gmap string Z :=
  foldl (monthlyStep h now) initMonthly records.

(** From [const monthData = {}] to the [data] of the payload. *)
Definition monthlyData (h : Host) (records : list Raw) : Prog (gmap string Z) :=
  now ← dateNow;
  Ret (monthlyGrid h now records).

End Plex.

(* ===================================================================== *)
(** ** Parsed JSON bodies and [arr] (Tautulli and Tautulli+Plex variants) *)
(* ===================================================================== *)

(** A parsed JSON value.  An object is the list of its own properties in
    enumeration order, each key once. *)
#[local] Unset Elimination Schemes.
Inductive Json : Type :=
| JsonNull
| JsonBool (b : bool)
| JsonNum (z : Z)
| JsonStr (s : string)
| JsonArr (elems : list Json)
| JsonObj (members : list (string * Json)).
#[local] Set Elimination Schemes.

Fixpoint memberOf (name : string) (members : list (string * Json)) : option Json :=
  match members with
  | [] => None
  | (k, v) :: rest => if String.eqb k name then Some v else memberOf name rest
  end.


(** [Array.isArray(v) ? v : (v && Array.isArray(v.data)) ? v.data
     : (v && typeof v === 'object') ? Object.values(v) : []]. *)
Definition arr (v : option Json) : list Json :=
  match v with
  | Some (JsonArr elems) => elems
  | Some (JsonObj members) =>
      match memberOf "data" members with
      | Some (JsonArr elems) => elems
      | _ => map snd members
      end
  | _ => []
  end.


(* ===================================================================== *)
(** ** [safeFetchJson] (identical in the three variants) *)
(* ===================================================================== *)






(* ===================================================================== *)
(** ** The request handlers of the Tautulli and Tautulli+Plex variants *)
(* ===================================================================== *)

(** The JSON bodies these handlers send and cache: [{ items, warning }]
    for the two lists, [{ data, warning }] for the two grids,
    [{ days, counts, warning }] for the daily counts. *)
Inductive Body : Type :=
| WatchedBody (items : list Watched.Item) (warning : option string)
| AddedBody (items : list Plex.Added.Item) (warning : option string)
| GridBody (data : gmap string Z) (warning : option string)
| DailyBody (days : list string) (counts : list Z) (warning : option string).

(** What [await safeFetchJson(url)] gives a handler, the record list
    ([arr] of the body's [response.data]) already taken out of a
    successful answer. *)
Inductive Upstream : Type :=
| UpstreamOk (records : list Raw)
| UpstreamError (error : string).


(** [getC(key)] and [setC(key, payload, ms)] as steps of a handler: each
    reads the clock once. *)
Definition getCached (cache : gmap string (Cache.Entry Body)) (key : string)
    : Prog (option Body) :=
  now ← dateNow;
  Ret (Cache.getC now cache key).

Definition setCached (cache : gmap string (Cache.Entry Body)) (key : string)
    (payload : Body) (ms : Z) : Prog (gmap string (Cache.Entry Body)) :=
  now ← dateNow;
  Ret (Cache.setC now cache key payload (Some ms)).

(** A number that may be [NaN], in a template literal. *)
Definition numText (n : option Z) : string :=
  match n with
  | Some z => numToString z
  | None => "NaN"
  end.

(** [Math.max(a, limit * k)]. *)
Definition maxScaled (a : Z) (limit : option Z) (k : Z) : option Z :=
  n ← limit; Some (Z.max a (n * k)).

(** [GET /recently-watched]; [limit] is [Number(req.query.limit || 12)].
    The two variants differ in their poster builder only. *)
Section RecentlyWatched.
Variable h : Host.
Variable TAUTULLI_URL TAUTULLI_KEY : option string.
Variable posterFromTautulli : Raw -> Prog (option string).
Variable upstream : string -> Upstream.

Definition recentlyWatched (limit : option Z) (cache : gmap string (Cache.Entry Body))
    : Prog (Body * gmap string (Cache.Entry Body)) :=
  if negb (envTruthy TAUTULLI_URL && envTruthy TAUTULLI_KEY)
  then Ret (WatchedBody [] (Some "tautulli not configured"), cache)
  else
    let key := "watched-" +:+ numText limit in
    hit ← getCached cache key;
    match hit with
    | Some body => Ret (body, cache)
    | None =>
        match upstream (envStr TAUTULLI_URL +:+ "/api/v2?apikey=" +:+ envStr TAUTULLI_KEY +:+
                        "&cmd=get_history&length=" +:+ numText (maxScaled 50 limit 3)) with
        | UpstreamError error =>
            Ret (WatchedBody [] (Some ("tautulli: " +:+ error)), cache)
        | UpstreamOk records =>
            items ← Watched.recentlyWatchedItems h posterFromTautulli limit records;
            let payload := WatchedBody items None in
            cache' ← setCached cache key payload 15000;
            Ret (payload, cache')
        end
    end.

End RecentlyWatched.

Module TautulliServer.

Definition recentlyWatched (h : Host) (cfg : Tautulli.Config) :=
  recentlyWatched h (Tautulli.TAUTULLI_URL cfg) (Tautulli.TAUTULLI_KEY cfg)
    (Tautulli.posterFromTautulli cfg).

End TautulliServer.

Module PlexServer.

Definition recentlyWatched (h : Host) (cfg : Plex.Config) :=
  recentlyWatched h (Plex.TAUTULLI_URL cfg) (Plex.TAUTULLI_KEY cfg)
    (Plex.posterFromTautulli cfg).

Section Handlers.
Variable h : Host.
Variable cfg : Plex.Config.
Variable upstream : string -> Upstream.

(** The start of every upstream URL: [`${TAUTULLI_URL}/api/v2?apikey=${TAUTULLI_KEY}`]. *)
Definition apiBase : string :=
  envStr (Plex.TAUTULLI_URL cfg) +:+ "/api/v2?apikey=" +:+ envStr (Plex.TAUTULLI_KEY cfg).

(** [GET /recently-added]; [limit] is [Number(req.query.limit || 10)]. *)
Definition recentlyAdded (limit : option Z) (cache : gmap string (Cache.Entry Body))
    : Prog (Body * gmap string (Cache.Entry Body)) :=
  if negb (Plex.hasTautulliEnv cfg)
  then Ret (AddedBody [] (Some "tautulli not configured"), cache)
  else
    let key := "added-" +:+ numText limit in
    hit ← getCached cache key;
    match hit with
    | Some body => Ret (body, cache)
    | None =>
        match upstream (apiBase +:+ "&cmd=get_recently_added&count=" +:+
                        numText (maxScaled 30 limit 2)) with
        | UpstreamError error =>
            Ret (AddedBody [] (Some ("tautulli: " +:+ error)), cache)
        | UpstreamOk records =>
            items ← Plex.Added.recentlyAddedItems cfg limit records;
            let payload := AddedBody items None in
            cache' ← setCached cache key payload 30000;
            Ret (payload, cache')
        end
    end.

(** [createEmptyWeeklyData()], and the same loops run again in the handler. *)
Definition createEmptyWeeklyData : gmap string Z :=
  foldl (fun emptyData day =>
           foldl (fun emptyData block => <[ day +:+ "_" +:+ block := 0 ]> emptyData)
                 emptyData Activity.timeBlocks)
        ∅ Activity.days.

(** [new Date(t)] for a number [t]: an invalid date ([None]) beyond the
    range of time values. *)
Definition timeClip (t : Z) : option Z :=
  if Z.abs t <=? 8640000000000000 then Some t else None.

(** [arr[i]] for an index that may be [NaN]. *)
Definition elemAtNum (arr : list string) (i : option Z) : JsVal :=
  match i with
  | Some n => elemAt arr n
  | None => JUndefined
  end.

(** One turn of the counting loop of [GET /activity/weekly]. *)
Definition weeklyStep (now : Z) (weekData : gmap string Z) (x : Raw) : gmap string Z :=
  let weekAgo := now - 7 * 24 * 60 * 60 * 1000 in
  let t := getWatchedAt h x in
  if Plex.noStamp t || (orZero t <? weekAgo) then weekData
  else
    let date := timeClip (orZero t) in
    let day := elemAtNum Activity.days
                 (d ← date; Some (if getDay h d =? 0 then 6 else getDay h d - 1)) in
    let hour := (d ← date; Some (getHours h d)) in
    let blockIndex := (n ← hour; Some (n / 3)) in
    let block := elemAtNum Activity.timeBlocks blockIndex in
    let key := toStr day +:+ "_" +:+ toStr block in
    <[ key := default 0 (weekData !! key) + 1 ]> weekData.

Definition weeklyGrid (now : Z) (records : list Raw) : gmap string Z :=
  foldl (weeklyStep now) createEmptyWeeklyData records.

(** [GET /activity/weekly]. *)
Definition activityWeekly (cache : gmap string (Cache.Entry Body))
    : Prog (Body * gmap string (Cache.Entry Body)) :=
  if negb (Plex.hasTautulliEnv cfg)
  then Ret (GridBody ∅ (Some "tautulli not configured"), cache)
  else
    let key := "activity-weekly" in
    hit ← getCached cache key;
    match hit with
    | Some body => Ret (body, cache)
    | None =>
        match upstream (apiBase +:+ "&cmd=get_history&length=500") with
        | UpstreamError error =>
            Ret (GridBody createEmptyWeeklyData (Some ("tautulli: " +:+ error)), cache)
        | UpstreamOk records =>
            now ← dateNow;
            let payload := GridBody (weeklyGrid now records) None in
            cache' ← setCached cache key payload 30000;
            Ret (payload, cache')
        end
    end.

(** [GET /activity/monthly]; [createEmptyMonthlyData()] runs the loop of
    [Plex.initMonthly]. *)
Definition activityMonthly (cache : gmap string (Cache.Entry Body))
    : Prog (Body * gmap string (Cache.Entry Body)) :=
  if negb (Plex.hasTautulliEnv cfg)
  then Ret (GridBody ∅ (Some "tautulli not configured"), cache)
  else
    let key := "activity-monthly" in
    hit ← getCached cache key;
    match hit with
    | Some body => Ret (body, cache)
    | None =>
        match upstream (apiBase +:+ "&cmd=get_history&length=800") with
        | UpstreamError error =>
            Ret (GridBody Plex.initMonthly (Some ("tautulli: " +:+ error)), cache)
        | UpstreamOk records =>
            monthData ← Plex.monthlyData h records;
            let payload := GridBody monthData None in
            cache' ← setCached cache key payload 30000;
            Ret (payload, cache')
        end
    end.

End Handlers.
End PlexServer.

(* ===================================================================== *)
(** ** [GET /activity/daily] (the same in the Tautulli and the Tautulli+Plex variant) *)
(* ===================================================================== *)

Module Daily.





Section Handler.
Variable h : Host.
Variable TAUTULLI_URL TAUTULLI_KEY : option string.
Variable upstream : string -> Upstream.

(** [d.setHours(0,0,0,0)] on a valid date: the time value of its local
    midnight, or [None] for [NaN]. *)
Variable startOfDay : Z -> option Z.

(** [d.toISOString().slice(0,10)] on a valid date. *)
Variable isoDay : Z -> string.







End Handler.
End Daily.

(* ===================================================================== *)
(** ** The playback database and activity handlers of the Jellyfin variant *)
(* ===================================================================== *)

Module JellyfinServer.

(** A read-only database handle: [db.prepare(query).all()] gives rows, or
    throws ([None]). *)
Definition Db : Type := string -> option (list Raw).

(** [new Date(value)] as a time value, [None] for an invalid date. *)
Definition newDate (h : Host) (value : JsVal) : option Z :=
  match value with
  | JUndefined => None
  | JNull => Some 0
  | JBool b => Some (if b then 1 else 0)
  | JNum n => PlexServer.timeClip n
  | JStr s => Date_parse h s
  end.

Definition possibleQueries (daysBack : Z) : list string :=
  let since := "datetime('now', '-" +:+ numToString daysBack +:+ " days')" in
  [ "SELECT DateCreated as timestamp FROM PlaybackReporting_PlaybackActivity WHERE DateCreated >= " +:+ since;
    "SELECT DatePlayed as timestamp FROM PlaybackReporting_PlaybackActivity WHERE DatePlayed >= " +:+ since;
    "SELECT PlaybackReportingId, DateCreated as timestamp FROM PlaybackReporting_PlaybackActivity WHERE DateCreated >= " +:+ since;
    "SELECT DateCreated as timestamp FROM PlaybackActivity WHERE DateCreated >= " +:+ since;
    "SELECT DatePlayed as timestamp FROM PlaybackActivity WHERE DatePlayed >= " +:+ since;
    "SELECT DateCreated as timestamp FROM sqlite_master WHERE type='table' AND name LIKE '%playback%'" ].

(** [rows.map(row => ({ timestamp: new Date(row.timestamp) }))
         .filter(event => !isNaN(event.timestamp.getTime()))]. *)
Definition validEvents (h : Host) (rows : list Raw) : list Activity.Event :=
  omap (fun row => t ← newDate h (field row "timestamp");
                   Some {| Activity.timestamp := t |}) rows.

(** The [for (const query of possibleQueries)] loop: [None] when it runs
    to its end without a [return]. *)
Fixpoint tryQueries (h : Host) (db : Db) (queries : list string)
    : option (list Activity.Event) :=
  match queries with
  | [] => None
  | query :: rest =>
      match db query with
      | Some (row :: rows) => Some (validEvents h (row :: rows))
      | Some [] => tryQueries h db rest
      | None => tryQueries h db rest
      end
  end.

(** After the loop the function lists the tables for the log and returns
    [[]]; an error there is caught and gives [[]] as well. *)
Definition getPlaybackEvents (h : Host) (db : Db) (daysBack : Z) : list Activity.Event :=
  match tryQueries h db (possibleQueries daysBack) with
  | Some events => events
  | None => []
  end.

(** [new Database(path, { readonly: true })]: a handle, or the message of
    the error it throws. *)
Definition Opener : Type := string -> string + Db.

(** [openJellyfinDatabase()]: a handle, or the message of the error thrown. *)
Definition openJellyfinDatabase (cfg : Jellyfin.Config) (open : Opener) : string + Db :=
  if negb (envTruthy (Jellyfin.JELLYFIN_DB_PATH cfg))
  then inl "JELLYFIN_DB_PATH not configured"
  else
    match open (envStr (Jellyfin.JELLYFIN_DB_PATH cfg)) with
    | inr db => inr db
    | inl message => inl ("Failed to open Jellyfin database: " +:+ message)
    end.

(** The body [{ data, warning }] of the two activity answers. *)
Record Grid : Type := { data : gmap string Z; warning : option string }.

Definition getCached (cache : gmap string (Cache.Entry Grid)) (key : string)
    : Prog (option Grid) :=
  now ← dateNow;
  Ret (Cache.getC now cache key).

(** [setC(key, payload, 30000); res.json(payload)]. *)
Definition cacheAndSend (cache : gmap string (Cache.Entry Grid)) (key : string)
    (payload : Grid) : Prog (Grid * gmap string (Cache.Entry Grid)) :=
  now ← dateNow;
  Ret (payload, Cache.setC now cache key payload (Some 30000)).

Section Handlers.
Variable h : Host.
Variable cfg : Jellyfin.Config.
Variable open : Opener.

(** [GET /activity/weekly]. *)
Definition activityWeekly (cache : gmap string (Cache.Entry Grid))
    : Prog (Grid * gmap string (Cache.Entry Grid)) :=
  let key := "jellyfin-activity-weekly" in
  hit ← getCached cache key;
  match hit with
  | Some payload => Ret (payload, cache)
  | None =>
      let emptyData := Activity.initWeekly in
      if negb (envTruthy (Jellyfin.JELLYFIN_DB_PATH cfg)) then
        cacheAndSend cache key
          {| data := emptyData; warning := Some "JELLYFIN_DB_PATH not configured" |}
      else
        match openJellyfinDatabase cfg open with
        | inl message =>
            cacheAndSend cache key
              {| data := emptyData; warning := Some ("Database error: " +:+ message) |}
        | inr db =>
            let events := getPlaybackEvents h db 7 in
            match events with
            | [] =>
                cacheAndSend cache key
                  {| data := emptyData;
                     warning := Some "No playback events found in Jellyfin database" |}
            | _ :: _ =>
                activityData ← Activity.buildWeeklyActivityData h events;
                cacheAndSend cache key {| data := activityData; warning := None |}
            end
        end
  end.

(** [GET /activity/monthly]. *)
Definition activityMonthly (cache : gmap string (Cache.Entry Grid))
    : Prog (Grid * gmap string (Cache.Entry Grid)) :=
  let key := "jellyfin-activity-monthly" in
  hit ← getCached cache key;
  match hit with
  | Some payload => Ret (payload, cache)
  | None =>
      let emptyData := Activity.initMonthly in
      if negb (envTruthy (Jellyfin.JELLYFIN_DB_PATH cfg)) then
        cacheAndSend cache key
          {| data := emptyData; warning := Some "JELLYFIN_DB_PATH not configured" |}
      else
        match openJellyfinDatabase cfg open with
        | inl message =>
            cacheAndSend cache key
              {| data := emptyData; warning := Some ("Database error: " +:+ message) |}
        | inr db =>
            let events := getPlaybackEvents h db 30 in
            match events with
            | [] =>
                cacheAndSend cache key
                  {| data := emptyData;
                     warning := Some "No playback events found in Jellyfin database" |}
            | _ :: _ =>
                activityData ← Activity.buildMonthlyActivityData events;
                cacheAndSend cache key {| data := activityData; warning := None |}
            end
        end
  end.

End Handlers.
End JellyfinServer.

(* ===================================================================== *)
(** ** The two lists of the Jellyfin variant *)
(* ===================================================================== *)

Module JellyfinLists.

(** An element of the upstream list: the item with its scalar properties
    and [ImageTags], and its [UserData] object ([None] when the property
    holds no object). *)
Record Entry : Type := {
  item : Jellyfin.Item;
  UserData : option Raw
}.

(** [item.name] for a scalar property. *)
Definition prop (e : Entry) (name : string) : JsVal :=
  field (Jellyfin.props (item e)) name.

(** [item.UserData?.LastPlayedDate]. *)
Definition lastPlayedDate (e : Entry) : JsVal :=
  match UserData e with
  | Some data => field data "LastPlayedDate"
  | None => JUndefined
  end.

(** [v === s] for a string literal [s]. *)
Definition isString (v : JsVal) (s : string) : bool :=
  match v with
  | JStr s' => String.eqb s' s
  | _ => false
  end.

(** [`${item.SeasonName} E${item.IndexNumber} - ${item.Name}`]. *)
Definition episodeTitle (e : Entry) : JsVal :=
  JStr (toStr (prop e "SeasonName") +:+ " E" +:+ toStr (prop e "IndexNumber") +:+
        " - " +:+ toStr (prop e "Name")).

Module Watched.
Record Item : Type := {
  title : JsVal;
  grandparent_title : JsVal;
  year : JsVal;
  watched_at : option Z;      (* a number, or [None] for [NaN] *)
  media_type : JsVal;
  poster : option string
}.

(** [(a,b) => (b.watched_at||0) - (a.watched_at||0)]. *)
Definition compareItems (a b : Item) : Z :=
  orZero (watched_at b) - orZero (watched_at a).
End Watched.

Module Added.
Record Item : Type := {
  title : JsVal;
  grandparent_title : JsVal;
  year : JsVal;
  added_at : option Z;        (* a number, or [None] for [NaN] *)
  media_type : JsVal;
  poster : option string
}.

(** [(a,b) => (b.added_at||0) - (a.added_at||0)]. *)
Definition compareItems (a b : Item) : Z :=
  orZero (added_at b) - orZero (added_at a).
End Added.

Section Lists.
Variable h : Host.
Variable cfg : Jellyfin.Config.

(** [String.prototype.toLowerCase]. *)
Variable toLowerCase : string -> string.

(** [item.Type?.toLowerCase() || '']. *)
Definition mediaType (e : Entry) : Prog JsVal :=
  match prop e "Type" with
  | JUndefined | JNull => Ret (JStr EmptyString)
  | JStr s => Ret (jor (JStr (toLowerCase s)) (JStr EmptyString))
  | JBool _ | JNum _ => Throw "TypeError: item.Type?.toLowerCase is not a function"
  end.

(** The body of the loop of [GET /recently-watched] after its [continue]. *)
Definition watchedItem (e : Entry) : Prog Watched.Item :=
  let title := jor (prop e "Name") (JStr "Unknown") in
  let grandparent_title := JNull in
  let '(title, grandparent_title) :=
    if isString (prop e "Type") "Episode" then
      (if truthy (prop e "SeasonName") && truthy (prop e "IndexNumber")
       then episodeTitle e else title,
       prop e "SeriesName")
    else (title, grandparent_title) in
  let watchedAt :=
    if truthy (lastPlayedDate e) then JellyfinServer.newDate h (lastPlayedDate e)
    else None in
  let poster := Jellyfin.posterFromJellyfin cfg (item e) in
  media ← mediaType e;
  Ret {| Watched.title := title;
         Watched.grandparent_title := grandparent_title;
         Watched.year := jor (prop e "ProductionYear") JNull;
         Watched.watched_at := watchedAt;
         Watched.media_type := media;
         Watched.poster := poster |}.

(** [for (const item of list) { if (!item.UserData?.LastPlayedDate) continue; ...; items.push(...) }]. *)
Fixpoint collectWatched (items : list Watched.Item) (entries : list Entry)
    : Prog (list Watched.Item) :=
  match entries with
  | [] => Ret items
  | e :: rest =>
      if negb (truthy (lastPlayedDate e)) then collectWatched items rest
      else
        pushed ← watchedItem e;
        collectWatched (items ++ [pushed]) rest
  end.

(** From [const items = []] to the sorted [items] of the payload. *)
Definition recentlyWatchedItems (entries : list Entry) : Prog (list Watched.Item) :=
  items ← collectWatched [] entries;
  Ret (sortBy Watched.compareItems items).

(** The body of the loop of [GET /recently-added]. *)
Definition addedItem (e : Entry) : Prog Added.Item :=
  let title := jor (prop e "Name") (JStr "Unknown") in
  let grandparent_title := JNull in
  let '(title, grandparent_title) :=
    if isString (prop e "Type") "Episode" then
      (if truthy (prop e "SeasonName") && truthy (prop e "IndexNumber")
       then episodeTitle e else title,
       prop e "SeriesName")
    else if isString (prop e "Type") "Season" then
      (JStr (toStr (prop e "Name")), prop e "SeriesName")
    else (title, grandparent_title) in
  addedAt ← (if truthy (prop e "DateCreated")
             then Ret (JellyfinServer.newDate h (prop e "DateCreated"))
             else now ← dateNow; Ret (Some now));
  let poster := Jellyfin.posterFromJellyfin cfg (item e) in
  media ← mediaType e;
  Ret {| Added.title := title;
         Added.grandparent_title := grandparent_title;
         Added.year := jor (prop e "ProductionYear") JNull;
         Added.added_at := addedAt;
         Added.media_type := media;
         Added.poster := poster |}.

Fixpoint collectAdded (items : list Added.Item) (entries : list Entry)
    : Prog (list Added.Item) :=
  match entries with
  | [] => Ret items
  | e :: rest =>
      pushed ← addedItem e;
      collectAdded (items ++ [pushed]) rest
  end.

Definition recentlyAddedItems (entries : list Entry) : Prog (list Added.Item) :=
  items ← collectAdded [] entries;
  Ret (sortBy Added.compareItems items).

End Lists.
End JellyfinLists.

(* ===================================================================== *)
(** * Vocabulary of the statements and worked inputs *)
(* ===================================================================== *)

(** ** Hosts, configurations and records of the examples *)

(** A host for the worked examples: UTC, with [Date.parse] given on the
    strings the examples use (an all-digit string is read as a year, as V8
    does; the ISO form of the epoch is 0) and [NaN] elsewhere. *)
Definition utcHost : Host := {|
  Date_parse := fun s =>
    if String.eqb s "100000" then Some 3093527980800000
    else if String.eqb s "1970-01-01T00:00:00Z" then Some 0
    else None;
  localTZA := fun _ => 0
|}.

Definition tautulliCfg : Tautulli.Config := {|
  Tautulli.TAUTULLI_URL := Some "http://tautulli:8181";
  Tautulli.TAUTULLI_KEY := Some "s3cr3tk3y";
  Tautulli.TIMEOUT_MS := 1500
|}.

Definition plexCfg : Plex.Config := {|
  Plex.TAUTULLI_URL := Some "http://tautulli:8181";
  Plex.TAUTULLI_KEY := Some "s3cr3tk3y";
  Plex.PLEX_URL := Some "http://plex:32400";
  Plex.PLEX_TOKEN := Some "pl3xT0k3n";
  Plex.TIMEOUT_MS := 1500
|}.

Definition thumbRecord : Raw := {[ "thumb" := JStr "/library/metadata/42/thumb/17" ]}.

(** A record whose only timestamp is the ISO form of the epoch. *)
Definition epochRecord : Raw := {[ "date" := JStr "1970-01-01T00:00:00Z" ]}.

(** Five records added one second apart, oldest first. *)
Definition fiveRecords : list Raw :=
  [ {[ "title" := JStr "one"; "added_at" := JNum 1700000001 ]};
    {[ "title" := JStr "two"; "added_at" := JNum 1700000002 ]};
    {[ "title" := JStr "three"; "added_at" := JNum 1700000003 ]};
    {[ "title" := JStr "four"; "added_at" := JNum 1700000004 ]};
    {[ "title" := JStr "five"; "added_at" := JNum 1700000005 ]} ].

(** A dated record followed by one without any timestamp field. *)
Definition datedThenUntimed : list Raw :=
  [ {[ "title" := JStr "dated"; "added_at" := JNum 1700000000 ]};
    {[ "title" := JStr "untimed" ]} ].

(** Three history records: one without timestamp between two dated ones. *)
Definition history : list Raw :=
  [ {[ "title" := JStr "older"; "date" := JNum 1700000000 ]};
    {[ "title" := JStr "untimed" ]};
    {[ "title" := JStr "newer"; "date" := JNum 1700003600 ]} ].

Definition noon : nat -> Z := fun _ => 1800000000000.

(** An upstream that answers 404 to every request. *)
Definition notFound : Fetch := fun _ _ => Responded 404 "Not Found" None.

(** ** The timestamp extractor *)

Definition candidateFields : list string :=
  ["viewed_at"; "date"; "started"; "time"; "last_played"; "played_at"; "event_time"].

(** What one candidate yields on its own. *)
Definition resolveOne (h : Host) (c : JsVal) : option Z := scanCandidates h [c].

(** ** Strings *)

(** A string made of unreserved characters only. *)
Fixpoint unreservedOnly (s : string) : bool :=
  match s with
  | EmptyString => true
  | String c rest => isUnreserved c && unreservedOnly rest
  end.

(** ** Grids *)

(** Adding one to the cell [k] of a grid and touching nothing else. *)
Definition increment (k : string) (grid : gmap string Z) : gmap string Z :=
  <[ k := default 0 (grid !! k) + 1 ]> grid.

(** [if (data[key] !== undefined) data[key]++]. *)
Definition bumpIfPresent (key : string) (data : gmap string Z) : gmap string Z :=
  match data !! key with
  | Some n => <[ key := n + 1 ]> data
  | None => data
  end.

(** The cell an event [daysAgo] days old is counted in. *)
Definition dayKey (daysAgo : Z) : string := "day_" +:+ numToString (30 - daysAgo).

(** ** Item builders and assembled lists *)

(** [makeItem] comes back with an item on [x], whatever the clock. *)
Definition returns {Item : Type} (makeItem : Raw -> Prog Item) (x : Raw) : Prop :=
  forall clock i, exists item j, exec (makeItem x) clock i = (Returned item, j).

(** [item] is what [makeItem] pushes for [x] at some reading of the clock. *)
Definition pushedFor {Item : Type} (makeItem : Raw -> Prog Item) (x : Raw) (item : Item) : Prop :=
  exists clock i j, exec (makeItem x) clock i = (Returned item, j).

(** A value on which [?.startsWith] does not throw. *)
Definition isStringOrNullish (v : JsVal) : bool :=
  match v with
  | JUndefined | JNull | JStr _ => true
  | JBool _ | JNum _ => false
  end.

(** The image fields of a record hold strings, when they hold anything. *)
Definition postersOk (x : Raw) : Prop :=
  isStringOrNullish (field x "thumb_url") = true /\
  isStringOrNullish (field x "thumb") = true /\
  isStringOrNullish (field x "parent_thumb") = true.

(** [items] is [built] put in descending order of [key], strictly so when
    the keys are pairwise distinct. *)
Definition arrangedDescending {A : Type} (key : A -> Z) (built items : list A) : Prop :=
  Permutation items built /\
  StronglySorted (fun a b => key b <= key a) items /\
  (NoDup (map key built) -> StronglySorted (fun a b => key b < key a) items).

Definition watchedKey (item : Watched.Item) : Z := orZero (Watched.watched_at item).

Definition addedKey (item : Plex.Added.Item) : Z :=
  Plex.Added.addedKey (Plex.Added.added_at item).

(** ** Escaped strings and poster values *)

(** A string of unreserved characters and percent signs only: what
    [encodeURIComponent] can produce. *)
Fixpoint urlSafe (s : string) : bool :=
  match s with
  | EmptyString => true
  | String c rest => (isUnreserved c || Ascii.eqb c "%") && urlSafe rest
  end.

(** The value of the hexadecimal digit [c] (0 on any other character). *)
Definition hexValue (c : ascii) : N :=
  let n := N_of_ascii c in
  (if (48 <=? n) && (n <=? 57) then n - 48
   else if (65 <=? n) && (n <=? 70) then n - 55
   else 0)%N.

(** Undoing the percent escapes. *)
Fixpoint unescape (s : string) : string :=
  match s with
  | String "%" (String a (String b rest)) =>
      String (ascii_of_N (hexValue a * 16 + hexValue b)) (unescape rest)
  | String c rest => String c (unescape rest)
  | EmptyString => EmptyString
  end.

(** [v] is a string that starts with [p]. *)
Definition startsWithStr (v : JsVal) (p : string) : bool :=
  match v with
  | JStr s => String.prefix p s
  | _ => false
  end.

(** ** Cells of the grids *)

(** The day index of the grids (0 = Monday) and the three-hour block of
    the instant [t] in local time. *)
Definition mondayIndex (h : Host) (t : Z) : Z :=
  if getDay h t =? 0 then 6 else getDay h t - 1.

Definition blockIndex (h : Host) (t : Z) : Z := getHours h t / 3.

(** The key of day [d] (0 = Monday), block [b]. *)
Definition cellKey (d b : Z) : string :=
  toStr (elemAt Activity.days d) +:+ "_" +:+ toStr (elemAt Activity.timeBlocks b).

(** How many entries of a list pass a test. *)
Definition countIf {E : Type} (test : E -> bool) (l : list E) : Z :=
  Z.of_nat (length (List.filter test l)).

(** The resolved timestamp of a record as the activity loops of the
    Tautulli+Plex variant take it: [None] when [!t]. *)
Definition stampOf (h : Host) (x : Raw) : option Z :=
  match getWatchedAt h x with
  | Some t => if t =? 0 then None else Some t
  | None => None
  end.

(** The test of the cell [day_{30 - d}] of the handler's monthly loop. *)
Definition inMonthlyCell (h : Host) (now d : Z) (x : Raw) : bool :=
  match stampOf h x with
  | Some t => (now - t) / 86400000 =? d
  | None => false
  end.

(** The test of the cell of day [d], block [b] of the handler's weekly
    loop: a timestamp of the last seven days (or later) that is a valid
    date falling on that day and block. *)
Definition inWeeklyCell (h : Host) (now d b : Z) (x : Raw) : bool :=
  match stampOf h x with
  | Some t =>
      (now - 604800000 <=? t) && (Z.abs t <=? 8640000000000000) &&
      (mondayIndex h t =? d) && (blockIndex h t =? b)
  | None => false
  end.

(** The key the handler's weekly loop writes for the timestamp [t]. *)
Definition weeklyKeyOf (h : Host) (t : Z) : string :=
  match PlexServer.timeClip t with
  | Some d => cellKey (mondayIndex h d) (blockIndex h d)
  | None => "undefined_undefined"
  end.

(** ** Requests *)

(** The cache keys of the two list handlers. *)
Definition watchedCacheKey (limit : option Z) : string := "watched-" +:+ numText limit.

Definition addedCacheKey (limit : option Z) : string := "added-" +:+ numText limit.

(** The body carries a warning. *)
Definition hasWarning (body : Body) : bool :=
  match body with
  | WatchedBody _ w | AddedBody _ w | GridBody _ w | DailyBody _ _ w =>
      bool_decide (w <> None)
  end.

(* ===================================================================== *)
(** ** Worked requests *)

(** A clock that advances one second per reading. *)
Definition ticking : nat -> Z := fun i => 1800000000000 + 1000 * Z.of_nat i.

Definition historyUpstream : string -> Upstream := fun _ => UpstreamOk history.

Definition fiveUpstream : string -> Upstream := fun _ => UpstreamOk fiveRecords.

Definition downUpstream : string -> Upstream := fun _ => UpstreamError "down".

(** The answers to a first [recently-watched?limit=5] and a first
    [recently-added?limit=2], and the caches they leave behind. *)
Definition watchedAnswer : Body :=
  Eval vm_compute in
    match run (Plex.recentlyWatchedItems utcHost plexCfg (Some 5) history) noon with
    | Returned items => WatchedBody items None
    | Thrown _ => WatchedBody [] None
    end.

Definition addedAnswer : Body :=
  Eval vm_compute in
    match run (Plex.Added.recentlyAddedItems plexCfg (Some 2) fiveRecords) noon with
    | Returned items => AddedBody items None
    | Thrown _ => AddedBody [] None
    end.

Definition watchedCacheAfter : gmap string (Cache.Entry Body) :=
  Cache.setC (ticking 1) ∅ (watchedCacheKey (Some 5)) watchedAnswer (Some 15000).

Definition addedCacheAfter : gmap string (Cache.Entry Body) :=
  Cache.setC (ticking 1) ∅ (addedCacheKey (Some 2)) addedAnswer (Some 30000).

(** ** Worked Jellyfin databases *)

Definition jellyfinCfg : Jellyfin.Config := {|
  Jellyfin.JELLYFIN_URL := Some "http://jellyfin:8096";
  Jellyfin.JELLYFIN_TOKEN := Some "j3llyT0k3n";
  Jellyfin.JELLYFIN_USER_ID := Some "0f1e2d3c";
  Jellyfin.JELLYFIN_DB_PATH := Some "/config/data/playback_reporting.db";
  Jellyfin.TIMEOUT_MS := 1500
|}.

(** A database in which only the [PlaybackActivity.DatePlayed] query (the
    fifth) runs and has rows; every other query throws. *)
Definition playedDb : JellyfinServer.Db := fun query =>
  if String.eqb query
       ("SELECT DatePlayed as timestamp FROM PlaybackActivity WHERE DatePlayed >= "
        +:+ "datetime('now', '-7 days')")
  then Some [ {[ "timestamp" := JStr "1970-01-01T00:00:00Z" ]};
              {[ "timestamp" := JStr "yesterday" ]} ]
  else None.

Definition opensPlayedDb : JellyfinServer.Opener := fun _ => inr playedDb.

Definition lockedDb : JellyfinServer.Opener := fun _ => inl "database is locked".

(** The answer of [activity/weekly] to a database that cannot be opened. *)
Definition lockedAnswer : JellyfinServer.Grid := {|
  JellyfinServer.data := Activity.initWeekly;
  JellyfinServer.warning :=
    Some "Database error: Failed to open Jellyfin database: database is locked"
|}.

Definition lockedMonthlyAnswer : JellyfinServer.Grid := {|
  JellyfinServer.data := Activity.initMonthly;
  JellyfinServer.warning :=
    Some "Database error: Failed to open Jellyfin database: database is locked"
|}.

(** ** Observing the image proxy *)

(** An upstream that serves the image only to a request carrying the
    header [name: value], and answers 403 to any other. *)
Definition expecting (name value : string) : Fetch := fun _ headers =>
  if bool_decide ((name, value) ∈ headers)
  then Responded 200 "OK" None
  else Responded 403 "Forbidden" None.

(** [u] is missing from the query, or empty. *)
Definition missingU (u : option string) : Prop := u = None \/ u = Some EmptyString.

(** ** The daily counts *)















(** ** The Jellyfin lists *)

(** The entry has been played: [item.UserData?.LastPlayedDate] is truthy. *)
Definition played (e : JellyfinLists.Entry) : bool :=
  truthy (JellyfinLists.lastPlayedDate e).

(** The entry has no [DateCreated]. *)
Definition dateless (e : JellyfinLists.Entry) : bool :=
  negb (truthy (JellyfinLists.prop e "DateCreated")).

(** [item.Type] is a string, or missing. *)
Definition typeOk (e : JellyfinLists.Entry) : Prop :=
  isStringOrNullish (JellyfinLists.prop e "Type") = true.

Definition jellyfinWatchedKey (it : JellyfinLists.Watched.Item) : Z :=
  orZero (JellyfinLists.Watched.watched_at it).

Definition jellyfinAddedKey (it : JellyfinLists.Added.Item) : Z :=
  orZero (JellyfinLists.Added.added_at it).

(** The time of an entry's [DateCreated] as the sort takes it. *)
Definition createdKey (h : Host) (e : JellyfinLists.Entry) : Z :=
  orZero (JellyfinServer.newDate h (JellyfinLists.prop e "DateCreated")).

(** [toLowerCase] on the letters A to Z. *)
Fixpoint asciiLower (s : string) : string :=
  match s with
  | EmptyString => EmptyString
  | String c rest =>
      let n := N_of_ascii c in
      String (if ((65 <=? n) && (n <=? 90))%N then ascii_of_N (n + 32) else c)
             (asciiLower rest)
  end.

Definition entryOf (props : Raw) (userData : option Raw) : JellyfinLists.Entry := {|
  JellyfinLists.item := {| Jellyfin.props := props; Jellyfin.ImageTags := None |};
  JellyfinLists.UserData := userData
|}.

(** A played episode, a film never played, and a played film. *)
Definition threeEntries : list JellyfinLists.Entry :=
  [ entryOf {[ "Name" := JStr "Pilot"; "Type" := JStr "Episode";
               "SeriesName" := JStr "Show"; "SeasonName" := JStr "Season 1";
               "IndexNumber" := JNum 1 ]}
            (Some {[ "LastPlayedDate" := JStr "1970-01-01T00:00:00Z" ]});
    entryOf {[ "Name" := JStr "Unseen"; "Type" := JStr "Movie" ]} (Some ∅);
    entryOf {[ "Name" := JStr "Film"; "Type" := JStr "Movie" ]}
            (Some {[ "LastPlayedDate" := JStr "100000" ]}) ].

(** An entry created at the epoch, followed by one without creation date. *)
Definition datedThenDateless : list JellyfinLists.Entry :=
  [ entryOf {[ "Name" := JStr "Old"; "DateCreated" := JStr "1970-01-01T00:00:00Z" ]} None;
    entryOf {[ "Name" := JStr "New" ]} None ].

(** ** Upstream answers *)





(** * Properties *)
(* ===================================================================== *)

(* --------------------------------------------------------------------- *)
(** ** The cache *)
(* --------------------------------------------------------------------- *)

Lemma getC_setC_same {Payload : Type} (cache : gmap string (Cache.Entry Payload))
    (k : string) (d : Payload) (ms : option Z) (tw tr : Z) :
  Cache.getC tr (Cache.setC tw cache k d ms) k =
  if tr <? tw + default 10000 ms then Some d else None.
Proof.
  unfold Cache.getC, Cache.setC, Cache.ttl.
  rewrite lookup_insert_eq. reflexivity.
Qed.

Lemma getC_setC_other {Payload : Type} (cache : gmap string (Cache.Entry Payload))
    (k k' : string) (d : Payload) (ms : option Z) (tw tr : Z) :
  k <> k' ->
  Cache.getC tr (Cache.setC tw cache k d ms) k' = Cache.getC tr cache k'.
Proof.
  intros Hne. unfold Cache.getC, Cache.setC.
  rewrite lookup_insert_ne by assumption. reflexivity.
Qed.

(** C10: a read strictly less than [ms] milliseconds after
    [setC(k, d, ms)] returns exactly [d]; a read at or after expiry returns
    null; a later [setC] on the same key replaces the earlier entry. *)
Theorem cache_read_after_write (Payload : Type)
    (cache : gmap string (Cache.Entry Payload))
    (k : string) (d : Payload) (ms tw tr : Z) :
  0 < ms ->
  (tr - tw < ms ->
   Cache.getC tr (Cache.setC tw cache k d (Some ms)) k = Some d) /\
  (ms <= tr - tw ->
   Cache.getC tr (Cache.setC tw cache k d (Some ms)) k = None) /\
  (forall (d' : Payload) (ms' : option Z) (tw' : Z),
     Cache.setC tw' (Cache.setC tw cache k d (Some ms)) k d' ms' =
     Cache.setC tw' cache k d' ms').
Proof.
  intros _. repeat split.
  - intros Hlt. rewrite getC_setC_same. simpl.
    destruct (Z.ltb_spec tr (tw + ms)); [reflexivity | lia].
  - intros Hge. rewrite getC_setC_same. simpl.
    destruct (Z.ltb_spec tr (tw + ms)); [lia | reflexivity].
  - intros d' ms' tw'. unfold Cache.setC. apply insert_insert_eq.
Qed.

Lemma cache_read_after_write_witness :
  0 < 15000 /\
  Cache.getC 1014999 (Cache.setC 1000000 ∅ "watched-12" "payload" (Some 15000))
    "watched-12" = Some "payload" /\
  Cache.getC 1015000 (Cache.setC 1000000 ∅ "watched-12" "payload" (Some 15000))
    "watched-12" = None /\
  Cache.setC 1000500 (Cache.setC 1000000 ∅ "watched-12" "payload" (Some 15000))
    "watched-12" "fresh" None =
  Cache.setC 1000500 ∅ "watched-12" "fresh" None.
Proof.
  assert (Hms : 0 < 15000) by lia.
  destruct (cache_read_after_write string ∅ "watched-12" "payload"
              15000 1000000 1014999 Hms) as (Hhit & _ & Hlast).
  destruct (cache_read_after_write string ∅ "watched-12" "payload"
              15000 1000000 1015000 Hms) as (_ & Hmiss & _).
  split; [exact Hms |].
  split; [apply Hhit; lia |].
  split; [apply Hmiss; lia |].
  apply Hlast.
Defined.

(* --------------------------------------------------------------------- *)
(** ** The timestamp extractor *)
(* --------------------------------------------------------------------- *)

Lemma candidates_fields (x : Raw) : candidates x = map (field x) candidateFields.
Proof. reflexivity. Qed.

Lemma scanCandidates_cons (h : Host) (c : JsVal) (cs : list JsVal) :
  scanCandidates h (c :: cs) =
  match resolveOne h c with
  | Some t => Some t
  | None => scanCandidates h cs
  end.
Proof.
  unfold resolveOne. simpl.
  destruct (truthy c); simpl; [| reflexivity].
  destruct (epochSeconds c); [reflexivity |].
  destruct (epochMillis c); [reflexivity |].
  destruct (Date_parse h (toStr c)); reflexivity.
Qed.

Lemma scanCandidates_app (h : Host) (pre post : list JsVal) :
  Forall (fun c => resolveOne h c = None) pre ->
  scanCandidates h (pre ++ post) = scanCandidates h post.
Proof.
  induction 1 as [| c pre Hc _ IH]; [reflexivity |].
  change ((c :: pre) ++ post)%list with (c :: (pre ++ post))%list.
  rewrite scanCandidates_cons, Hc. exact IH.
Qed.

Lemma resolveOne_falsy (h : Host) (c : JsVal) :
  falsy c = true -> resolveOne h c = None.
Proof.
  unfold falsy, resolveOne. intros Hf. simpl.
  destruct (truthy c); [discriminate | reflexivity].
Qed.

Lemma field_delete_eq (x : Raw) (f : string) : field (delete f x) f = JUndefined.
Proof. unfold field. rewrite lookup_delete_eq. reflexivity. Qed.

Lemma field_delete_ne (x : Raw) (f g : string) :
  f <> g -> field (delete f x) g = field x g.
Proof. intros Hne. unfold field. rewrite lookup_delete_ne by assumption. reflexivity. Qed.

Lemma scan_delete_falsy (h : Host) (x : Raw) (f : string) (fs : list string) :
  falsy (field x f) = true ->
  scanCandidates h (map (field x) fs) = scanCandidates h (map (field (delete f x)) fs).
Proof.
  intros Hf. induction fs as [| g fs IH]; [reflexivity |].
  cbn [map]. rewrite !scanCandidates_cons, IH.
  destruct (decide (f = g)) as [<- | Hne].
  - rewrite field_delete_eq, (resolveOne_falsy h (field x f) Hf). reflexivity.
  - rewrite field_delete_ne by assumption. reflexivity.
Qed.

Lemma scan_all_falsy (h : Host) (cs : list JsVal) :
  Forall (fun c => falsy c = true) cs -> scanCandidates h cs = None.
Proof.
  induction 1 as [| c cs Hc _ IH]; [reflexivity |].
  rewrite scanCandidates_cons, (resolveOne_falsy h c Hc). exact IH.
Qed.

(** C9: a candidate holding 0, the empty string, null or false is skipped
    as if the field were absent; a record whose only candidate value is
    such a value (the integer 0 in particular) resolves to null. *)
Theorem falsy_candidate_is_skipped (h : Host) (x : Raw) (f : string) (v : JsVal) :
  x !! f = Some v ->
  v = JNum 0 \/ v = JStr EmptyString \/ v = JNull \/ v = JBool false ->
  getWatchedAt h x = getWatchedAt h (delete f x) /\
  ((forall g, In g candidateFields -> g <> f -> x !! g = None) ->
   getWatchedAt h x = None).
Proof.
  intros Hx Hv.
  assert (Hf : falsy (field x f) = true).
  { unfold field. rewrite Hx. simpl.
    destruct Hv as [-> | [-> | [-> | ->]]]; reflexivity. }
  unfold getWatchedAt. rewrite !candidates_fields. split.
  - apply scan_delete_falsy. exact Hf.
  - intros Honly. apply scan_all_falsy.
    apply List.Forall_forall. intros c Hc.
    apply in_map_iff in Hc. destruct Hc as (g & <- & Hg).
    destruct (decide (g = f)) as [-> | Hne]; [exact Hf |].
    unfold field. rewrite (Honly g Hg Hne). reflexivity.
Qed.

Lemma falsy_candidate_is_skipped_witness :
  getWatchedAt utcHost {[ "date" := JNum 0 ]} =
    getWatchedAt utcHost (delete "date" ({[ "date" := JNum 0 ]} : Raw)) /\
  getWatchedAt utcHost {[ "date" := JNum 0 ]} = None.
Proof.
  destruct (falsy_candidate_is_skipped utcHost {[ "date" := JNum 0 ]} "date" (JNum 0))
    as [Hskip Hnull].
  - reflexivity.
  - left. reflexivity.
  - split; [exact Hskip |].
    apply Hnull. intros g _ Hne. apply lookup_singleton_ne. congruence.
Defined.

Lemma resolveOne_seconds (h : Host) (v : Z) :
  100000 < v < 9999999999 -> resolveOne h (JNum v) = Some (v * 1000).
Proof.
  intros Hv. unfold resolveOne. simpl.
  destruct (Z.eqb_spec v 0); [lia |]. simpl.
  destruct (Z.ltb_spec 100000 v); [| lia].
  destruct (Z.ltb_spec v 9999999999); [| lia].
  reflexivity.
Qed.

Lemma resolveOne_millis (h : Host) (v : Z) :
  9999999999 <= v -> resolveOne h (JNum v) = Some v.
Proof.
  intros Hv. unfold resolveOne. simpl.
  destruct (Z.eqb_spec v 0); [lia |]. simpl.
  destruct (Z.ltb_spec 100000 v); [| lia].
  destruct (Z.ltb_spec v 9999999999); [lia |]. simpl.
  destruct (Z.leb_spec 9999999999 v); [| lia].
  reflexivity.
Qed.

(** At 100000 itself neither numeric test fires: the value goes to
    [Date.parse], whatever the host. *)
Lemma resolveOne_boundary (h : Host) :
  resolveOne h (JNum 100000) = Date_parse h "100000".
Proof.
  unfold resolveOne.
  change (scanCandidates h [JNum 100000])
    with (match Date_parse h "100000" with Some t => Some t | None => None end).
  destruct (Date_parse h "100000"); reflexivity.
Qed.

Lemma getWatchedAt_split (h : Host) (x : Raw) (pre post : list string) (f : string) :
  candidateFields = (pre ++ f :: post)%list ->
  Forall (fun g => resolveOne h (field x g) = None) pre ->
  getWatchedAt h x =
  match resolveOne h (field x f) with
  | Some t => Some t
  | None => scanCandidates h (map (field x) post)
  end.
Proof.
  intros Hsplit Hpre. unfold getWatchedAt.
  rewrite candidates_fields, Hsplit, map_app. cbn [map].
  rewrite scanCandidates_app.
  - apply scanCandidates_cons.
  - apply List.Forall_forall. intros c Hc.
    apply in_map_iff in Hc. destruct Hc as (g & <- & Hg).
    rewrite List.Forall_forall in Hpre. apply Hpre, Hg.
Qed.

Lemma getWatchedAt_boundary (h : Host) :
  getWatchedAt h {[ "viewed_at" := JNum 100000 ]} = Date_parse h "100000".
Proof.
  rewrite (getWatchedAt_split h _ [] ["date"; "started"; "time"; "last_played";
                                      "played_at"; "event_time"] "viewed_at");
    [| reflexivity | constructor].
  change (field {[ "viewed_at" := JNum 100000 ]} "viewed_at") with (JNum 100000).
  rewrite resolveOne_boundary.
  destruct (Date_parse h "100000"); reflexivity.
Qed.

(** C2 as stated fails at its boundary: the candidate 100000 is not turned
    into 100000 * 1000. *)
Lemma epoch_seconds_boundary_counterexample :
  getWatchedAt utcHost {[ "viewed_at" := JNum 100000 ]} <> Some (100000 * 1000).
Proof. vm_compute. discriminate. Qed.

(** C2, amended: the first candidate that is reached, when it is the number
    [v], yields [v * 1000] for [100000 < v < 9999999999] and [v] for
    [v >= 9999999999]; [v = 100000] is handed to [Date.parse] like any
    other value. *)
Theorem numeric_candidate_classified (h : Host) (x : Raw)
    (pre post : list string) (f : string) (v : Z) :
  candidateFields = (pre ++ f :: post)%list ->
  Forall (fun g => resolveOne h (field x g) = None) pre ->
  field x f = JNum v ->
  (100000 < v < 9999999999 -> getWatchedAt h x = Some (v * 1000)) /\
  (9999999999 <= v -> getWatchedAt h x = Some v) /\
  (v = 100000 ->
   getWatchedAt h x =
   match Date_parse h "100000" with
   | Some t => Some t
   | None => scanCandidates h (map (field x) post)
   end).
Proof.
  intros Hsplit Hpre Hf.
  rewrite (getWatchedAt_split h x pre post f Hsplit Hpre), Hf.
  repeat split.
  - intros Hv. rewrite resolveOne_seconds by assumption. reflexivity.
  - intros Hv. rewrite resolveOne_millis by assumption. reflexivity.
  - intros ->. rewrite resolveOne_boundary. reflexivity.
Qed.

Lemma numeric_candidate_classified_witness :
  getWatchedAt utcHost {[ "viewed_at" := JStr EmptyString; "date" := JNum 1700000000 ]}
    = Some (1700000000 * 1000) /\
  getWatchedAt utcHost {[ "date" := JNum 1700000000000 ]} = Some 1700000000000 /\
  getWatchedAt utcHost {[ "date" := JNum 100000 ]} = Some 3093527980800000.
Proof.
  assert (Hsplit : candidateFields =
            (["viewed_at"] ++ "date" :: ["started"; "time"; "last_played";
                                         "played_at"; "event_time"])%list)
    by reflexivity.
  split; [| split].
  - refine (proj1 (numeric_candidate_classified utcHost _ _ _ "date" 1700000000
                     Hsplit _ _) _).
    + repeat constructor.
    + reflexivity.
    + lia.
  - refine (proj1 (proj2 (numeric_candidate_classified utcHost _ _ _ "date"
                            1700000000000 Hsplit _ _)) _).
    + repeat constructor.
    + reflexivity.
    + lia.
  - refine (proj2 (proj2 (numeric_candidate_classified utcHost _ _ _ "date"
                            100000 Hsplit _ _)) _).
    + repeat constructor.
    + reflexivity.
    + reflexivity.
Defined.

(* --------------------------------------------------------------------- *)
(** ** The poster builders and the credential *)
(* --------------------------------------------------------------------- *)

Lemma append_String (ch : ascii) (a b : string) :
  String ch a +:+ b = String ch (a +:+ b).
Proof. reflexivity. Qed.

Lemma append_Empty_l (b : string) : EmptyString +:+ b = b.
Proof. reflexivity. Qed.

Lemma append_Empty_r (a : string) : a +:+ EmptyString = a.
Proof.
  induction a as [| ch a IH]; [reflexivity |].
  rewrite append_String, IH. reflexivity.
Qed.

Lemma append_assoc (a b c : string) : (a +:+ b) +:+ c = a +:+ (b +:+ c).
Proof.
  induction a as [| ch a IH]; [reflexivity |].
  rewrite !append_String, IH. reflexivity.
Qed.

Lemma prefix_append (k rest : string) : String.prefix k (k +:+ rest) = true.
Proof.
  induction k as [| ch k IH].
  - rewrite append_Empty_l. destruct rest; reflexivity.
  - rewrite append_String. cbn [String.prefix].
    destruct (ascii_dec ch ch); [exact IH | congruence].
Qed.

Lemma includes_append (pre k rest : string) : includes k (pre +:+ k +:+ rest) = true.
Proof.
  induction pre as [| ch pre IH].
  - rewrite append_Empty_l.
    destruct (k +:+ rest) eqn:E; cbn [includes]; rewrite <- E, prefix_append; reflexivity.
  - rewrite append_String. cbn [includes]. rewrite IH. apply orb_true_r.
Qed.

Lemma includes_suffix (pre k : string) : includes k (pre +:+ k) = true.
Proof.
  rewrite <- (append_Empty_r k) at 2. apply includes_append.
Qed.

Lemma encodeURIComponent_append (a b : string) :
  encodeURIComponent (a +:+ b) = encodeURIComponent a +:+ encodeURIComponent b.
Proof.
  induction a as [| ch a IH]; [reflexivity |].
  rewrite append_String. cbn [encodeURIComponent]. rewrite IH.
  destruct (isUnreserved ch); [reflexivity |].
  symmetry. apply append_assoc.
Qed.

Lemma encodeURIComponent_unreserved (s : string) :
  unreservedOnly s = true -> encodeURIComponent s = s.
Proof.
  induction s as [| ch s IH]; [reflexivity |].
  cbn [unreservedOnly encodeURIComponent]. intros H.
  apply andb_true_iff in H. destruct H as [Hc Hs].
  rewrite Hc, (IH Hs). reflexivity.
Qed.

(** The PMS-path branch of the Tautulli builder ends in the API key, letter
    for letter, whenever the key needs no escaping. *)
Lemma tautulli_poster_ends_in_key (cfg : Tautulli.Config) (raw : Raw) (path key : string) :
  Tautulli.hasTautulliEnv cfg = true ->
  Tautulli.TAUTULLI_KEY cfg = Some key ->
  unreservedOnly key = true ->
  optStartsWith (field raw "thumb_url") "http" = Ret false ->
  field raw "thumb" = JStr path ->
  String.prefix "/" path = true ->
  exists pre, Tautulli.posterFromTautulli cfg raw = Ret (Some (pre +:+ key)).
Proof.
  intros Henv Hkey Hun Habs Hthumb Hpath.
  unfold Tautulli.posterFromTautulli.
  rewrite Henv, Habs, Hthumb, Hkey. cbn [negb bind mbind Prog_bind optStartsWith toStr envStr].
  rewrite Hpath.
  eexists. do 2 f_equal.
  rewrite <- !append_assoc, encodeURIComponent_append,
    (encodeURIComponent_unreserved key Hun), <- append_assoc.
  reflexivity.
Qed.

Lemma plex_poster_ends_in_token (cfg : Plex.Config) (raw : Raw) (path token : string) :
  Plex.hasPlexEnv cfg = true ->
  Plex.PLEX_TOKEN cfg = Some token ->
  unreservedOnly token = true ->
  optStartsWith (field raw "thumb_url") "http" = Ret false ->
  field raw "thumb" = JStr path ->
  String.prefix "/" path = true ->
  exists pre, Plex.posterFromTautulli cfg raw = Ret (Some (pre +:+ token)).
Proof.
  intros Henv Hkey Hun Habs Hthumb Hpath.
  unfold Plex.posterFromTautulli.
  rewrite Henv, Habs, Hthumb, Hkey. cbn [negb bind mbind Prog_bind optStartsWith toStr envStr].
  rewrite Hpath.
  eexists. do 2 f_equal.
  rewrite <- !append_assoc, encodeURIComponent_append,
    (encodeURIComponent_unreserved token Hun), <- append_assoc.
  reflexivity.
Qed.

(** The absolute-URL branch never looks at the credential. *)
Lemma tautulli_poster_absolute (cfg : Tautulli.Config) (raw : Raw) (url : string) :
  Tautulli.hasTautulliEnv cfg = true ->
  field raw "thumb_url" = JStr url ->
  String.prefix "http" url = true ->
  Tautulli.posterFromTautulli cfg raw =
  Ret (Some ("/api/media/img?u=" +:+ encodeURIComponent url)).
Proof.
  intros Henv Hurl Hpre. unfold Tautulli.posterFromTautulli.
  rewrite Henv, Hurl. cbn [negb bind mbind Prog_bind optStartsWith toStr].
  rewrite Hpre. reflexivity.
Qed.

Lemma plex_poster_absolute (cfg : Plex.Config) (raw : Raw) (url : string) :
  Plex.hasPlexEnv cfg = true ->
  field raw "thumb_url" = JStr url ->
  String.prefix "http" url = true ->
  Plex.posterFromTautulli cfg raw =
  Ret (Some ("/api/media/img?u=" +:+ encodeURIComponent url)).
Proof.
  intros Henv Hurl Hpre. unfold Plex.posterFromTautulli.
  rewrite Henv, Hurl. cbn [negb bind mbind Prog_bind optStartsWith toStr].
  rewrite Hpre. reflexivity.
Qed.

(** The Jellyfin builder tags the URL with [auth=jellyfin] and leaves the
    token out: with the backend configured, its value is the same under
    every token. *)
Lemma jellyfin_poster_ignores_token (cfg : Jellyfin.Config) (token : string)
    (item : Jellyfin.Item) :
  Jellyfin.hasJellyfinEnv cfg = true ->
  token <> EmptyString ->
  Jellyfin.posterFromJellyfin
    {| Jellyfin.JELLYFIN_URL := Jellyfin.JELLYFIN_URL cfg;
       Jellyfin.JELLYFIN_TOKEN := Some token;
       Jellyfin.JELLYFIN_USER_ID := Jellyfin.JELLYFIN_USER_ID cfg;
       Jellyfin.JELLYFIN_DB_PATH := Jellyfin.JELLYFIN_DB_PATH cfg;
       Jellyfin.TIMEOUT_MS := Jellyfin.TIMEOUT_MS cfg |} item =
  Jellyfin.posterFromJellyfin cfg item.
Proof.
  intros Henv Htok. unfold Jellyfin.posterFromJellyfin.
  rewrite Henv. unfold Jellyfin.hasJellyfinEnv in *. cbn.
  apply andb_true_iff in Henv. destruct Henv as [Henv Huser].
  apply andb_true_iff in Henv. destruct Henv as [Hurl _].
  rewrite Hurl, Huser.
  destruct (String.eqb_spec token EmptyString); [contradiction |].
  reflexivity.
Qed.

(** C1 at a relative thumb path: the value handed to the caller carries the
    Tautulli API key (variant 2) and the Plex token (variant 3) verbatim,
    and changes when the key does. *)
Theorem poster_embeds_the_credential :
  Tautulli.posterFromTautulli tautulliCfg thumbRecord =
    Ret (Some ("/api/media/img?u=http%3A%2F%2Ftautulli%3A8181%2Fpms%2Fimage%3Furl" +:+
               "%3D%252Flibrary%252Fmetadata%252F42%252Fthumb%252F17%26width%3D300" +:+
               "%26height%3D450%26fallback%3Dposter%26apikey%3D" +:+ "s3cr3tk3y")) /\
  Plex.posterFromTautulli plexCfg thumbRecord =
    Ret (Some ("/api/media/img?u=http%3A%2F%2Fplex%3A32400%2Flibrary%2Fmetadata%2F42" +:+
               "%2Fthumb%2F17%3Fwidth%3D300%26height%3D450%26X-Plex-Token%3D" +:+
               "pl3xT0k3n")) /\
  (forall url, Tautulli.posterFromTautulli tautulliCfg thumbRecord = Ret (Some url) ->
               includes "s3cr3tk3y" url = true) /\
  (forall url, Plex.posterFromTautulli plexCfg thumbRecord = Ret (Some url) ->
               includes "pl3xT0k3n" url = true) /\
  Tautulli.posterFromTautulli tautulliCfg thumbRecord <>
    Tautulli.posterFromTautulli
      {| Tautulli.TAUTULLI_URL := Tautulli.TAUTULLI_URL tautulliCfg;
         Tautulli.TAUTULLI_KEY := Some "r0tat3d";
         Tautulli.TIMEOUT_MS := Tautulli.TIMEOUT_MS tautulliCfg |} thumbRecord.
Proof.
  split; [vm_compute; reflexivity |].
  split; [vm_compute; reflexivity |].
  split; [| split].
  - intros url Hurl; vm_compute in Hurl; injection Hurl as <-; vm_compute; reflexivity.
  - intros url Hurl; vm_compute in Hurl; injection Hurl as <-; vm_compute; reflexivity.
  - vm_compute. discriminate.
Qed.

(* --------------------------------------------------------------------- *)
(** ** The image proxy on a non-OK upstream answer *)
(* --------------------------------------------------------------------- *)

(** Case split on what the upstream did with the handler's request. *)
Ltac destruct_fetch fetch E :=
  match goal with
  | |- context [fetch ?url ?headers] => destruct (fetch url headers) eqn:E
  end.

Lemma jellyfin_img_redirects (cfg : Jellyfin.Config) (fetch : Fetch)
    (url : string) (auth : option string) :
  url <> EmptyString ->
  (forall headers status text ct,
     fetch url headers = Responded status text ct -> isOk status = false) ->
  Jellyfin.imgHandler cfg fetch (Some url) auth = Redirect "/placeholder-poster.jpg".
Proof.
  intros Hurl Hbad. unfold Jellyfin.imgHandler.
  destruct (String.eqb_spec url EmptyString); [contradiction |].
  destruct_fetch fetch E; try reflexivity.
  rewrite (Hbad _ _ _ _ E). reflexivity.
Qed.

Lemma plex_img_redirects (cfg : Plex.Config) (fetch : Fetch) (url : string) :
  url <> EmptyString ->
  (forall headers status text ct,
     fetch url headers = Responded status text ct -> isOk status = false) ->
  Plex.imgHandler cfg fetch (Some url) = Redirect "/placeholder-poster.jpg".
Proof.
  intros Hurl Hbad. unfold Plex.imgHandler.
  destruct (String.eqb_spec url EmptyString); [contradiction |].
  destruct_fetch fetch E; try reflexivity.
  rewrite (Hbad _ _ _ _ E). reflexivity.
Qed.

(** On every non-OK answer the Tautulli variant sends status 502 with a
    JSON error body. *)
Lemma tautulli_img_json_error (cfg : Tautulli.Config) (fetch : Fetch)
    (url text : string) (status : Z) (ct : option string) :
  url <> EmptyString ->
  fetch url [] = Responded status text ct ->
  isOk status = false ->
  Tautulli.imgHandler cfg fetch (Some url) =
  JsonError 502 ("upstream " +:+ numToString status).
Proof.
  intros Hurl Hfetch Hbad. unfold Tautulli.imgHandler.
  destruct (String.eqb_spec url EmptyString); [contradiction |].
  rewrite Hfetch, Hbad. reflexivity.
Qed.

(** C8 on the Tautulli variant: an upstream 404 is answered with a JSON
    error body under status 502, where the Jellyfin and Tautulli+Plex
    variants redirect to the placeholder. *)
Theorem tautulli_img_404_is_json :
  Tautulli.imgHandler tautulliCfg notFound (Some "http://tautulli:8181/poster.jpg") =
    JsonError 502 "upstream 404" /\
  Plex.imgHandler plexCfg notFound (Some "http://tautulli:8181/poster.jpg") =
    Redirect "/placeholder-poster.jpg" /\
  (forall cfg auth,
     Jellyfin.imgHandler cfg notFound (Some "http://tautulli:8181/poster.jpg") auth =
     Redirect "/placeholder-poster.jpg").
Proof.
  split; [reflexivity |]. split; [reflexivity |].
  intros cfg auth. apply jellyfin_img_redirects; [discriminate |].
  intros headers status text ct H. unfold notFound in H.
  assert (status = 404) as -> by congruence. reflexivity.
Qed.

(* --------------------------------------------------------------------- *)
(** ** The activity grids *)
(* --------------------------------------------------------------------- *)

Lemma increment_lookup (k : string) (grid : gmap string Z) :
  increment k grid !! k = Some (default 0 (grid !! k) + 1).
Proof. apply lookup_insert_eq. Qed.

Lemma increment_lookup_ne (k k' : string) (grid : gmap string Z) :
  k <> k' -> increment k grid !! k' = grid !! k'.
Proof. intros Hne. apply lookup_insert_ne. exact Hne. Qed.

Lemma bumpIfPresent_dom (key : string) (data : gmap string Z) :
  dom (bumpIfPresent key data) = dom data.
Proof.
  unfold bumpIfPresent. destruct (data !! key) as [n |] eqn:E; [| reflexivity].
  rewrite dom_insert_L. apply elem_of_dom_2 in E.
  apply subseteq_union_1_L, singleton_subseteq_l, E.
Qed.

Lemma bumpIfPresent_nonneg (key : string) (data : gmap string Z) :
  map_Forall (fun _ n => 0 <= n) data ->
  map_Forall (fun _ n => 0 <= n) (bumpIfPresent key data).
Proof.
  intros Hdata. unfold bumpIfPresent.
  destruct (data !! key) as [n |] eqn:E; [| exact Hdata].
  apply map_Forall_insert_2; [| exact Hdata].
  specialize (Hdata key n E). simpl in Hdata. lia.
Qed.

Lemma bumpIfPresent_increment (key : string) (data : gmap string Z) :
  key ∈ dom data -> bumpIfPresent key data = increment key data.
Proof.
  intros Hin. apply elem_of_dom in Hin. destruct Hin as [n Hn].
  unfold bumpIfPresent, increment. rewrite Hn. reflexivity.
Qed.

(** A loop of bumps keeps the key set and the sign of the counts. *)
Lemma foldl_keeps {E : Type} (step : gmap string Z -> E -> gmap string Z)
    (events : list E) (keys : gset string) (init : gmap string Z) :
  (forall data e, dom (step data e) = dom data) ->
  (forall data e, map_Forall (fun _ n => 0 <= n) data ->
                  map_Forall (fun _ n => 0 <= n) (step data e)) ->
  dom init = keys ->
  map_Forall (fun _ n => 0 <= n) init ->
  dom (foldl step init events) = keys /\
  map_Forall (fun _ n => 0 <= n) (foldl step init events).
Proof.
  intros Hdom Hpos. revert init.
  induction events as [| e events IH]; intros init Hinit Hinit0.
  - split; assumption.
  - cbn [foldl]. apply IH.
    + rewrite Hdom. exact Hinit.
    + apply Hpos. exact Hinit0.
Qed.

Lemma initWeekly_zero : Activity.initWeekly = gset_to_gmap 0 Activity.weeklyKeys.
Proof. apply (bool_decide_unpack _). vm_compute. exact I. Qed.

Lemma initMonthly_zero : Activity.initMonthly = gset_to_gmap 0 Activity.monthlyKeys.
Proof. apply (bool_decide_unpack _). vm_compute. exact I. Qed.

Lemma plex_initMonthly_zero : Plex.initMonthly = gset_to_gmap 0 Activity.monthlyKeys.
Proof. apply (bool_decide_unpack _). vm_compute. exact I. Qed.

Lemma zero_grid_nonneg (keys : gset string) :
  map_Forall (fun _ n => 0 <= n) (gset_to_gmap 0 keys).
Proof.
  intros k n Hk. apply lookup_gset_to_gmap_Some in Hk. destruct Hk as [_ <-]. lia.
Qed.

Lemma weeklyStep_bump (h : Host) (data : gmap string Z) (event : Activity.Event) :
  exists key, Activity.weeklyStep h data event = bumpIfPresent key data.
Proof. eexists. reflexivity. Qed.

Lemma monthlyStep_bump (now : Z) (data : gmap string Z) (event : Activity.Event) :
  Activity.monthlyStep now data event = data \/
  exists key, Activity.monthlyStep now data event = bumpIfPresent key data.
Proof.
  unfold Activity.monthlyStep.
  destruct (_ && _); [right; eexists; reflexivity | left; reflexivity].
Qed.

Lemma weeklyGrid_keeps (h : Host) (events : list Activity.Event) :
  dom (foldl (Activity.weeklyStep h) Activity.initWeekly events) = Activity.weeklyKeys /\
  map_Forall (fun _ n => 0 <= n) (foldl (Activity.weeklyStep h) Activity.initWeekly events).
Proof.
  apply foldl_keeps.
  - intros data e. destruct (weeklyStep_bump h data e) as [key ->].
    apply bumpIfPresent_dom.
  - intros data e Hdata. destruct (weeklyStep_bump h data e) as [key ->].
    apply bumpIfPresent_nonneg, Hdata.
  - rewrite initWeekly_zero. apply dom_gset_to_gmap.
  - rewrite initWeekly_zero. apply zero_grid_nonneg.
Qed.

Lemma monthlyGrid_keeps (now : Z) (events : list Activity.Event) :
  dom (Activity.monthlyGrid now events) = Activity.monthlyKeys /\
  map_Forall (fun _ n => 0 <= n) (Activity.monthlyGrid now events).
Proof.
  apply foldl_keeps.
  - intros data e. destruct (monthlyStep_bump now data e) as [-> | [key ->]];
      [reflexivity | apply bumpIfPresent_dom].
  - intros data e Hdata. destruct (monthlyStep_bump now data e) as [-> | [key ->]];
      [exact Hdata | apply bumpIfPresent_nonneg, Hdata].
  - rewrite initMonthly_zero. apply dom_gset_to_gmap.
  - rewrite initMonthly_zero. apply zero_grid_nonneg.
Qed.

Lemma run_weekly (h : Host) (events : list Activity.Event) (clock : nat -> Z) :
  run (Activity.buildWeeklyActivityData h events) clock =
  Returned (foldl (Activity.weeklyStep h) Activity.initWeekly events).
Proof. reflexivity. Qed.

Lemma run_monthly (events : list Activity.Event) (clock : nat -> Z) :
  run (Activity.buildMonthlyActivityData events) clock =
  Returned (Activity.monthlyGrid (clock 0%nat) events).
Proof. reflexivity. Qed.

(** C6: whatever the events, the weekly grid has exactly the 56 keys
    [{Mon..Sun}_{00-03..21-24}] and the monthly grid exactly the 30 keys
    [day_1..day_30], each holding a non-negative count; on the empty list
    every key is there with count 0. *)
Theorem grids_have_their_fixed_keys (h : Host) (events : list Activity.Event)
    (clock : nat -> Z) :
  size Activity.weeklyKeys = 56%nat /\
  size Activity.monthlyKeys = 30%nat /\
  (exists weekly,
     run (Activity.buildWeeklyActivityData h events) clock = Returned weekly /\
     dom weekly = Activity.weeklyKeys /\
     map_Forall (fun _ n => 0 <= n) weekly) /\
  (exists monthly,
     run (Activity.buildMonthlyActivityData events) clock = Returned monthly /\
     dom monthly = Activity.monthlyKeys /\
     map_Forall (fun _ n => 0 <= n) monthly) /\
  run (Activity.buildWeeklyActivityData h []) clock =
    Returned (gset_to_gmap 0 Activity.weeklyKeys) /\
  run (Activity.buildMonthlyActivityData []) clock =
    Returned (gset_to_gmap 0 Activity.monthlyKeys).
Proof.
  split; [vm_compute; reflexivity |].
  split; [vm_compute; reflexivity |].
  split; [| split; [| split]].
  - eexists. split; [apply run_weekly |]. apply weeklyGrid_keeps.
  - eexists. split; [apply run_monthly |]. apply monthlyGrid_keeps.
  - rewrite run_weekly. cbn [foldl]. rewrite initWeekly_zero. reflexivity.
  - rewrite run_monthly. unfold Activity.monthlyGrid. cbn [foldl].
    rewrite initMonthly_zero. reflexivity.
Qed.

Lemma dayKey_fixed (daysAgo : Z) :
  0 <= daysAgo < 30 -> dayKey daysAgo ∈ Activity.monthlyKeys.
Proof.
  intros Hd.
  assert (Hall : Forall (fun d => dayKey d ∈ Activity.monthlyKeys) (seqZ 0 30)).
  { apply (bool_decide_unpack _). vm_compute. exact I. }
  rewrite Forall_forall in Hall. apply Hall, elem_of_seqZ. lia.
Qed.

Lemma snoc_foldl {S E : Type} (step : S -> E -> S) (init : S) (l : list E) (e : E) :
  foldl step init (l ++ [e]) = step (foldl step init l) e.
Proof. rewrite foldl_app. reflexivity. Qed.

Lemma jellyfin_monthly_counted (now : Z) (events : list Activity.Event)
    (event : Activity.Event) :
  0 <= (now - Activity.timestamp event) / 86400000 < 30 ->
  Activity.monthlyGrid now (events ++ [event]) =
  increment (dayKey ((now - Activity.timestamp event) / 86400000))
            (Activity.monthlyGrid now events).
Proof.
  intros Hd. unfold Activity.monthlyGrid. rewrite snoc_foldl.
  fold (Activity.monthlyGrid now events).
  unfold Activity.monthlyStep.
  change (1000 * 60 * 60 * 24) with 86400000.
  destruct (Z.leb_spec 0 ((now - Activity.timestamp event) / 86400000)); [| lia].
  destruct (Z.ltb_spec ((now - Activity.timestamp event) / 86400000) 30); [| lia].
  cbn [andb].
  apply bumpIfPresent_increment.
  rewrite (proj1 (monthlyGrid_keeps now events)). apply dayKey_fixed. lia.
Qed.

Lemma jellyfin_monthly_dropped (now : Z) (events : list Activity.Event)
    (event : Activity.Event) :
  30 <= (now - Activity.timestamp event) / 86400000 ->
  Activity.monthlyGrid now (events ++ [event]) = Activity.monthlyGrid now events.
Proof.
  intros Hd. unfold Activity.monthlyGrid. rewrite snoc_foldl.
  unfold Activity.monthlyStep at 1.
  change (1000 * 60 * 60 * 24) with 86400000.
  destruct (Z.ltb_spec ((now - Activity.timestamp event) / 86400000) 30); [lia |].
  rewrite andb_false_r. reflexivity.
Qed.

Lemma plex_monthly_counted (h : Host) (now t : Z) (records : list Raw) (x : Raw) :
  getWatchedAt h x = Some t ->
  t <> 0 ->
  0 <= (now - t) / 86400000 < 30 ->
  Plex.monthlyGrid h now (records ++ [x]) =
  increment (dayKey ((now - t) / 86400000)) (Plex.monthlyGrid h now records).
Proof.
  intros Ht Hnz Hd. unfold Plex.monthlyGrid. rewrite snoc_foldl.
  unfold Plex.monthlyStep at 1. rewrite Ht.
  change (orZero (Some t)) with t. cbn [Plex.noStamp].
  change (24 * 60 * 60 * 1000) with 86400000.
  change (30 * 24 * 60 * 60 * 1000) with 2592000000.
  destruct (Z.eqb_spec t 0); [contradiction |].
  assert (Hrecent : now - t < 2592000000).
  { apply Z.nle_gt. intros Hle.
    apply (Z.div_le_mono _ _ 86400000) in Hle; [| lia].
    change (2592000000 / 86400000) with 30 in Hle. lia. }
  destruct (Z.ltb_spec t (now - 2592000000)); [lia |].
  destruct (Z.ltb_spec ((now - t) / 86400000) 30); [| lia].
  reflexivity.
Qed.

Lemma plex_monthly_dropped_old (h : Host) (now t : Z) (records : list Raw) (x : Raw) :
  getWatchedAt h x = Some t ->
  30 <= (now - t) / 86400000 ->
  Plex.monthlyGrid h now (records ++ [x]) = Plex.monthlyGrid h now records.
Proof.
  intros Ht Hd. unfold Plex.monthlyGrid. rewrite snoc_foldl.
  unfold Plex.monthlyStep at 1. rewrite Ht.
  change (orZero (Some t)) with t. cbn [Plex.noStamp].
  change (24 * 60 * 60 * 1000) with 86400000.
  destruct (_ || _); [reflexivity |].
  destruct (Z.ltb_spec ((now - t) / 86400000) 30); [lia | reflexivity].
Qed.

Lemma plex_monthly_dropped_null (h : Host) (now : Z) (records : list Raw) (x : Raw) :
  getWatchedAt h x = None ->
  Plex.monthlyGrid h now (records ++ [x]) = Plex.monthlyGrid h now records.
Proof.
  intros Ht. unfold Plex.monthlyGrid. rewrite snoc_foldl.
  unfold Plex.monthlyStep at 1. rewrite Ht. reflexivity.
Qed.

(** The handler's own loop writes its cell without looking: a record dated
    after [now] opens a cell beyond [day_30]. *)
Lemma plex_monthly_future_record :
  Plex.monthlyGrid utcHost 1700000000000 [ {[ "date" := JNum 1700086400 ]} ] !! "day_31" =
  Some 1.
Proof. vm_compute. reflexivity. Qed.

Lemma five_days_ago (now : Z) : (now - (now - 5 * 86400000)) / 86400000 = 5.
Proof. replace (now - (now - 5 * 86400000)) with (5 * 86400000) by lia. reflexivity. Qed.

(** C4 as stated fails in the handler's loop: five days after the epoch,
    the event stamped [now - 5 * 86400000] (that is 0) is dropped, [day_25]
    stays at 0. *)
Lemma monthly_epoch_event_counterexample :
  getWatchedAt utcHost epochRecord = Some (432000000 - 5 * 86400000) /\
  Plex.monthlyGrid utcHost 432000000 [epochRecord] !! "day_25" = Some 0 /\
  Plex.monthlyGrid utcHost 432000000 [epochRecord] = Plex.monthlyGrid utcHost 432000000 [].
Proof. split; [| split]; vm_compute; reflexivity. Qed.

(** C4, amended: with [daysAgo = floor((now - t) / 86400000)], an event of
    [buildMonthlyActivityData], and a record of the handler's loop whose
    resolved timestamp [t] is not 0, adds one to exactly the cell
    [day_{30 - daysAgo}] when [0 <= daysAgo < 30] ([day_25] for
    [t = now - 5 * 86400000]); an event 30 days old or older and a record
    without timestamp leave the grid as it is. *)
Theorem monthly_bucketing (h : Host) (now : Z)
    (events : list Activity.Event) (event : Activity.Event)
    (records : list Raw) (x : Raw) :
  (0 <= (now - Activity.timestamp event) / 86400000 < 30 ->
   Activity.monthlyGrid now (events ++ [event]) =
   increment (dayKey ((now - Activity.timestamp event) / 86400000))
             (Activity.monthlyGrid now events)) /\
  (Activity.timestamp event = now - 5 * 86400000 ->
   Activity.monthlyGrid now (events ++ [event]) =
   increment "day_25" (Activity.monthlyGrid now events)) /\
  (30 <= (now - Activity.timestamp event) / 86400000 ->
   Activity.monthlyGrid now (events ++ [event]) = Activity.monthlyGrid now events) /\
  (forall t, getWatchedAt h x = Some t -> t <> 0 ->
     0 <= (now - t) / 86400000 < 30 ->
     Plex.monthlyGrid h now (records ++ [x]) =
     increment (dayKey ((now - t) / 86400000)) (Plex.monthlyGrid h now records)) /\
  (forall t, getWatchedAt h x = Some t -> t <> 0 ->
     t = now - 5 * 86400000 ->
     Plex.monthlyGrid h now (records ++ [x]) =
     increment "day_25" (Plex.monthlyGrid h now records)) /\
  (forall t, getWatchedAt h x = Some t ->
     30 <= (now - t) / 86400000 ->
     Plex.monthlyGrid h now (records ++ [x]) = Plex.monthlyGrid h now records) /\
  (getWatchedAt h x = None ->
   Plex.monthlyGrid h now (records ++ [x]) = Plex.monthlyGrid h now records).
Proof.
  split; [| split; [| split; [| split; [| split; [| split]]]]].
  - apply jellyfin_monthly_counted.
  - intros Hts.
    rewrite jellyfin_monthly_counted; rewrite Hts, five_days_ago; [reflexivity | lia].
  - apply jellyfin_monthly_dropped.
  - intros t Ht Hnz Hd. apply plex_monthly_counted; assumption.
  - intros t Ht Hnz ->.
    rewrite (plex_monthly_counted h now _ records x Ht Hnz);
      rewrite five_days_ago; [reflexivity | lia].
  - intros t Ht Hd. apply (plex_monthly_dropped_old h now t); assumption.
  - apply plex_monthly_dropped_null.
Qed.

Lemma monthly_bucketing_witness :
  Activity.monthlyGrid 1700000000000 [ {| Activity.timestamp := 1699568000000 |} ] =
    increment "day_25" (Activity.monthlyGrid 1700000000000 []) /\
  Activity.monthlyGrid 1700000000000 [ {| Activity.timestamp := 1697408000000 |} ] =
    Activity.monthlyGrid 1700000000000 [] /\
  Plex.monthlyGrid utcHost 1700000000000 [ {[ "date" := JNum 1699568000 ]} ] =
    increment "day_25" (Plex.monthlyGrid utcHost 1700000000000 []) /\
  Plex.monthlyGrid utcHost 1700000000000 [ {[ "date" := JNum 1697408000 ]} ] =
    Plex.monthlyGrid utcHost 1700000000000 [] /\
  Plex.monthlyGrid utcHost 1700000000000 [ {[ "title" := JStr "untimed" ]} ] =
    Plex.monthlyGrid utcHost 1700000000000 [].
Proof.
  pose proof (monthly_bucketing utcHost 1700000000000 []
                {| Activity.timestamp := 1699568000000 |} []
                {[ "date" := JNum 1699568000 ]}) as (_ & Hj25 & _ & _ & Hp25 & _ & _).
  pose proof (monthly_bucketing utcHost 1700000000000 []
                {| Activity.timestamp := 1697408000000 |} []
                {[ "date" := JNum 1697408000 ]}) as (_ & _ & Hjold & _ & _ & Hpold & _).
  pose proof (monthly_bucketing utcHost 1700000000000 []
                {| Activity.timestamp := 1697408000000 |} []
                {[ "title" := JStr "untimed" ]}) as (_ & _ & _ & _ & _ & _ & Hpnull).
  split; [| split; [| split; [| split]]].
  - apply Hj25. reflexivity.
  - apply Hjold. vm_compute. discriminate.
  - apply (Hp25 1699568000000); [reflexivity | discriminate | reflexivity].
  - apply (Hpold 1697408000000); [reflexivity |]. vm_compute. discriminate.
  - apply Hpnull. reflexivity.
Defined.

(* --------------------------------------------------------------------- *)
(** ** The aggregators and the clock *)
(* --------------------------------------------------------------------- *)

(** C5 as stated fails for the monthly aggregator: the same event list,
    bucketed one day apart, gives two different grids. *)
Lemma monthly_reads_the_clock_counterexample :
  run (Activity.buildMonthlyActivityData [ {| Activity.timestamp := 1700000000000 |} ])
      (fun _ => 1700000000000) <>
  run (Activity.buildMonthlyActivityData [ {| Activity.timestamp := 1700000000000 |} ])
      (fun _ => 1700086400000).
Proof.
  intros H.
  apply (f_equal (fun o : Outcome (gmap string Z) =>
                    match o with
                    | Returned grid => grid !! "day_30"
                    | Thrown _ => None
                    end)) in H.
  vm_compute in H. discriminate.
Qed.

(** C5, amended: the weekly aggregator reads no clock, its grid is the same
    at every moment; the monthly aggregator takes no reference time from
    its caller, it reads the clock once itself, and its grid is the one
    for the event list and that reading. *)
Theorem aggregators_and_the_clock (h : Host) (events : list Activity.Event)
    (clock clock' : nat -> Z) :
  clockFree (Activity.buildWeeklyActivityData h events) = true /\
  run (Activity.buildWeeklyActivityData h events) clock =
    run (Activity.buildWeeklyActivityData h events) clock' /\
  clockFree (Activity.buildMonthlyActivityData events) = false /\
  run (Activity.buildMonthlyActivityData events) clock =
    Returned (Activity.monthlyGrid (clock 0%nat) events).
Proof.
  split; [reflexivity |]. split; [reflexivity |].
  split; [reflexivity |]. apply run_monthly.
Qed.

(* --------------------------------------------------------------------- *)
(** ** Running programs *)
(* --------------------------------------------------------------------- *)

Lemma exec_bind {A B : Type} (p : Prog A) (f : A -> Prog B) (clock : nat -> Z) (i : nat) :
  exec (bind p f) clock i =
  match exec p clock i with
  | (Returned a, j) => exec (f a) clock j
  | (Thrown e, j) => (Thrown e, j)
  end.
Proof.
  revert i. induction p as [a | e | k IH]; intros i; cbn [bind exec]; auto.
Qed.

Lemma exec_mbind {A B : Type} (p : Prog A) (f : A -> Prog B) (clock : nat -> Z) (i : nat) :
  exec (p ≫= f) clock i =
  match exec p clock i with
  | (Returned a, j) => exec (f a) clock j
  | (Thrown e, j) => (Thrown e, j)
  end.
Proof. apply exec_bind. Qed.

(* --------------------------------------------------------------------- *)
(** ** The sort *)
(* --------------------------------------------------------------------- *)

Section SortFacts.
Context {A : Type} (key : A -> Z) (cmp : A -> A -> Z).
Hypothesis cmp_key : forall a b, cmp a b = key b - key a.

Lemma insertSorted_perm (a : A) (l : list A) : Permutation (insertSorted cmp a l) (a :: l).
Proof.
  induction l as [| b l IH]; cbn [insertSorted]; [reflexivity |].
  destruct (cmp a b <=? 0); [reflexivity |].
  rewrite IH. apply perm_swap.
Qed.

Lemma sortBy_perm (l : list A) : Permutation (sortBy cmp l) l.
Proof.
  induction l as [| a l IH]; [reflexivity |].
  unfold sortBy in *. cbn [foldr]. rewrite insertSorted_perm, IH. reflexivity.
Qed.

Lemma sortBy_length (l : list A) : length (sortBy cmp l) = length l.
Proof. apply Permutation_length, sortBy_perm. Qed.

Lemma insertSorted_sorted (a : A) (l : list A) :
  StronglySorted (fun x y => key y <= key x) l ->
  StronglySorted (fun x y => key y <= key x) (insertSorted cmp a l).
Proof.
  induction 1 as [| b l Hl IH Hb]; cbn [insertSorted].
  - repeat constructor.
  - rewrite cmp_key. destruct (Z.leb_spec (key b - key a) 0) as [Hle | Hgt].
    + constructor; [constructor; assumption |].
      constructor; [lia |].
      eapply Forall_impl; [exact Hb |]. cbn. intros y Hy. lia.
    + constructor; [exact IH |].
      rewrite (insertSorted_perm a l). constructor; [lia | exact Hb].
Qed.

Lemma sortBy_sorted (l : list A) :
  StronglySorted (fun x y => key y <= key x) (sortBy cmp l).
Proof.
  induction l as [| a l IH]; [constructor |].
  unfold sortBy in *. cbn [foldr]. apply insertSorted_sorted, IH.
Qed.

Lemma sorted_strictly (l : list A) :
  StronglySorted (fun x y => key y <= key x) l ->
  NoDup (map key l) ->
  StronglySorted (fun x y => key y < key x) l.
Proof.
  induction 1 as [| a l Hl IH Ha]; intros Hnd; [constructor |].
  cbn [map] in Hnd. apply NoDup_cons in Hnd. destruct Hnd as [Hnotin Hnd].
  constructor; [apply IH, Hnd |].
  rewrite List.Forall_forall in Ha. apply List.Forall_forall. intros y Hy.
  specialize (Ha y Hy). cbn in Ha.
  assert (key y <> key a); [| lia].
  intros Heq. apply Hnotin. rewrite <- Heq.
  apply list_elem_of_In, in_map, Hy.
Qed.

Lemma sorted_lookup (R : A -> A -> Prop) (l : list A) (i j : nat) (a b : A) :
  StronglySorted R l -> l !! i = Some a -> l !! j = Some b -> (i < j)%nat -> R a b.
Proof.
  intros Hs. revert i j. induction Hs as [| c l Hl IH Hc]; intros i j Hi Hj Hlt.
  - discriminate.
  - destruct j as [| j]; [lia |]. cbn in Hj.
    destruct i as [| i]; cbn in Hi.
    + injection Hi as <-. rewrite List.Forall_forall in Hc.
      apply Hc. apply list_elem_of_In. eapply list_elem_of_lookup_2, Hj.
    + apply (IH i j); [assumption | assumption | lia].
Qed.

End SortFacts.

(* --------------------------------------------------------------------- *)
(** ** The assembler loop *)
(* --------------------------------------------------------------------- *)

Section AssemblerFacts.
Context {Item : Type} (makeItem : Raw -> Prog Item) (compareItems : Item -> Item -> Z).

Lemma collect_cons (limit : option Z) (acc : list Item) (x : Raw) (rest : list Raw)
    (clock : nat -> Z) (i : nat) :
  exec (collect makeItem limit acc (x :: rest)) clock i =
  match exec (makeItem x) clock i with
  | (Returned item, j) =>
      if reached (length (acc ++ [item])) limit then (Returned (acc ++ [item])%list, j)
      else exec (collect makeItem limit (acc ++ [item]) rest) clock j
  | (Thrown e, j) => (Thrown e, j)
  end.
Proof.
  cbn [collect]. rewrite exec_mbind.
  destruct (exec (makeItem x) clock i) as [[item | e] j]; [| reflexivity].
  destruct (reached _ limit); reflexivity.
Qed.

(** With a limit [L >= 1] the loop is the unbounded loop on the first [L]
    records. *)
Lemma collect_stops_at_limit (L : Z) (records : list Raw) :
  forall (acc : list Item) (clock : nat -> Z) (i : nat),
  Z.of_nat (length acc) < L ->
  exec (collect makeItem (Some L) acc records) clock i =
  exec (collect makeItem None acc (firstn (Z.to_nat L - length acc) records)) clock i.
Proof.
  induction records as [| x rest IH]; intros acc clock i Hacc.
  - rewrite firstn_nil. reflexivity.
  - destruct (Z.to_nat L - length acc)%nat as [| m] eqn:Em; [lia |].
    cbn [firstn]. rewrite !collect_cons.
    destruct (exec (makeItem x) clock i) as [[item | e] j]; [| reflexivity].
    cbn [reached]. rewrite length_app. cbn [length].
    destruct (Z.leb_spec L (Z.of_nat (length acc + 1))) as [Hstop | Hgo].
    + assert (m = 0%nat) as -> by lia. reflexivity.
    + rewrite IH by (rewrite length_app; cbn [length]; lia).
      rewrite length_app. cbn [length].
      replace (Z.to_nat L - (length acc + 1))%nat with m by lia. reflexivity.
Qed.

(** Every record builds: the loop comes back, whatever the limit, with one
    item per record it went through, in order. *)
Lemma collect_returns (limit : option Z) (records : list Raw) :
  Forall (returns makeItem) records ->
  forall (acc : list Item) (clock : nat -> Z) (i : nat),
  exists built j n,
    exec (collect makeItem limit acc records) clock i = (Returned (acc ++ built)%list, j) /\
    Forall2 (pushedFor makeItem) (firstn n records) built.
Proof.
  induction 1 as [| x rest Hx _ IH]; intros acc clock i.
  - exists [], i, 0%nat. rewrite app_nil_r. split; [reflexivity | constructor].
  - rewrite collect_cons. destruct (Hx clock i) as (item & j & Hitem). rewrite Hitem.
    assert (Hpushed : pushedFor makeItem x item) by (exists clock, i, j; exact Hitem).
    destruct (reached _ limit).
    + exists [item], j, 1%nat. split; [reflexivity |].
      cbn [firstn]. rewrite firstn_O. repeat constructor. exact Hpushed.
    + destruct (IH (acc ++ [item])%list clock j) as (built & j' & n & Hrun & Hbuilt).
      exists (item :: built), j', (S n). split.
      * rewrite Hrun, <- app_assoc. reflexivity.
      * cbn [firstn]. constructor; assumption.
Qed.

Lemma collect_unbounded (records : list Raw) :
  Forall (returns makeItem) records ->
  forall (acc : list Item) (clock : nat -> Z) (i : nat),
  exists built j,
    exec (collect makeItem None acc records) clock i = (Returned (acc ++ built)%list, j) /\
    Forall2 (pushedFor makeItem) records built.
Proof.
  induction 1 as [| x rest Hx _ IH]; intros acc clock i.
  - exists [], i. rewrite app_nil_r. split; [reflexivity | constructor].
  - rewrite collect_cons. destruct (Hx clock i) as (item & j & Hitem). rewrite Hitem.
    cbn [reached].
    destruct (IH (acc ++ [item])%list clock j) as (built & j' & Hrun & Hbuilt).
    exists (item :: built), j'. split.
    + rewrite Hrun, <- app_assoc. reflexivity.
    + constructor; [exists clock, i, j; exact Hitem | exact Hbuilt].
Qed.

Lemma run_assemble (limit : option Z) (records : list Raw) (clock : nat -> Z)
    (built : list Item) (j : nat) :
  exec (collect makeItem limit [] records) clock 0 = (Returned built, j) ->
  run (assemble makeItem compareItems limit records) clock =
  Returned (sortBy compareItems built).
Proof.
  intros Hrun. unfold run, assemble. rewrite exec_mbind, Hrun. reflexivity.
Qed.

(** The assembler with limit [L >= 1]: the items pushed for the first [L]
    records, sorted. *)
Lemma assemble_first_L (L : Z) (records : list Raw) (clock : nat -> Z) :
  1 <= L ->
  Forall (returns makeItem) records ->
  exists built,
    Forall2 (pushedFor makeItem) (firstn (Z.to_nat L) records) built /\
    run (assemble makeItem compareItems (Some L) records) clock =
    Returned (sortBy compareItems built).
Proof.
  intros HL Hrec.
  destruct (collect_unbounded (firstn (Z.to_nat L) records)
              (Forall_take _ _ _ Hrec) [] clock 0%nat) as (built & j & Hrun & Hbuilt).
  exists built. split; [exact Hbuilt |].
  apply (run_assemble _ _ _ _ j).
  rewrite collect_stops_at_limit by (cbn; lia).
  cbn [length]. rewrite Nat.sub_0_r. exact Hrun.
Qed.

Lemma assemble_returns (limit : option Z) (records : list Raw) (clock : nat -> Z) :
  Forall (returns makeItem) records ->
  exists built,
    run (assemble makeItem compareItems limit records) clock =
    Returned (sortBy compareItems built).
Proof.
  intros Hrec.
  destruct (collect_returns limit records Hrec [] clock 0%nat)
    as (built & j & n & Hrun & _).
  exists built. apply (run_assemble _ _ _ _ j). exact Hrun.
Qed.

End AssemblerFacts.

(* --------------------------------------------------------------------- *)
(** ** The item builders come back *)
(* --------------------------------------------------------------------- *)

Lemma optStartsWith_returns (v : JsVal) (p : string) :
  isStringOrNullish v = true -> exists b, optStartsWith v p = Ret b.
Proof. destruct v; cbn; intros H; try discriminate; eauto. Qed.

Lemma plex_poster_returns (cfg : Plex.Config) (raw : Raw) :
  isStringOrNullish (field raw "thumb_url") = true ->
  isStringOrNullish (field raw "thumb") = true ->
  exists r, Plex.posterFromTautulli cfg raw = Ret r.
Proof.
  intros Hurl Hthumb. unfold Plex.posterFromTautulli.
  destruct (negb (Plex.hasPlexEnv cfg)); [eauto |].
  destruct (optStartsWith_returns _ "http" Hurl) as [[|] ->]; cbn; [eauto |].
  destruct (optStartsWith_returns _ "/" Hthumb) as [[|] ->]; cbn; eauto.
Qed.

Lemma tautulli_poster_returns (cfg : Tautulli.Config) (raw : Raw) :
  isStringOrNullish (field raw "thumb_url") = true ->
  isStringOrNullish (field raw "thumb") = true ->
  exists r, Tautulli.posterFromTautulli cfg raw = Ret r.
Proof.
  intros Hurl Hthumb. unfold Tautulli.posterFromTautulli.
  destruct (negb (Tautulli.hasTautulliEnv cfg)); [eauto |].
  destruct (optStartsWith_returns _ "http" Hurl) as [[|] ->]; cbn; [eauto |].
  destruct (optStartsWith_returns _ "/" Hthumb) as [[|] ->]; cbn; eauto.
Qed.

Lemma posterOr_returns (p q : Prog (option string)) (r1 r2 : option string) :
  p = Ret r1 -> q = Ret r2 -> exists r, posterOr p q = Ret r.
Proof.
  intros -> ->. unfold posterOr. cbn.
  destruct r1 as [s |]; [destruct (String.eqb s EmptyString) |]; eauto.
Qed.

Lemma field_thumb_only (v : JsVal) (f : string) :
  isStringOrNullish v = true ->
  isStringOrNullish (field ({[ "thumb" := v ]} : Raw) f) = true.
Proof.
  intros Hv. unfold field.
  destruct (decide (f = "thumb")) as [-> | Hne].
  - rewrite lookup_singleton_eq. exact Hv.
  - rewrite lookup_singleton_ne by congruence. reflexivity.
Qed.

Lemma field_thumb_pair (u v : JsVal) (f : string) :
  isStringOrNullish u = true ->
  isStringOrNullish v = true ->
  isStringOrNullish (field ({[ "thumb_url" := u; "thumb" := v ]} : Raw) f) = true.
Proof.
  intros Hu Hv. unfold field.
  destruct (decide (f = "thumb_url")) as [-> | Hne].
  - rewrite lookup_insert_eq. exact Hu.
  - rewrite lookup_insert_ne by congruence. apply (field_thumb_only v f Hv).
Qed.

Section WatchedFacts.
Variable h : Host.
Variable poster : Raw -> Prog (option string).
Hypothesis poster_returns : forall raw,
  isStringOrNullish (field raw "thumb_url") = true ->
  isStringOrNullish (field raw "thumb") = true ->
  exists r, poster raw = Ret r.

Lemma watched_makeItem_returns (x : Raw) :
  postersOk x ->
  exists item, Watched.makeItem h poster x = Ret item /\
               Watched.watched_at item = getWatchedAt h x.
Proof.
  intros (Hurl & Hthumb & _). unfold Watched.makeItem.
  destruct (poster_returns x Hurl Hthumb) as [r1 H1].
  destruct (poster_returns _ (field_thumb_pair _ _ "thumb_url" Hurl Hthumb)
                             (field_thumb_pair _ _ "thumb" Hurl Hthumb)) as [r2 H2].
  destruct (posterOr_returns _ _ r1 r2 H1 H2) as [r ->].
  eexists. split; reflexivity.
Qed.

Lemma watched_returns (x : Raw) :
  postersOk x -> returns (Watched.makeItem h poster) x.
Proof.
  intros Hx clock i. destruct (watched_makeItem_returns x Hx) as (item & -> & _).
  exists item, i. reflexivity.
Qed.

Lemma watched_pushed_stamp (x : Raw) (item : Watched.Item) :
  postersOk x ->
  pushedFor (Watched.makeItem h poster) x item ->
  Watched.watched_at item = getWatchedAt h x.
Proof.
  intros Hx (clock & i & j & Hrun).
  destruct (watched_makeItem_returns x Hx) as (item' & Hmk & Hstamp).
  rewrite Hmk in Hrun. cbn in Hrun. congruence.
Qed.

Lemma watched_built_stamps (records : list Raw) (built : list Watched.Item) :
  Forall postersOk records ->
  Forall2 (pushedFor (Watched.makeItem h poster)) records built ->
  map Watched.watched_at built = map (getWatchedAt h) records.
Proof.
  intros Hok Hbuilt. induction Hbuilt as [| x item records built Hx _ IH];
    [reflexivity |].
  apply Forall_cons in Hok. destruct Hok as [Hokx Hok].
  cbn [map]. rewrite (watched_pushed_stamp x item Hokx Hx), (IH Hok). reflexivity.
Qed.

End WatchedFacts.

Lemma resolveAdded_runs (v : JsVal) (clock : nat -> Z) (i : nat) :
  exists a j, exec (Plex.Added.resolveAdded v) clock i = (Returned a, j) /\
              run (Plex.Added.resolveAdded v) (fun _ => clock i) = Returned a.
Proof.
  unfold run.
  destruct v as [| | [|] | n | s]; cbn; eauto.
  - destruct (_ =? 0); cbn; eauto.
  - destruct (parseInt s) as [n |]; cbn; [destruct (_ =? 0); cbn |]; eauto.
Qed.

Lemma added_makeItem_runs (cfg : Plex.Config) (x : Raw) (clock : nat -> Z) (i : nat) :
  postersOk x ->
  exists item j,
    exec (Plex.Added.makeItem cfg x) clock i = (Returned item, j) /\
    run (Plex.Added.resolveAdded (field x "added_at")) (fun _ => clock i) =
      Returned (Plex.Added.added_at item).
Proof.
  intros (_ & Hthumb & Hparent). unfold Plex.Added.makeItem.
  destruct (resolveAdded_runs (field x "added_at") clock i) as (a & j & Hrun & Hnow).
  destruct (plex_poster_returns cfg _ (field_thumb_only _ "thumb_url" Hthumb)
                                      (field_thumb_only _ "thumb" Hthumb)) as [r1 H1].
  destruct (plex_poster_returns cfg _ (field_thumb_only _ "thumb_url" Hparent)
                                      (field_thumb_only _ "thumb" Hparent)) as [r2 H2].
  destruct (posterOr_returns _ _ r1 r2 H1 H2) as [r Hr].
  rewrite exec_mbind, Hrun, Hr. cbn.
  eexists _, j. split; [reflexivity | exact Hnow].
Qed.

Lemma added_returns (cfg : Plex.Config) (x : Raw) :
  postersOk x -> returns (Plex.Added.makeItem cfg) x.
Proof.
  intros Hx clock i. destruct (added_makeItem_runs cfg x clock i Hx) as (item & j & H & _).
  exists item, j. exact H.
Qed.

Lemma added_pushed_stamp (cfg : Plex.Config) (x : Raw) (item : Plex.Added.Item) :
  postersOk x ->
  pushedFor (Plex.Added.makeItem cfg) x item ->
  exists now, run (Plex.Added.resolveAdded (field x "added_at")) (fun _ => now) =
              Returned (Plex.Added.added_at item).
Proof.
  intros Hx (clock & i & j & Hrun).
  destruct (added_makeItem_runs cfg x clock i Hx) as (item' & j' & Hmk & Hnow).
  rewrite Hmk in Hrun. exists (clock i). congruence.
Qed.

(* --------------------------------------------------------------------- *)
(** ** The assembled lists *)
(* --------------------------------------------------------------------- *)

Lemma sortBy_arranged {A : Type} (key : A -> Z) (cmp : A -> A -> Z) (built : list A) :
  (forall a b, cmp a b = key b - key a) ->
  arrangedDescending key built (sortBy cmp built).
Proof.
  intros Hcmp. split; [apply sortBy_perm | split].
  - apply (sortBy_sorted key cmp Hcmp).
  - intros Hnd. apply sorted_strictly; [apply (sortBy_sorted key cmp Hcmp) |].
    assert (Hp : Permutation (map key (sortBy cmp built)) (map key built))
      by (apply Permutation_map, sortBy_perm).
    rewrite Hp. exact Hnd.
Qed.

(** C3 as stated fails: with limit 3 over these five records the handler
    returns the first three it met, sorted, and not the three newest. *)
Lemma first_three_not_newest_counterexample :
  exists items,
    run (Plex.Added.recentlyAddedItems plexCfg (Some 3) fiveRecords) noon = Returned items /\
    map Plex.Added.title items = [JStr "three"; JStr "two"; JStr "one"] /\
    map Plex.Added.added_at items =
      [Plex.Added.AddedNum 1700000003000; Plex.Added.AddedNum 1700000002000;
       Plex.Added.AddedNum 1700000001000].
Proof. eexists. split; [vm_compute; reflexivity |]. split; reflexivity. Qed.

(** C3, amended: with a limit [L >= 1], on records whose image fields hold
    strings, both handlers return exactly [min(L, n)] items: the items of
    the first [L] records in upstream order (truncate, then sort), in
    descending order of their timestamps, strictly descending when these
    are pairwise distinct. *)
Theorem assembler_sorts_the_first_L (h : Host) (cfg : Plex.Config) (L : Z)
    (records : list Raw) (clock : nat -> Z) :
  1 <= L ->
  Forall postersOk records ->
  (exists built items,
     run (Plex.recentlyWatchedItems h cfg (Some L) records) clock = Returned items /\
     map Watched.watched_at built = map (getWatchedAt h) (firstn (Z.to_nat L) records) /\
     length items = Nat.min (Z.to_nat L) (length records) /\
     arrangedDescending watchedKey built items) /\
  (exists built items,
     run (Plex.Added.recentlyAddedItems cfg (Some L) records) clock = Returned items /\
     Forall2 (fun x item =>
                exists now,
                  run (Plex.Added.resolveAdded (field x "added_at")) (fun _ => now) =
                  Returned (Plex.Added.added_at item))
             (firstn (Z.to_nat L) records) built /\
     length items = Nat.min (Z.to_nat L) (length records) /\
     arrangedDescending addedKey built items).
Proof.
  intros HL Hok.
  assert (Hfirst : Forall postersOk (firstn (Z.to_nat L) records))
    by (apply Forall_take, Hok).
  split.
  - destruct (assemble_first_L (Watched.makeItem h (Plex.posterFromTautulli cfg))
                Watched.compareItems L records clock HL) as (built & Hbuilt & Hrun).
    { eapply Forall_impl; [exact Hok |]. intros x Hx.
      apply watched_returns; [apply plex_poster_returns | exact Hx]. }
    exists built, (sortBy Watched.compareItems built).
    split; [exact Hrun |]. split; [| split].
    + apply (watched_built_stamps h _ (plex_poster_returns cfg)); assumption.
    + rewrite (sortBy_length Watched.compareItems), <- (Forall2_length _ _ _ Hbuilt).
      apply length_take.
    + apply sortBy_arranged. reflexivity.
  - destruct (assemble_first_L (Plex.Added.makeItem cfg)
                Plex.Added.compareItems L records clock HL) as (built & Hbuilt & Hrun).
    { eapply Forall_impl; [exact Hok |]. intros x Hx. apply added_returns, Hx. }
    exists built, (sortBy Plex.Added.compareItems built).
    split; [exact Hrun |]. split; [| split].
    + clear Hrun. induction Hbuilt as [| x item xs built Hx _ IH]; [constructor |].
      apply Forall_cons in Hfirst. destruct Hfirst as [Hokx Hfirst].
      constructor; [apply (added_pushed_stamp cfg x item Hokx Hx) | apply IH, Hfirst].
    + rewrite (sortBy_length Plex.Added.compareItems), <- (Forall2_length _ _ _ Hbuilt).
      apply length_take.
    + apply sortBy_arranged. reflexivity.
Qed.

Lemma assembler_sorts_the_first_L_witness :
  (exists built items,
     run (Plex.recentlyWatchedItems utcHost plexCfg (Some 3) fiveRecords) noon =
       Returned items /\
     map Watched.watched_at built =
       map (getWatchedAt utcHost) (firstn (Z.to_nat 3) fiveRecords) /\
     length items = Nat.min (Z.to_nat 3) (length fiveRecords) /\
     arrangedDescending watchedKey built items) /\
  (exists built items,
     run (Plex.Added.recentlyAddedItems plexCfg (Some 3) fiveRecords) noon =
       Returned items /\
     Forall2 (fun x item =>
                exists now,
                  run (Plex.Added.resolveAdded (field x "added_at")) (fun _ => now) =
                  Returned (Plex.Added.added_at item))
             (firstn (Z.to_nat 3) fiveRecords) built /\
     length items = Nat.min (Z.to_nat 3) (length fiveRecords) /\
     arrangedDescending addedKey built items).
Proof.
  apply (assembler_sorts_the_first_L utcHost plexCfg 3 fiveRecords noon).
  - lia.
  - repeat constructor.
Defined.

(** A limit of 0 still lets the first record through: the test comes after
    the push. *)
Lemma limit_zero_keeps_one :
  exists items,
    run (Plex.Added.recentlyAddedItems plexCfg (Some 0) fiveRecords) noon = Returned items /\
    length items = 1%nat.
Proof. eexists. split; [vm_compute; reflexivity | reflexivity]. Qed.

(* --------------------------------------------------------------------- *)
(** ** Records without a timestamp *)
(* --------------------------------------------------------------------- *)

(** C7 as stated fails for recently-added: the record without timestamp is
    stamped with the current time and comes first, before the dated one. *)
Lemma untimed_added_comes_first_counterexample :
  exists items,
    run (Plex.Added.recentlyAddedItems plexCfg (Some 10) datedThenUntimed) noon =
      Returned items /\
    map Plex.Added.title items = [JStr "untimed"; JStr "dated"] /\
    map Plex.Added.added_at items =
      [Plex.Added.AddedNum 1800000000000; Plex.Added.AddedNum 1700000000000].
Proof. eexists. split; [vm_compute; reflexivity |]. split; reflexivity. Qed.

Lemma getWatchedAt_untimed (h : Host) (x : Raw) :
  (forall f, In f candidateFields -> x !! f = None) -> getWatchedAt h x = None.
Proof.
  intros Hnone. unfold getWatchedAt. rewrite candidates_fields.
  apply scan_all_falsy. apply List.Forall_forall. intros c Hc.
  apply in_map_iff in Hc. destruct Hc as (f & <- & Hf).
  unfold field. rewrite (Hnone f Hf). reflexivity.
Qed.

Lemma untimed_sorts_last (items : list Watched.Item) (i j : nat) (a b : Watched.Item) :
  StronglySorted (fun x y => watchedKey y <= watchedKey x) items ->
  items !! i = Some a ->
  items !! j = Some b ->
  Watched.watched_at a = None ->
  0 < watchedKey b ->
  (j < i)%nat.
Proof.
  intros Hs Hi Hj Ha Hb.
  assert (Hka : watchedKey a = 0) by (unfold watchedKey; rewrite Ha; reflexivity).
  destruct (Nat.lt_trichotomy j i) as [Hlt | [-> | Hgt]]; [exact Hlt | |].
  - rewrite Hi in Hj. injection Hj as <-. lia.
  - pose proof (sorted_lookup _ items i j a b Hs Hi Hj Hgt) as Hle.
    cbn in Hle. lia.
Qed.

Lemma added_untimed_stamp (cfg : Plex.Config) (x : Raw) (clock : nat -> Z) (i : nat) :
  postersOk x ->
  x !! "added_at" = None ->
  exists item,
    exec (Plex.Added.makeItem cfg x) clock i = (Returned item, S i) /\
    Plex.Added.added_at item = Plex.Added.AddedNum (clock i).
Proof.
  intros (_ & Hthumb & Hparent) Hnone. unfold Plex.Added.makeItem.
  destruct (plex_poster_returns cfg _ (field_thumb_only _ "thumb_url" Hthumb)
                                      (field_thumb_only _ "thumb" Hthumb)) as [r1 H1].
  destruct (plex_poster_returns cfg _ (field_thumb_only _ "thumb_url" Hparent)
                                      (field_thumb_only _ "thumb" Hparent)) as [r2 H2].
  destruct (posterOr_returns _ _ r1 r2 H1 H2) as [r Hr].
  rewrite exec_mbind. unfold field at 1. rewrite Hnone. cbn [default Plex.Added.resolveAdded].
  rewrite exec_mbind. cbn [dateNow exec]. rewrite Hr. cbn.
  eexists. split; reflexivity.
Qed.

(** C7, amended: a record without any timestamp candidate field resolves to
    null; in the recently-watched list its item counts as 0 in the
    comparator and stands after every item with a positive timestamp; in
    the recently-added list a record without [added_at] is stamped with the
    clock reading of the moment instead. *)
Theorem untimed_records_in_the_lists (h : Host) (cfg : Plex.Config)
    (limit : option Z) (records : list Raw) (x : Raw) (clock : nat -> Z) (n : nat) :
  Forall postersOk records ->
  postersOk x ->
  (forall f, In f ("added_at" :: candidateFields) -> x !! f = None) ->
  getWatchedAt h x = None /\
  (exists item,
     Watched.makeItem h (Plex.posterFromTautulli cfg) x = Ret item /\
     Watched.watched_at item = None /\
     watchedKey item = 0) /\
  (exists items,
     run (Plex.recentlyWatchedItems h cfg limit records) clock = Returned items /\
     forall i j a b,
       items !! i = Some a -> items !! j = Some b ->
       Watched.watched_at a = None -> 0 < watchedKey b -> (j < i)%nat) /\
  (exists item,
     exec (Plex.Added.makeItem cfg x) clock n = (Returned item, S n) /\
     Plex.Added.added_at item = Plex.Added.AddedNum (clock n)).
Proof.
  intros Hok Hx Hnone.
  assert (Hnull : getWatchedAt h x = None).
  { apply getWatchedAt_untimed. intros f Hf. apply Hnone. right. exact Hf. }
  split; [exact Hnull |]. split; [| split].
  - destruct (watched_makeItem_returns h _ (plex_poster_returns cfg) x Hx)
      as (item & Hmk & Hstamp).
    exists item. rewrite Hnull in Hstamp.
    split; [exact Hmk |]. split; [exact Hstamp |].
    unfold watchedKey. rewrite Hstamp. reflexivity.
  - destruct (assemble_returns (Watched.makeItem h (Plex.posterFromTautulli cfg))
                Watched.compareItems limit records clock) as (built & Hrun).
    { eapply Forall_impl; [exact Hok |]. intros y Hy.
      apply watched_returns; [apply plex_poster_returns | exact Hy]. }
    exists (sortBy Watched.compareItems built). split; [exact Hrun |].
    intros i j a b. apply untimed_sorts_last.
    apply (sortBy_sorted watchedKey Watched.compareItems). reflexivity.
  - apply added_untimed_stamp; [exact Hx |]. apply Hnone. left. reflexivity.
Qed.

Lemma untimed_records_in_the_lists_witness :
  getWatchedAt utcHost {[ "title" := JStr "untimed" ]} = None /\
  (exists item,
     Watched.makeItem utcHost (Plex.posterFromTautulli plexCfg)
       {[ "title" := JStr "untimed" ]} = Ret item /\
     Watched.watched_at item = None /\
     watchedKey item = 0) /\
  (exists items,
     run (Plex.recentlyWatchedItems utcHost plexCfg (Some 12) history) noon =
       Returned items /\
     forall i j a b,
       items !! i = Some a -> items !! j = Some b ->
       Watched.watched_at a = None -> 0 < watchedKey b -> (j < i)%nat) /\
  (exists item,
     exec (Plex.Added.makeItem plexCfg {[ "title" := JStr "untimed" ]}) noon 0 =
       (Returned item, 1%nat) /\
     Plex.Added.added_at item = Plex.Added.AddedNum 1800000000000).
Proof.
  destruct (untimed_records_in_the_lists utcHost plexCfg (Some 12) history
              {[ "title" := JStr "untimed" ]} noon 0)
    as (Hnull & Hitem & Hwatched & Hadded).
  - repeat constructor.
  - repeat constructor.
  - intros f Hf. apply lookup_singleton_ne.
    cbn in Hf. intuition (subst; discriminate).
  - split; [exact Hnull |]. split; [exact Hitem |].
    split; [exact Hwatched | exact Hadded].
Defined.

(** The same three records through the recently-watched handler. *)
Lemma history_order :
  exists items,
    run (Plex.recentlyWatchedItems utcHost plexCfg (Some 12) history) noon =
      Returned items /\
    map Watched.title items = [JStr "newer"; JStr "older"; JStr "untimed"].
Proof. eexists. split; [vm_compute; reflexivity | reflexivity]. Qed.

(* ===================================================================== *)
(** * Further properties of the code *)
(* ===================================================================== *)

(* --------------------------------------------------------------------- *)
(** ** The cache, continued *)
(* --------------------------------------------------------------------- *)

(** X1: [setC] on one key leaves the read of every other key as it was,
    and the cache never loses a key: its key set only grows by the key
    written. *)
Theorem cache_write_touches_one_key (Payload : Type)
    (cache : gmap string (Cache.Entry Payload))
    (k k' : string) (d : Payload) (ms : option Z) (tw tr : Z) :
  k <> k' ->
  Cache.getC tr (Cache.setC tw cache k d ms) k' = Cache.getC tr cache k' /\
  dom (Cache.setC tw cache k d ms) = {[ k ]} ∪ dom cache.
Proof.
  intros Hne. split.
  - unfold Cache.getC, Cache.setC. rewrite lookup_insert_ne by exact Hne. reflexivity.
  - unfold Cache.setC. apply dom_insert_L.
Qed.

Lemma cache_write_touches_one_key_witness :
  Cache.getC 2000 (Cache.setC 1000 (Cache.setC 500 ∅ "added-10" "a" (Some 30000))
                     "watched-12" "w" (Some 15000)) "added-10" =
    Cache.getC 2000 (Cache.setC 500 ∅ "added-10" "a" (Some 30000)) "added-10" /\
  dom (Cache.setC 1000 (Cache.setC 500 ∅ "added-10" "a" (Some 30000))
         "watched-12" "w" (Some 15000)) =
    {[ "watched-12" ]} ∪ dom (Cache.setC 500 (∅ : gmap string (Cache.Entry string))
                                "added-10" "a" (Some 30000)).
Proof.
  apply (cache_write_touches_one_key string). discriminate.
Defined.

(** X2: expiry is final: a key that reads as null at some moment reads as
    null at every later moment, as long as nothing is written. *)
Theorem cache_expiry_is_final (Payload : Type)
    (cache : gmap string (Cache.Entry Payload)) (k : string) (now later : Z) :
  Cache.getC now cache k = None ->
  now <= later ->
  Cache.getC later cache k = None.
Proof.
  unfold Cache.getC. intros Hnone Hle.
  destruct (cache !! k) as [v |]; [| reflexivity].
  destruct (Z.ltb_spec now (Cache.t v)); [discriminate |].
  destruct (Z.ltb_spec later (Cache.t v)); [lia | reflexivity].
Qed.

Lemma cache_expiry_is_final_witness :
  Cache.getC 40000 (Cache.setC 1000 ∅ "added-10" "a" (Some 30000)) "added-10" = None.
Proof.
  apply (cache_expiry_is_final string _ _ 31000 40000); [reflexivity | lia].
Defined.

(* --------------------------------------------------------------------- *)
(** ** The timestamp extractor, continued *)
(* --------------------------------------------------------------------- *)

Lemma scan_delete_unresolved (h : Host) (x : Raw) (f : string) (fs : list string) :
  resolveOne h (field x f) = None ->
  scanCandidates h (map (field x) fs) = scanCandidates h (map (field (delete f x)) fs).
Proof.
  intros Hf. induction fs as [| g fs IH]; [reflexivity |].
  cbn [map]. rewrite !scanCandidates_cons, IH.
  destruct (decide (f = g)) as [<- | Hne].
  - rewrite field_delete_eq, Hf. reflexivity.
  - rewrite field_delete_ne by assumption. reflexivity.
Qed.

(** X3: a candidate holding a string that [Date.parse] cannot read does
    not stop the scan: the result is the one for the record without that
    field. *)
Theorem unparseable_candidate_falls_through (h : Host) (x : Raw) (f s : string) :
  x !! f = Some (JStr s) ->
  Date_parse h s = None ->
  getWatchedAt h x = getWatchedAt h (delete f x).
Proof.
  intros Hx Hparse. unfold getWatchedAt. rewrite !candidates_fields.
  apply scan_delete_unresolved.
  unfold field. rewrite Hx. unfold resolveOne. cbn.
  destruct (String.eqb s EmptyString); cbn; [reflexivity |].
  rewrite Hparse. reflexivity.
Qed.

Lemma unparseable_candidate_falls_through_witness :
  getWatchedAt utcHost {[ "viewed_at" := JStr "yesterday"; "date" := JNum 1700000000 ]} =
  getWatchedAt utcHost
    (delete "viewed_at"
       ({[ "viewed_at" := JStr "yesterday"; "date" := JNum 1700000000 ]} : Raw)).
Proof.
  apply (unparseable_candidate_falls_through utcHost _ "viewed_at" "yesterday");
    reflexivity.
Defined.

(** X4: the candidates are tried in the order [viewed_at], [date],
    [started], [time], [last_played], [played_at], [event_time], and the
    first one that resolves decides: whatever the later fields hold, the
    result is its value. *)
Theorem first_resolving_candidate_wins (h : Host) (x y : Raw)
    (pre post : list string) (f : string) (t : Z) :
  candidateFields = (pre ++ f :: post)%list ->
  Forall (fun g => resolveOne h (field x g) = None) pre ->
  resolveOne h (field x f) = Some t ->
  (forall g, In g (pre ++ [f]) -> field y g = field x g) ->
  getWatchedAt h x = Some t /\ getWatchedAt h y = Some t.
Proof.
  intros Hsplit Hpre Hf Hsame. split.
  - rewrite (getWatchedAt_split h x pre post f Hsplit Hpre), Hf. reflexivity.
  - rewrite (getWatchedAt_split h y pre post f Hsplit).
    + rewrite Hsame by (apply in_or_app; right; left; reflexivity).
      rewrite Hf. reflexivity.
    + rewrite List.Forall_forall in Hpre. apply List.Forall_forall. intros g Hg.
      rewrite Hsame by (apply in_or_app; left; exact Hg). apply Hpre, Hg.
Qed.

Lemma first_resolving_candidate_wins_witness :
  getWatchedAt utcHost {[ "date" := JNum 1700000000; "time" := JNum 1600000000 ]} =
    Some 1700000000000 /\
  getWatchedAt utcHost {[ "date" := JNum 1700000000; "played_at" := JNum 5 ]} =
    Some 1700000000000.
Proof.
  apply (first_resolving_candidate_wins utcHost _ _ ["viewed_at"]
           ["started"; "time"; "last_played"; "played_at"; "event_time"] "date").
  - reflexivity.
  - repeat constructor.
  - reflexivity.
  - intros g [<- | [<- | []]]; reflexivity.
Defined.

(* --------------------------------------------------------------------- *)
(** ** The poster builders, continued *)
(* --------------------------------------------------------------------- *)

Lemma urlSafe_append (a b : string) :
  urlSafe a = true -> urlSafe b = true -> urlSafe (a +:+ b) = true.
Proof.
  intros Ha Hb. induction a as [| c a IH]; [exact Hb |].
  rewrite append_String. cbn [urlSafe] in *.
  apply andb_true_iff in Ha. destruct Ha as [Hc Ha].
  rewrite Hc, (IH Ha). reflexivity.
Qed.

Lemma percentEncode_safe (c : ascii) : urlSafe (percentEncode c) = true.
Proof. destruct c as [[] [] [] [] [] [] [] []]; reflexivity. Qed.

Lemma encodeURIComponent_safe (s : string) : urlSafe (encodeURIComponent s) = true.
Proof.
  induction s as [| c s IH]; [reflexivity |].
  cbn [encodeURIComponent]. destruct (isUnreserved c) eqn:Hc.
  - cbn [urlSafe]. rewrite Hc, IH. reflexivity.
  - apply urlSafe_append; [apply percentEncode_safe | exact IH].
Qed.

(** A safe string holds none of the characters that would end the [u]
    parameter or start another one. *)
Lemma urlSafe_no_delimiter (s d : string) :
  urlSafe s = true ->
  In d ["&"; "="; "?"; "#"; "/"; " "; "+"] ->
  includes d s = false.
Proof.
  intros Hs Hd. induction s as [| c s IH].
  - cbn in Hd. intuition (subst; reflexivity).
  - cbn [urlSafe] in Hs. apply andb_true_iff in Hs. destruct Hs as [Hc Hs].
    cbn [includes]. rewrite (IH Hs), orb_false_r.
    cbn in Hd.
    destruct Hd as [<- | [<- | [<- | [<- | [<- | [<- | [<- | []]]]]]]];
      cbn [String.prefix];
      match goal with
      | |- (if ascii_dec ?a c then _ else _) = false =>
          destruct (ascii_dec a c) as [<- | _]; [discriminate Hc | reflexivity]
      end.
Qed.

Lemma length_append (a b : string) :
  String.length (a +:+ b) = (String.length a + String.length b)%nat.
Proof.
  induction a as [| c a IH]; [reflexivity |].
  rewrite append_String. cbn [String.length]. rewrite IH. reflexivity.
Qed.

Lemma append_cancel_r (a b c : string) : a +:+ c = b +:+ c -> a = b.
Proof.
  revert b. induction a as [| x a IH]; intros [| y b] H.
  - reflexivity.
  - apply (f_equal String.length) in H.
    rewrite append_Empty_l, append_String in H. cbn [String.length] in H.
    rewrite length_append in H. lia.
  - apply (f_equal String.length) in H.
    rewrite append_Empty_l, append_String in H. cbn [String.length] in H.
    rewrite length_append in H. lia.
  - rewrite !append_String in H. injection H as -> H. f_equal. apply IH, H.
Qed.

(** X5: whatever the record and the configuration hold, a poster value is
    [/api/media/img?u=] followed by unreserved characters and percent
    escapes only (and, in the Jellyfin variant, by [&auth=jellyfin]): the
    record cannot end the [u] parameter or add one of its own. *)
Theorem poster_value_is_one_parameter (tcfg : Tautulli.Config) (pcfg : Plex.Config)
    (jcfg : Jellyfin.Config) (raw : Raw) (item : Jellyfin.Item) (url : string) :
  Tautulli.posterFromTautulli tcfg raw = Ret (Some url) \/
  Plex.posterFromTautulli pcfg raw = Ret (Some url) \/
  Jellyfin.posterFromJellyfin jcfg item = Some (url +:+ "&auth=jellyfin") ->
  exists u,
    url = "/api/media/img?u=" +:+ u /\
    urlSafe u = true /\
    (forall d, In d ["&"; "="; "?"; "#"; "/"; " "; "+"] -> includes d u = false).
Proof.
  assert (Hshape : forall s,
            exists u, "/api/media/img?u=" +:+ encodeURIComponent s =
                      "/api/media/img?u=" +:+ u /\
                      urlSafe u = true /\
                      (forall d, In d ["&"; "="; "?"; "#"; "/"; " "; "+"] ->
                                 includes d u = false)).
  { intros s. exists (encodeURIComponent s).
    split; [reflexivity |]. split; [apply encodeURIComponent_safe |].
    intros d Hd. apply urlSafe_no_delimiter; [apply encodeURIComponent_safe | exact Hd]. }
  intros [H | [H | H]].
  - unfold Tautulli.posterFromTautulli in H.
    destruct (negb _); [discriminate |].
    destruct (optStartsWith (field raw "thumb_url") "http") as [[|] | |]; cbn in H;
      try discriminate.
    + injection H as <-. apply Hshape.
    + destruct (optStartsWith (field raw "thumb") "/") as [[|] | |]; cbn in H;
        try discriminate.
      injection H as <-. apply Hshape.
  - unfold Plex.posterFromTautulli in H.
    destruct (negb _); [discriminate |].
    destruct (optStartsWith (field raw "thumb_url") "http") as [[|] | |]; cbn in H;
      try discriminate.
    + injection H as <-. apply Hshape.
    + destruct (optStartsWith (field raw "thumb") "/") as [[|] | |]; cbn in H;
        try discriminate.
      injection H as <-. apply Hshape.
  - unfold Jellyfin.posterFromJellyfin in H.
    destruct (negb _); [discriminate |].
    destruct (_ && _); [| discriminate].
    injection H as H. rewrite <- append_assoc in H.
    apply append_cancel_r in H. subst url. apply Hshape.
Qed.

Lemma poster_value_is_one_parameter_witness :
  exists u,
    "/api/media/img?u=https%3A%2F%2Fimg.example%2Fp.jpg%3Fa%3D1%26auth%3Djellyfin" =
      "/api/media/img?u=" +:+ u /\
    urlSafe u = true /\
    (forall d, In d ["&"; "="; "?"; "#"; "/"; " "; "+"] -> includes d u = false).
Proof.
  apply (poster_value_is_one_parameter tautulliCfg plexCfg
           {| Jellyfin.JELLYFIN_URL := None; Jellyfin.JELLYFIN_TOKEN := None;
              Jellyfin.JELLYFIN_USER_ID := None; Jellyfin.JELLYFIN_DB_PATH := None;
              Jellyfin.TIMEOUT_MS := 1500 |}
           {[ "thumb_url" := JStr "https://img.example/p.jpg?a=1&auth=jellyfin" ]}
           {| Jellyfin.props := ∅; Jellyfin.ImageTags := None |}).
  left. vm_compute. reflexivity.
Defined.

Lemma unescape_percentEncode (c : ascii) (rest : string) :
  unescape (percentEncode c +:+ rest) = String c (unescape rest).
Proof. destruct c as [[] [] [] [] [] [] [] []]; reflexivity. Qed.

Lemma unescape_unreserved (c : ascii) (rest : string) :
  isUnreserved c = true -> unescape (String c rest) = String c (unescape rest).
Proof.
  intros Hc. destruct c as [[] [] [] [] [] [] [] []]; try discriminate Hc; reflexivity.
Qed.

Lemma unescape_encodeURIComponent (s : string) : unescape (encodeURIComponent s) = s.
Proof.
  induction s as [| c s IH]; [reflexivity |].
  cbn [encodeURIComponent]. destruct (isUnreserved c) eqn:Hc.
  - rewrite (unescape_unreserved c _ Hc), IH. reflexivity.
  - rewrite unescape_percentEncode, IH. reflexivity.
Qed.

Lemma encodeURIComponent_inj (s s' : string) :
  encodeURIComponent s = encodeURIComponent s' -> s = s'.
Proof.
  intros H. apply (f_equal unescape) in H.
  rewrite !unescape_encodeURIComponent in H. exact H.
Qed.

Lemma append_cancel_l (a b c : string) : a +:+ b = a +:+ c -> b = c.
Proof.
  induction a as [| x a IH]; [trivial |].
  rewrite !append_String. intros H. injection H as H. apply IH, H.
Qed.

(** X6: the escapes can be undone, so the builders keep images apart: two
    records with different absolute image URLs never get the same poster
    value. *)
Theorem different_images_different_posters (tcfg : Tautulli.Config) (pcfg : Plex.Config)
    (raw raw' : Raw) (url url' : string) :
  Tautulli.hasTautulliEnv tcfg = true ->
  Plex.hasPlexEnv pcfg = true ->
  field raw "thumb_url" = JStr url ->
  field raw' "thumb_url" = JStr url' ->
  String.prefix "http" url = true ->
  String.prefix "http" url' = true ->
  url <> url' ->
  Tautulli.posterFromTautulli tcfg raw <> Tautulli.posterFromTautulli tcfg raw' /\
  Plex.posterFromTautulli pcfg raw <> Plex.posterFromTautulli pcfg raw'.
Proof.
  intros Ht Hp Hraw Hraw' Hurl Hurl' Hne. split.
  - rewrite (tautulli_poster_absolute tcfg raw url Ht Hraw Hurl),
      (tautulli_poster_absolute tcfg raw' url' Ht Hraw' Hurl').
    intros H. injection H as H. apply append_cancel_l, encodeURIComponent_inj in H.
    contradiction.
  - rewrite (plex_poster_absolute pcfg raw url Hp Hraw Hurl),
      (plex_poster_absolute pcfg raw' url' Hp Hraw' Hurl').
    intros H. injection H as H. apply append_cancel_l, encodeURIComponent_inj in H.
    contradiction.
Qed.

Lemma different_images_different_posters_witness :
  Tautulli.posterFromTautulli tautulliCfg {[ "thumb_url" := JStr "http://img/a b.jpg" ]} <>
    Tautulli.posterFromTautulli tautulliCfg {[ "thumb_url" := JStr "http://img/a%20b.jpg" ]} /\
  Plex.posterFromTautulli plexCfg {[ "thumb_url" := JStr "http://img/a b.jpg" ]} <>
    Plex.posterFromTautulli plexCfg {[ "thumb_url" := JStr "http://img/a%20b.jpg" ]}.
Proof.
  apply (different_images_different_posters tautulliCfg plexCfg _ _
           "http://img/a b.jpg" "http://img/a%20b.jpg");
    try reflexivity.
  discriminate.
Defined.

(** X7: on a record whose image fields hold strings (or nothing), the
    builder returns null exactly when the backend is not configured or
    neither [thumb_url] starts with [http] nor [thumb] with [/]. *)
Theorem poster_is_null_exactly_when (tcfg : Tautulli.Config) (pcfg : Plex.Config)
    (raw : Raw) :
  isStringOrNullish (field raw "thumb_url") = true ->
  isStringOrNullish (field raw "thumb") = true ->
  (Tautulli.posterFromTautulli tcfg raw = Ret None <->
   Tautulli.hasTautulliEnv tcfg = false \/
   (startsWithStr (field raw "thumb_url") "http" = false /\
    startsWithStr (field raw "thumb") "/" = false)) /\
  (Plex.posterFromTautulli pcfg raw = Ret None <->
   Plex.hasPlexEnv pcfg = false \/
   (startsWithStr (field raw "thumb_url") "http" = false /\
    startsWithStr (field raw "thumb") "/" = false)).
Proof.
  intros Hurl Hthumb.
  assert (Hsw : forall v p, isStringOrNullish v = true ->
                            optStartsWith v p = Ret (startsWithStr v p)).
  { intros [| | b | n | s] p Hv; try discriminate Hv; reflexivity. }
  split.
  - unfold Tautulli.posterFromTautulli.
    rewrite (Hsw _ "http" Hurl), (Hsw _ "/" Hthumb).
    destruct (Tautulli.hasTautulliEnv tcfg); cbn;
      [| split; [intros _; left; reflexivity | reflexivity]].
    destruct (startsWithStr (field raw "thumb_url") "http"); cbn.
    + split; [discriminate | intros [H | [H _]]; discriminate].
    + destruct (startsWithStr (field raw "thumb") "/"); cbn.
      * split; [discriminate | intros [H | [_ H]]; discriminate].
      * split; [intros _; right; split; reflexivity | reflexivity].
  - unfold Plex.posterFromTautulli.
    rewrite (Hsw _ "http" Hurl), (Hsw _ "/" Hthumb).
    destruct (Plex.hasPlexEnv pcfg); cbn;
      [| split; [intros _; left; reflexivity | reflexivity]].
    destruct (startsWithStr (field raw "thumb_url") "http"); cbn.
    + split; [discriminate | intros [H | [H _]]; discriminate].
    + destruct (startsWithStr (field raw "thumb") "/"); cbn.
      * split; [discriminate | intros [H | [_ H]]; discriminate].
      * split; [intros _; right; split; reflexivity | reflexivity].
Qed.

Lemma poster_is_null_exactly_when_witness :
  Plex.posterFromTautulli plexCfg {[ "thumb" := JStr "library/metadata/42/thumb" ]} =
  Ret None.
Proof.
  apply (poster_is_null_exactly_when tautulliCfg plexCfg
           {[ "thumb" := JStr "library/metadata/42/thumb" ]});
    [reflexivity | reflexivity |].
  right. split; reflexivity.
Defined.

(* --------------------------------------------------------------------- *)
(** ** The assembler, continued *)
(* --------------------------------------------------------------------- *)

Lemma run_assemble_throws {Item : Type} (makeItem : Raw -> Prog Item)
    (compareItems : Item -> Item -> Z) (limit : option Z)
    (x : Raw) (rest : list Raw) (e : string) (clock : nat -> Z) :
  makeItem x = Throw e ->
  run (assemble makeItem compareItems limit (x :: rest)) clock = Thrown e.
Proof.
  intros Hx. unfold run, assemble. rewrite exec_mbind, collect_cons, Hx. reflexivity.
Qed.

(** X8: with Plex configured, a [thumb_url] that holds a number or a
    boolean makes the poster builder throw, and that one record at the
    head of the upstream list makes the whole recently-watched assembly
    throw; without Plex configured the builder returns null on every
    record and never throws. *)
Theorem ill_typed_thumb_url_throws (h : Host) (cfg : Plex.Config) (limit : option Z)
    (x : Raw) (rest : list Raw) (clock : nat -> Z) :
  isStringOrNullish (field x "thumb_url") = false ->
  (Plex.hasPlexEnv cfg = true ->
   exists e,
     Plex.posterFromTautulli cfg x = Throw e /\
     run (Plex.recentlyWatchedItems h cfg limit (x :: rest)) clock = Thrown e) /\
  (Plex.hasPlexEnv cfg = false -> Plex.posterFromTautulli cfg x = Ret None).
Proof.
  intros Hbad. split.
  - intros Henv.
    assert (Hposter : Plex.posterFromTautulli cfg x =
                      Throw "TypeError: startsWith is not a function").
    { unfold Plex.posterFromTautulli. rewrite Henv.
      destruct (field x "thumb_url"); try discriminate Hbad; reflexivity. }
    eexists. split; [exact Hposter |].
    apply run_assemble_throws.
    unfold Watched.makeItem. rewrite Hposter. reflexivity.
  - intros Henv. unfold Plex.posterFromTautulli. rewrite Henv. reflexivity.
Qed.

Lemma ill_typed_thumb_url_throws_witness :
  exists e,
    Plex.posterFromTautulli plexCfg {[ "title" := JStr "one"; "thumb_url" := JNum 7 ]} =
      Throw e /\
    run (Plex.recentlyWatchedItems utcHost plexCfg (Some 12)
           ({[ "title" := JStr "one"; "thumb_url" := JNum 7 ]} :: fiveRecords)) noon =
      Thrown e.
Proof.
  apply (ill_typed_thumb_url_throws utcHost plexCfg (Some 12)
           {[ "title" := JStr "one"; "thumb_url" := JNum 7 ]} fiveRecords noon);
    reflexivity.
Defined.

Section AssemblerEdges.
Context {Item : Type} (makeItem : Raw -> Prog Item) (compareItems : Item -> Item -> Z).

Lemma assemble_limit_at_most_one (L : Z) (x : Raw) (rest : list Raw) (clock : nat -> Z) :
  L <= 1 ->
  returns makeItem x ->
  exists item,
    run (assemble makeItem compareItems (Some L) (x :: rest)) clock = Returned [item] /\
    run (assemble makeItem compareItems (Some L) [x]) clock = Returned [item].
Proof.
  intros HL Hx. destruct (Hx clock 0%nat) as (item & j & Hitem).
  exists item. unfold run, assemble.
  rewrite !exec_mbind, !collect_cons, Hitem. cbn [app length reached].
  destruct (Z.leb_spec L (Z.of_nat 1)); [| lia].
  split; reflexivity.
Qed.

Lemma assemble_without_limit (records : list Raw) (clock : nat -> Z) :
  Forall (returns makeItem) records ->
  exists items,
    run (assemble makeItem compareItems None records) clock = Returned items /\
    length items = length records.
Proof.
  intros Hrec.
  destruct (collect_unbounded makeItem records Hrec [] clock 0%nat)
    as (built & j & Hrun & Hbuilt).
  exists (sortBy compareItems built). split.
  - apply (run_assemble _ _ _ _ _ _ j). exact Hrun.
  - rewrite (sortBy_length compareItems). symmetry. apply (Forall2_length _ _ _ Hbuilt).
Qed.

End AssemblerEdges.

(** X9: the limit is tested after the push, so a limit of 1, of 0 or below
    0 returns exactly one item, the one of the first record, and ignores
    every record after it. *)
Theorem limit_below_one_returns_one_item (h : Host) (cfg : Plex.Config) (L : Z)
    (x : Raw) (rest : list Raw) (clock : nat -> Z) :
  L <= 1 ->
  postersOk x ->
  (exists item,
     run (Plex.recentlyWatchedItems h cfg (Some L) (x :: rest)) clock = Returned [item] /\
     run (Plex.recentlyWatchedItems h cfg (Some L) [x]) clock = Returned [item]) /\
  (exists item,
     run (Plex.Added.recentlyAddedItems cfg (Some L) (x :: rest)) clock = Returned [item] /\
     run (Plex.Added.recentlyAddedItems cfg (Some L) [x]) clock = Returned [item]).
Proof.
  intros HL Hx. split.
  - apply assemble_limit_at_most_one; [exact HL |].
    apply watched_returns; [apply plex_poster_returns | exact Hx].
  - apply assemble_limit_at_most_one; [exact HL |]. apply added_returns, Hx.
Qed.

Lemma limit_below_one_returns_one_item_witness :
  (exists item,
     run (Plex.recentlyWatchedItems utcHost plexCfg (Some (-3))
            ({[ "title" := JStr "zero" ]} :: fiveRecords)) noon = Returned [item] /\
     run (Plex.recentlyWatchedItems utcHost plexCfg (Some (-3))
            [ {[ "title" := JStr "zero" ]} ]) noon = Returned [item]) /\
  (exists item,
     run (Plex.Added.recentlyAddedItems plexCfg (Some (-3))
            ({[ "title" := JStr "zero" ]} :: fiveRecords)) noon = Returned [item] /\
     run (Plex.Added.recentlyAddedItems plexCfg (Some (-3))
            [ {[ "title" := JStr "zero" ]} ]) noon = Returned [item]).
Proof.
  apply (limit_below_one_returns_one_item utcHost plexCfg (-3)
           {[ "title" := JStr "zero" ]} fiveRecords noon).
  - lia.
  - repeat constructor.
Defined.

(** X10: a limit that is not a number ([?limit=abc]) is never reached: the
    handlers then return one item for every upstream record. *)
Theorem nan_limit_returns_every_record (h : Host) (cfg : Plex.Config)
    (records : list Raw) (clock : nat -> Z) :
  Forall postersOk records ->
  (exists items,
     run (Plex.recentlyWatchedItems h cfg None records) clock = Returned items /\
     length items = length records) /\
  (exists items,
     run (Plex.Added.recentlyAddedItems cfg None records) clock = Returned items /\
     length items = length records).
Proof.
  intros Hok. split.
  - apply assemble_without_limit.
    eapply Forall_impl; [exact Hok |]. intros x Hx.
    apply watched_returns; [apply plex_poster_returns | exact Hx].
  - apply assemble_without_limit.
    eapply Forall_impl; [exact Hok |]. intros x Hx. apply added_returns, Hx.
Qed.

Lemma nan_limit_returns_every_record_witness :
  (exists items,
     run (Plex.recentlyWatchedItems utcHost plexCfg None fiveRecords) noon =
       Returned items /\
     length items = length fiveRecords) /\
  (exists items,
     run (Plex.Added.recentlyAddedItems plexCfg None fiveRecords) noon = Returned items /\
     length items = length fiveRecords).
Proof.
  apply (nan_limit_returns_every_record utcHost plexCfg fiveRecords noon).
  repeat constructor.
Defined.

Section SortStability.
Context {A : Type} (key : A -> Z) (cmp : A -> A -> Z).
Hypothesis cmp_key : forall a b, cmp a b = key b - key a.

Lemma insertSorted_stable (c : Z) (a : A) (l : list A) :
  List.filter (fun x => key x =? c) (insertSorted cmp a l) =
  List.filter (fun x => key x =? c) (a :: l).
Proof.
  induction l as [| b l IH]; [reflexivity |].
  cbn [insertSorted]. rewrite cmp_key.
  destruct (Z.leb_spec (key b - key a) 0) as [Hle | Hgt]; [reflexivity |].
  cbn [List.filter] in *. rewrite IH.
  destruct (Z.eqb_spec (key a) c), (Z.eqb_spec (key b) c); try reflexivity. lia.
Qed.

Lemma sortBy_stable (c : Z) (l : list A) :
  List.filter (fun x => key x =? c) (sortBy cmp l) = List.filter (fun x => key x =? c) l.
Proof.
  induction l as [| a l IH]; [reflexivity |].
  unfold sortBy in *. cbn [foldr]. rewrite insertSorted_stable.
  cbn [List.filter]. rewrite IH. reflexivity.
Qed.

End SortStability.

(** X11: the sort of both handlers is stable: the items that share a
    timestamp (all the items without timestamp, for one) stand in the
    result in the order the upstream gave them. *)
Theorem equal_timestamps_keep_upstream_order (c : Z)
    (watched : list Watched.Item) (added : list Plex.Added.Item) :
  List.filter (fun item => watchedKey item =? c) (sortBy Watched.compareItems watched) =
    List.filter (fun item => watchedKey item =? c) watched /\
  List.filter (fun item => addedKey item =? c) (sortBy Plex.Added.compareItems added) =
    List.filter (fun item => addedKey item =? c) added.
Proof.
  split; apply sortBy_stable; reflexivity.
Qed.

(* --------------------------------------------------------------------- *)
(** ** What the cells of the grids count *)
(* --------------------------------------------------------------------- *)

Lemma numToString_inj (z z' : Z) : numToString z = numToString z' -> z = z'.
Proof.
  unfold numToString. intros H. apply DecimalZ.to_int_inj.
  assert (Hnn : forall n, Z.to_int n <> Decimal.Pos Decimal.Nil /\
                          Z.to_int n <> Decimal.Neg Decimal.Nil).
  { intros [| p | p]; cbn; split; try discriminate;
      intros E; injection E as E; exact (DecimalPos.Unsigned.to_uint_nonnil p E). }
  apply (f_equal NilZero.int_of_string) in H.
  rewrite !NilZero.isi in H by apply Hnn.
  injection H as H. exact H.
Qed.

Lemma dayKey_inj (d d' : Z) : dayKey d = dayKey d' -> d = d'.
Proof.
  unfold dayKey. intros H. apply append_cancel_l, numToString_inj in H. lia.
Qed.

Lemma countIf_cons {E : Type} (test : E -> bool) (e : E) (l : list E) :
  countIf test (e :: l) = (if test e then 1 else 0) + countIf test l.
Proof.
  unfold countIf. cbn [List.filter]. destruct (test e); cbn [length]; lia.
Qed.

Lemma mondayIndex_range (h : Host) (t : Z) : 0 <= mondayIndex h t < 7.
Proof.
  unfold mondayIndex, getDay.
  pose proof (Z.mod_pos_bound ((t + localTZA h t) / msPerDay + 4) 7 ltac:(lia)).
  destruct (Z.eqb_spec (((t + localTZA h t) / msPerDay + 4) mod 7) 0); lia.
Qed.

Lemma blockIndex_range (h : Host) (t : Z) : 0 <= blockIndex h t < 8.
Proof.
  unfold blockIndex, getHours.
  pose proof (Z.mod_pos_bound ((t + localTZA h t) / msPerHour) 24 ltac:(lia)) as Hh.
  split.
  - apply Z.div_pos; lia.
  - apply Z.div_lt_upper_bound; lia.
Qed.

Lemma cellKey_fixed (d b : Z) :
  0 <= d < 7 -> 0 <= b < 8 -> cellKey d b ∈ Activity.weeklyKeys.
Proof.
  intros Hd Hb.
  assert (Hall : Forall (fun d => Forall (fun b => cellKey d b ∈ Activity.weeklyKeys)
                                         (seqZ 0 8)) (seqZ 0 7)).
  { apply (bool_decide_unpack _). vm_compute. exact I. }
  rewrite Forall_forall in Hall. specialize (Hall d). rewrite Forall_forall in Hall.
  apply Hall; apply elem_of_seqZ; lia.
Qed.

Lemma cellKey_inj (d b d' b' : Z) :
  0 <= d < 7 -> 0 <= b < 8 -> 0 <= d' < 7 -> 0 <= b' < 8 ->
  cellKey d b = cellKey d' b' -> d = d' /\ b = b'.
Proof.
  intros Hd Hb Hd' Hb'.
  assert (Hall : Forall (fun p : Z * Z =>
                   Forall (fun q : Z * Z =>
                             cellKey p.1 p.2 = cellKey q.1 q.2 -> p = q)
                          (d ← seqZ 0 7; b ← seqZ 0 8; [(d, b)]))
                   (d ← seqZ 0 7; b ← seqZ 0 8; [(d, b)])).
  { apply (bool_decide_unpack _). vm_compute. exact I. }
  assert (Hin : forall x y, 0 <= x < 7 -> 0 <= y < 8 ->
                            (x, y) ∈ (d ← seqZ 0 7; b ← seqZ 0 8; [(d, b)])).
  { intros x y Hx Hy. apply list_elem_of_bind. exists x.
    split; [| apply elem_of_seqZ; lia].
    apply list_elem_of_bind. exists y.
    split; [apply list_elem_of_singleton; reflexivity | apply elem_of_seqZ; lia]. }
  rewrite Forall_forall in Hall. specialize (Hall (d, b) (Hin d b Hd Hb)).
  rewrite Forall_forall in Hall. specialize (Hall (d', b') (Hin d' b' Hd' Hb')).
  intros Hkey. specialize (Hall Hkey). injection Hall as -> ->. split; reflexivity.
Qed.

Lemma weeklyStep_increment (h : Host) (data : gmap string Z) (event : Activity.Event) :
  dom data = Activity.weeklyKeys ->
  Activity.weeklyStep h data event =
  increment (cellKey (mondayIndex h (Activity.timestamp event))
                     (blockIndex h (Activity.timestamp event))) data.
Proof.
  intros Hdom.
  change (Activity.weeklyStep h data event)
    with (bumpIfPresent (cellKey (mondayIndex h (Activity.timestamp event))
                                 (blockIndex h (Activity.timestamp event))) data).
  apply bumpIfPresent_increment. rewrite Hdom.
  apply cellKey_fixed; [apply mondayIndex_range | apply blockIndex_range].
Qed.

Lemma weekly_fold_cell (h : Host) (d b : Z) (events : list Activity.Event) :
  0 <= d < 7 -> 0 <= b < 8 ->
  forall (data : gmap string Z) (n : Z),
  dom data = Activity.weeklyKeys ->
  data !! cellKey d b = Some n ->
  foldl (Activity.weeklyStep h) data events !! cellKey d b =
  Some (n + countIf (fun e => (mondayIndex h (Activity.timestamp e) =? d) &&
                              (blockIndex h (Activity.timestamp e) =? b)) events).
Proof.
  intros Hd Hb. induction events as [| e events IH]; intros data n Hdom Hn.
  - cbn. rewrite Hn. f_equal. unfold countIf. cbn. lia.
  - cbn [foldl]. rewrite countIf_cons.
    pose proof (mondayIndex_range h (Activity.timestamp e)) as Hm.
    pose proof (blockIndex_range h (Activity.timestamp e)) as Hbl.
    rewrite (weeklyStep_increment h data e Hdom).
    destruct (Z.eqb_spec (mondayIndex h (Activity.timestamp e)) d) as [Ed | Ed];
      [destruct (Z.eqb_spec (blockIndex h (Activity.timestamp e)) b) as [Eb | Eb] |];
      cbn [andb].
    + rewrite Ed, Eb.
      rewrite (IH _ (n + 1)).
      * f_equal. lia.
      * unfold increment. rewrite dom_insert_L, Hdom.
        apply subseteq_union_1_L, singleton_subseteq_l, cellKey_fixed; assumption.
      * rewrite increment_lookup, Hn. reflexivity.
    + rewrite (IH _ n).
      * f_equal.
      * unfold increment. rewrite dom_insert_L, Hdom.
        apply subseteq_union_1_L, singleton_subseteq_l, cellKey_fixed; assumption.
      * rewrite increment_lookup_ne; [exact Hn |].
        intros Hk. apply cellKey_inj in Hk; try assumption. lia.
    + rewrite (IH _ n).
      * f_equal.
      * unfold increment. rewrite dom_insert_L, Hdom.
        apply subseteq_union_1_L, singleton_subseteq_l, cellKey_fixed; assumption.
      * rewrite increment_lookup_ne; [exact Hn |].
        intros Hk. apply cellKey_inj in Hk; try assumption. lia.
Qed.

Lemma zero_grid_lookup (keys : gset string) (k : string) :
  k ∈ keys -> (gset_to_gmap 0 keys : gmap string Z) !! k = Some 0.
Proof. intros Hk. apply lookup_gset_to_gmap_Some. split; [exact Hk | reflexivity]. Qed.

(** X12: in the weekly grid of [buildWeeklyActivityData] the cell of day
    [d] (0 = Monday) and block [b] holds exactly the number of events whose
    local weekday and three-hour block are [d] and [b]: every event is
    counted once, in its own cell. *)
Theorem weekly_cell_counts_its_events (h : Host) (events : list Activity.Event)
    (clock : nat -> Z) (d b : Z) :
  0 <= d < 7 ->
  0 <= b < 8 ->
  exists grid,
    run (Activity.buildWeeklyActivityData h events) clock = Returned grid /\
    grid !! cellKey d b =
    Some (countIf (fun e => (mondayIndex h (Activity.timestamp e) =? d) &&
                            (blockIndex h (Activity.timestamp e) =? b)) events).
Proof.
  intros Hd Hb. eexists. split; [apply run_weekly |].
  rewrite (weekly_fold_cell h d b events Hd Hb _ 0).
  - f_equal.
  - rewrite initWeekly_zero. apply dom_gset_to_gmap.
  - rewrite initWeekly_zero. apply zero_grid_lookup, cellKey_fixed; assumption.
Qed.

Lemma weekly_cell_counts_its_events_witness :
  exists grid,
    run (Activity.buildWeeklyActivityData utcHost
           [ {| Activity.timestamp := 1700000000000 |};
             {| Activity.timestamp := 1700003600000 |};
             {| Activity.timestamp := 1700090000000 |} ]) noon = Returned grid /\
    grid !! cellKey 1 7 =
    Some (countIf (fun e => (mondayIndex utcHost (Activity.timestamp e) =? 1) &&
                            (blockIndex utcHost (Activity.timestamp e) =? 7))
            [ {| Activity.timestamp := 1700000000000 |};
              {| Activity.timestamp := 1700003600000 |};
              {| Activity.timestamp := 1700090000000 |} ]).
Proof.
  apply (weekly_cell_counts_its_events utcHost _ noon 1 7); lia.
Defined.

Lemma monthly_fold_cell (now d : Z) (events : list Activity.Event) :
  0 <= d < 30 ->
  forall (data : gmap string Z) (n : Z),
  dom data = Activity.monthlyKeys ->
  data !! dayKey d = Some n ->
  foldl (Activity.monthlyStep now) data events !! dayKey d =
  Some (n + countIf (fun e => (now - Activity.timestamp e) / 86400000 =? d) events).
Proof.
  intros Hd. induction events as [| e events IH]; intros data n Hdom Hn.
  - cbn. rewrite Hn. f_equal. unfold countIf. cbn. lia.
  - cbn [foldl]. rewrite countIf_cons.
    unfold Activity.monthlyStep at 2.
    change (1000 * 60 * 60 * 24) with 86400000.
    set (dd := (now - Activity.timestamp e) / 86400000).
    destruct (Z.leb_spec 0 dd) as [H0 | H0]; [destruct (Z.ltb_spec dd 30) as [H30 | H30] |];
      cbn [andb].
    + fold (dayKey dd). fold (bumpIfPresent (dayKey dd) data).
      rewrite bumpIfPresent_increment
        by (rewrite Hdom; apply dayKey_fixed; lia).
      assert (Hdom' : dom (increment (dayKey dd) data) = Activity.monthlyKeys).
      { unfold increment. rewrite dom_insert_L, Hdom.
        apply subseteq_union_1_L, singleton_subseteq_l, dayKey_fixed. lia. }
      destruct (Z.eqb_spec dd d) as [-> | Hne].
      * rewrite (IH _ (n + 1) Hdom');
          [f_equal; lia | rewrite increment_lookup, Hn; reflexivity].
      * rewrite (IH _ n Hdom'); [f_equal |].
        rewrite increment_lookup_ne; [exact Hn |].
        intros Hk. apply dayKey_inj in Hk. contradiction.
    + destruct (Z.eqb_spec dd d); [lia |]. rewrite (IH _ n Hdom Hn). f_equal.
    + destruct (Z.eqb_spec dd d); [lia |]. rewrite (IH _ n Hdom Hn). f_equal.
Qed.

(** X13: in the monthly grid of [buildMonthlyActivityData], for
    [0 <= d < 30] the cell [day_{30 - d}] holds exactly the number of
    events that are [d] whole days older than the clock reading; events of
    the future and events 30 days old or older are in no cell. *)
Theorem monthly_cell_counts_its_events (events : list Activity.Event)
    (clock : nat -> Z) (d : Z) :
  0 <= d < 30 ->
  exists grid,
    run (Activity.buildMonthlyActivityData events) clock = Returned grid /\
    grid !! dayKey d =
    Some (countIf (fun e => (clock 0%nat - Activity.timestamp e) / 86400000 =? d) events).
Proof.
  intros Hd. eexists. split; [apply run_monthly |].
  unfold Activity.monthlyGrid.
  rewrite (monthly_fold_cell (clock 0%nat) d events Hd _ 0).
  - f_equal.
  - rewrite initMonthly_zero. apply dom_gset_to_gmap.
  - rewrite initMonthly_zero. apply zero_grid_lookup, dayKey_fixed. exact Hd.
Qed.

Lemma monthly_cell_counts_its_events_witness :
  exists grid,
    run (Activity.buildMonthlyActivityData
           [ {| Activity.timestamp := 1799900000000 |};
             {| Activity.timestamp := 1799890000000 |};
             {| Activity.timestamp := 1700000000000 |} ]) noon = Returned grid /\
    grid !! dayKey 1 =
    Some (countIf (fun e => (noon 0%nat - Activity.timestamp e) / 86400000 =? 1)
            [ {| Activity.timestamp := 1799900000000 |};
              {| Activity.timestamp := 1799890000000 |};
              {| Activity.timestamp := 1700000000000 |} ]).
Proof.
  apply (monthly_cell_counts_its_events _ noon 1). lia.
Defined.

Lemma plex_monthlyStep_stamp (h : Host) (now : Z) (data : gmap string Z) (x : Raw) :
  Plex.monthlyStep h now data x =
  match stampOf h x with
  | Some t =>
      if t <? now - 2592000000 then data
      else if (now - t) / 86400000 <? 30
           then increment (dayKey ((now - t) / 86400000)) data
           else data
  | None => data
  end.
Proof.
  unfold Plex.monthlyStep, stampOf.
  change (30 * 24 * 60 * 60 * 1000) with 2592000000.
  change (24 * 60 * 60 * 1000) with 86400000.
  destruct (getWatchedAt h x) as [t |]; [| reflexivity].
  change (orZero (Some t)) with t. cbn [Plex.noStamp].
  destruct (t =? 0); reflexivity.
Qed.

Lemma old_stamp_days (now t : Z) : t < now - 2592000000 -> 30 <= (now - t) / 86400000.
Proof.
  intros Hold. apply Z.div_le_lower_bound; lia.
Qed.

Lemma plex_monthly_fold_cell (h : Host) (now d : Z) (records : list Raw) :
  0 <= d < 30 ->
  forall (data : gmap string Z) (n : Z),
  data !! dayKey d = Some n ->
  foldl (Plex.monthlyStep h now) data records !! dayKey d =
  Some (n + countIf (inMonthlyCell h now d) records).
Proof.
  intros Hd. induction records as [| x records IH]; intros data n Hn.
  - cbn. rewrite Hn. f_equal. unfold countIf. cbn. lia.
  - cbn [foldl]. rewrite countIf_cons, plex_monthlyStep_stamp.
    unfold inMonthlyCell at 1.
    destruct (stampOf h x) as [t |]; [| rewrite (IH _ n Hn); f_equal].
    destruct (Z.ltb_spec t (now - 2592000000)) as [Hold | Hnew].
    { pose proof (old_stamp_days now t Hold).
      destruct (Z.eqb_spec ((now - t) / 86400000) d); [lia |].
      rewrite (IH _ n Hn). f_equal. }
    destruct (Z.ltb_spec ((now - t) / 86400000) 30) as [Hin | Hout].
    + destruct (Z.eqb_spec ((now - t) / 86400000) d) as [-> | Hne].
      * rewrite (IH _ (n + 1)); [f_equal; lia |].
        rewrite increment_lookup, Hn. reflexivity.
      * rewrite (IH _ n); [f_equal |].
        rewrite increment_lookup_ne; [exact Hn |].
        intros Hk. apply dayKey_inj in Hk. contradiction.
    + destruct (Z.eqb_spec ((now - t) / 86400000) d); [lia |].
      rewrite (IH _ n Hn). f_equal.
Qed.

(** X14: in the monthly grid of the Tautulli+Plex handler, for
    [0 <= d < 30] the cell [day_{30 - d}] holds exactly the number of
    records whose resolved timestamp is not 0 and lies [d] whole days
    before [now]; no other record reaches one of the thirty cells. *)
Theorem plex_monthly_cell_counts_its_records (h : Host) (now d : Z)
    (records : list Raw) :
  0 <= d < 30 ->
  Plex.monthlyGrid h now records !! dayKey d =
  Some (countIf (inMonthlyCell h now d) records).
Proof.
  intros Hd. unfold Plex.monthlyGrid.
  rewrite (plex_monthly_fold_cell h now d records Hd _ 0); [f_equal |].
  rewrite plex_initMonthly_zero. apply zero_grid_lookup, dayKey_fixed. exact Hd.
Qed.

Lemma plex_monthly_cell_counts_its_records_witness :
  Plex.monthlyGrid utcHost 1700000000000
    [ {[ "date" := JNum 1699990000 ]}; {[ "date" := JNum 1700086400 ]};
      {[ "started" := JNum 1699999000 ]}; {[ "title" := JStr "untimed" ]} ]
    !! dayKey 0 =
  Some (countIf (inMonthlyCell utcHost 1700000000000 0)
          [ {[ "date" := JNum 1699990000 ]}; {[ "date" := JNum 1700086400 ]};
            {[ "started" := JNum 1699999000 ]}; {[ "title" := JStr "untimed" ]} ]).
Proof.
  apply (plex_monthly_cell_counts_its_records utcHost 1700000000000 0). lia.
Defined.

Lemma increment_nonneg (k : string) (data : gmap string Z) :
  map_Forall (fun _ n => 0 <= n) data ->
  map_Forall (fun _ n => 0 <= n) (increment k data).
Proof.
  intros Hdata. unfold increment. apply map_Forall_insert_2; [| exact Hdata].
  destruct (data !! k) as [n |] eqn:E; cbn; [| lia].
  specialize (Hdata k n E). cbn in Hdata. lia.
Qed.

Lemma increment_dom_fixed (k : string) (data : gmap string Z) (keys : gset string) :
  dom data = keys -> k ∈ keys -> dom (increment k data) = keys.
Proof.
  intros Hdom Hk. unfold increment. rewrite dom_insert_L, Hdom.
  apply subseteq_union_1_L, singleton_subseteq_l, Hk.
Qed.

Lemma plex_monthlyStep_keeps (h : Host) (now : Z) (data : gmap string Z) (x : Raw) :
  Activity.monthlyKeys ⊆ dom data ->
  map_Forall (fun _ n => 0 <= n) data ->
  Activity.monthlyKeys ⊆ dom (Plex.monthlyStep h now data x) /\
  map_Forall (fun _ n => 0 <= n) (Plex.monthlyStep h now data x).
Proof.
  intros Hsub Hpos. rewrite plex_monthlyStep_stamp.
  destruct (stampOf h x) as [t |]; [| split; assumption].
  destruct (_ <? _); [split; assumption |].
  destruct (_ <? _); [| split; assumption].
  split; [| apply increment_nonneg, Hpos].
  unfold increment. rewrite dom_insert_L.
  etrans; [exact Hsub | apply union_subseteq_r].
Qed.

Lemma plex_monthlyStep_fixed (h : Host) (now : Z) (data : gmap string Z) (x : Raw) :
  (forall t, stampOf h x = Some t -> t <= now) ->
  dom data = Activity.monthlyKeys ->
  dom (Plex.monthlyStep h now data x) = Activity.monthlyKeys.
Proof.
  intros Hx Hdom. rewrite plex_monthlyStep_stamp.
  destruct (stampOf h x) as [t |] eqn:Et; [| exact Hdom].
  destruct (Z.ltb_spec t (now - 2592000000)); [exact Hdom |].
  destruct (Z.ltb_spec ((now - t) / 86400000) 30); [| exact Hdom].
  apply increment_dom_fixed; [exact Hdom |].
  apply dayKey_fixed. split; [| assumption].
  apply Z.div_pos; [| lia]. specialize (Hx t eq_refl). lia.
Qed.

(** X15: the monthly loop of the Tautulli+Plex handler never loses one of
    the keys [day_1..day_30] and keeps every count non-negative; when no
    record is stamped after [now], the keys are exactly these thirty. *)
Theorem plex_monthly_keys (h : Host) (now : Z) (records : list Raw) :
  Activity.monthlyKeys ⊆ dom (Plex.monthlyGrid h now records) /\
  map_Forall (fun _ n => 0 <= n) (Plex.monthlyGrid h now records) /\
  (Forall (fun x => forall t, stampOf h x = Some t -> t <= now) records ->
   dom (Plex.monthlyGrid h now records) = Activity.monthlyKeys).
Proof.
  unfold Plex.monthlyGrid.
  assert (Hinit : dom Plex.initMonthly = Activity.monthlyKeys)
    by (rewrite plex_initMonthly_zero; apply dom_gset_to_gmap).
  assert (Hpos : map_Forall (fun _ n => 0 <= n) Plex.initMonthly)
    by (rewrite plex_initMonthly_zero; apply zero_grid_nonneg).
  assert (Hkeeps : forall data,
            Activity.monthlyKeys ⊆ dom data ->
            map_Forall (fun _ n => 0 <= n) data ->
            Activity.monthlyKeys ⊆ dom (foldl (Plex.monthlyStep h now) data records) /\
            map_Forall (fun _ n => 0 <= n) (foldl (Plex.monthlyStep h now) data records)).
  { induction records as [| x records IH]; intros data Hs Hp; [split; assumption |].
    cbn [foldl]. destruct (plex_monthlyStep_keeps h now data x Hs Hp) as [Hs' Hp'].
    apply IH; assumption. }
  destruct (Hkeeps Plex.initMonthly) as [Hsub Hnonneg];
    [rewrite Hinit; reflexivity | exact Hpos |].
  split; [exact Hsub |]. split; [exact Hnonneg |].
  clear Hkeeps Hsub Hnonneg Hpos. revert Hinit. generalize Plex.initMonthly.
  induction records as [| x records IH]; intros data Hdom Hpast; [exact Hdom |].
  apply Forall_cons in Hpast. destruct Hpast as [Hx Hpast].
  cbn [foldl]. apply IH; [| exact Hpast].
  apply plex_monthlyStep_fixed; assumption.
Qed.

Lemma plex_monthly_keys_witness :
  dom (Plex.monthlyGrid utcHost 1700000000000
         [ {[ "date" := JNum 1699990000 ]}; {[ "title" := JStr "untimed" ]} ]) =
  Activity.monthlyKeys.
Proof.
  apply (plex_monthly_keys utcHost 1700000000000).
  repeat constructor.
  - intros t Ht. vm_compute in Ht. injection Ht as <-. lia.
  - intros t Ht. vm_compute in Ht. discriminate.
Defined.

Lemma plex_weeklyStep_stamp (h : Host) (now : Z) (data : gmap string Z) (x : Raw) :
  PlexServer.weeklyStep h now data x =
  match stampOf h x with
  | Some t => if t <? now - 604800000 then data else increment (weeklyKeyOf h t) data
  | None => data
  end.
Proof.
  unfold PlexServer.weeklyStep, stampOf.
  change (7 * 24 * 60 * 60 * 1000) with 604800000.
  destruct (getWatchedAt h x) as [t |]; [| reflexivity].
  change (orZero (Some t)) with t. cbn [Plex.noStamp].
  destruct (t =? 0); [reflexivity |]. cbn [orb].
  destruct (t <? now - 604800000); [reflexivity |].
  unfold weeklyKeyOf. destruct (PlexServer.timeClip t); reflexivity.
Qed.

Lemma createEmptyWeeklyData_zero :
  PlexServer.createEmptyWeeklyData = gset_to_gmap 0 Activity.weeklyKeys.
Proof. apply (bool_decide_unpack _). vm_compute. exact I. Qed.

Lemma undefined_key_not_fixed : "undefined_undefined" ∉ Activity.weeklyKeys.
Proof. apply (bool_decide_unpack _). vm_compute. exact I. Qed.

Lemma timeClip_spec (t : Z) :
  PlexServer.timeClip t = if Z.abs t <=? 8640000000000000 then Some t else None.
Proof. reflexivity. Qed.

Lemma plex_weekly_fold_cell (h : Host) (now d b : Z) (records : list Raw) :
  0 <= d < 7 -> 0 <= b < 8 ->
  forall (data : gmap string Z) (n : Z),
  data !! cellKey d b = Some n ->
  foldl (PlexServer.weeklyStep h now) data records !! cellKey d b =
  Some (n + countIf (inWeeklyCell h now d b) records).
Proof.
  intros Hd Hb. induction records as [| x records IH]; intros data n Hn.
  - cbn. rewrite Hn. f_equal. unfold countIf. cbn. lia.
  - cbn [foldl]. rewrite countIf_cons, plex_weeklyStep_stamp.
    unfold inWeeklyCell at 1.
    destruct (stampOf h x) as [t |]; [| rewrite (IH _ n Hn); f_equal].
    destruct (Z.ltb_spec t (now - 604800000)) as [Hold | Hnew].
    { destruct (Z.leb_spec (now - 604800000) t); [lia |]. cbn [andb].
      rewrite (IH _ n Hn). f_equal. }
    destruct (Z.leb_spec (now - 604800000) t); [| lia]. cbn [andb].
    unfold weeklyKeyOf. rewrite timeClip_spec.
    destruct (Z.abs t <=? 8640000000000000); cbn [andb].
    + pose proof (mondayIndex_range h t) as Hm.
      pose proof (blockIndex_range h t) as Hbl.
      destruct (Z.eqb_spec (mondayIndex h t) d) as [Ed | Ed];
        [destruct (Z.eqb_spec (blockIndex h t) b) as [Eb | Eb] |]; cbn [andb].
      * rewrite Ed, Eb. rewrite (IH _ (n + 1)); [f_equal; lia |].
        rewrite increment_lookup, Hn. reflexivity.
      * rewrite (IH _ n); [f_equal |].
        rewrite increment_lookup_ne; [exact Hn |].
        intros Hk. apply cellKey_inj in Hk; try assumption. lia.
      * rewrite (IH _ n); [f_equal |].
        rewrite increment_lookup_ne; [exact Hn |].
        intros Hk. apply cellKey_inj in Hk; try assumption. lia.
    + rewrite (IH _ n); [f_equal |].
      rewrite increment_lookup_ne; [exact Hn |].
      intros Hk. apply undefined_key_not_fixed. rewrite Hk.
      apply cellKey_fixed; assumption.
Qed.

(** X16: in the weekly grid of the Tautulli+Plex handler the cell of day
    [d] (0 = Monday) and block [b] holds exactly the number of records
    whose resolved timestamp is not 0, is not older than seven days, is a
    valid date and falls on that local weekday and block; records dated
    after [now] are counted too. *)
Theorem plex_weekly_cell_counts_its_records (h : Host) (now d b : Z)
    (records : list Raw) :
  0 <= d < 7 ->
  0 <= b < 8 ->
  PlexServer.weeklyGrid h now records !! cellKey d b =
  Some (countIf (inWeeklyCell h now d b) records).
Proof.
  intros Hd Hb. unfold PlexServer.weeklyGrid.
  rewrite (plex_weekly_fold_cell h now d b records Hd Hb _ 0); [f_equal |].
  rewrite createEmptyWeeklyData_zero. apply zero_grid_lookup, cellKey_fixed; assumption.
Qed.

Lemma plex_weekly_cell_counts_its_records_witness :
  PlexServer.weeklyGrid utcHost 1700000000000
    [ {[ "date" := JNum 1700000000 ]}; {[ "date" := JNum 1699000000 ]};
      {[ "date" := JNum 1700003600 ]} ] !! cellKey 1 7 =
  Some (countIf (inWeeklyCell utcHost 1700000000000 1 7)
          [ {[ "date" := JNum 1700000000 ]}; {[ "date" := JNum 1699000000 ]};
            {[ "date" := JNum 1700003600 ]} ]).
Proof.
  apply (plex_weekly_cell_counts_its_records utcHost 1700000000000 1 7); lia.
Defined.

Lemma weeklyKeyOf_valid (h : Host) (t : Z) :
  Z.abs t <= 8640000000000000 -> weeklyKeyOf h t ∈ Activity.weeklyKeys.
Proof.
  intros Ht. unfold weeklyKeyOf. rewrite timeClip_spec.
  destruct (Z.leb_spec (Z.abs t) 8640000000000000); [| lia].
  apply cellKey_fixed; [apply mondayIndex_range | apply blockIndex_range].
Qed.

Lemma weeklyKeyOf_cases (h : Host) (t : Z) :
  weeklyKeyOf h t ∈ Activity.weeklyKeys ∪ {[ "undefined_undefined" ]}.
Proof.
  unfold weeklyKeyOf. rewrite timeClip_spec.
  destruct (Z.abs t <=? 8640000000000000).
  - apply elem_of_union_l, cellKey_fixed; [apply mondayIndex_range | apply blockIndex_range].
  - apply elem_of_union_r, elem_of_singleton. reflexivity.
Qed.

(** X17: the weekly loop of the Tautulli+Plex handler writes its cell
    without a test, yet never loses one of the 56 fixed keys and adds at
    most the key [undefined_undefined] (for a timestamp outside the range
    of dates); when every resolved timestamp is a valid date the keys are
    exactly the 56. *)
Theorem plex_weekly_keys (h : Host) (now : Z) (records : list Raw) :
  Activity.weeklyKeys ⊆ dom (PlexServer.weeklyGrid h now records) /\
  dom (PlexServer.weeklyGrid h now records) ⊆
    Activity.weeklyKeys ∪ {[ "undefined_undefined" ]} /\
  (Forall (fun x => forall t, stampOf h x = Some t -> Z.abs t <= 8640000000000000)
          records ->
   dom (PlexServer.weeklyGrid h now records) = Activity.weeklyKeys).
Proof.
  unfold PlexServer.weeklyGrid.
  assert (Hinit : dom PlexServer.createEmptyWeeklyData = Activity.weeklyKeys)
    by (rewrite createEmptyWeeklyData_zero; apply dom_gset_to_gmap).
  assert (Hstep : forall data x,
            dom (PlexServer.weeklyStep h now data x) = dom data \/
            exists t, stampOf h x = Some t /\
                      dom (PlexServer.weeklyStep h now data x) =
                      {[ weeklyKeyOf h t ]} ∪ dom data).
  { intros data x. rewrite plex_weeklyStep_stamp.
    destruct (stampOf h x) as [t |]; [| left; reflexivity].
    destruct (_ <? _); [left; reflexivity |].
    right. exists t. split; [reflexivity |]. unfold increment. apply dom_insert_L. }
  split; [| split].
  - rewrite <- Hinit. generalize PlexServer.createEmptyWeeklyData.
    induction records as [| x records IH]; intros data; [reflexivity |].
    cbn [foldl]. etrans; [| apply IH].
    destruct (Hstep data x) as [-> | (t & _ & ->)];
      [reflexivity | apply union_subseteq_r].
  - assert (Hsub : dom PlexServer.createEmptyWeeklyData ⊆
                   Activity.weeklyKeys ∪ {[ "undefined_undefined" ]})
      by (rewrite Hinit; apply union_subseteq_l).
    revert Hsub. generalize PlexServer.createEmptyWeeklyData.
    induction records as [| x records IH]; intros data Hsub; [exact Hsub |].
    cbn [foldl]. apply IH.
    destruct (Hstep data x) as [-> | (t & _ & ->)]; [exact Hsub |].
    apply union_least; [| exact Hsub].
    apply singleton_subseteq_l, weeklyKeyOf_cases.
  - revert Hinit. generalize PlexServer.createEmptyWeeklyData.
    induction records as [| x records IH]; intros data Hdom Hvalid; [exact Hdom |].
    apply Forall_cons in Hvalid. destruct Hvalid as [Hx Hvalid].
    cbn [foldl]. apply IH; [| exact Hvalid].
    destruct (Hstep data x) as [-> | (t & Ht & ->)]; [exact Hdom |].
    rewrite Hdom. apply subseteq_union_1_L, singleton_subseteq_l, weeklyKeyOf_valid.
    apply Hx, Ht.
Qed.

Lemma plex_weekly_keys_witness :
  dom (PlexServer.weeklyGrid utcHost 1700000000000
         [ {[ "date" := JNum 1700000000 ]}; {[ "title" := JStr "untimed" ]} ]) =
  Activity.weeklyKeys.
Proof.
  apply (plex_weekly_keys utcHost 1700000000000).
  repeat constructor.
  - intros t Ht. vm_compute in Ht. injection Ht as <-. lia.
  - intros t Ht. vm_compute in Ht. discriminate.
Defined.

(* --------------------------------------------------------------------- *)
(** ** The list handlers and the cache *)
(* --------------------------------------------------------------------- *)

Lemma exec_getCached (cache : gmap string (Cache.Entry Body)) (key : string)
    (clock : nat -> Z) (i : nat) :
  exec (getCached cache key) clock i = (Returned (Cache.getC (clock i) cache key), S i).
Proof. reflexivity. Qed.

Lemma exec_setCached (cache : gmap string (Cache.Entry Body)) (key : string)
    (payload : Body) (ms : Z) (clock : nat -> Z) (i : nat) :
  exec (setCached cache key payload ms) clock i =
  (Returned (Cache.setC (clock i) cache key payload (Some ms)), S i).
Proof. reflexivity. Qed.

(** What a configured [recentlyWatched] does, step by step. *)
Lemma exec_recentlyWatched (h : Host) (cfg : Plex.Config) (upstream : string -> Upstream)
    (limit : option Z) (cache : gmap string (Cache.Entry Body))
    (clock : nat -> Z) (i : nat) :
  Plex.hasTautulliEnv cfg = true ->
  exec (PlexServer.recentlyWatched h cfg upstream limit cache) clock i =
  match Cache.getC (clock i) cache (watchedCacheKey limit) with
  | Some body => (Returned (body, cache), S i)
  | None =>
      match upstream (PlexServer.apiBase cfg +:+ "&cmd=get_history&length=" +:+
                      numText (maxScaled 50 limit 3)) with
      | UpstreamError error =>
          (Returned (WatchedBody [] (Some ("tautulli: " +:+ error)), cache), S i)
      | UpstreamOk records =>
          match exec (Plex.recentlyWatchedItems h cfg limit records) clock (S i) with
          | (Returned items, j) =>
              (Returned (WatchedBody items None,
                         Cache.setC (clock j) cache (watchedCacheKey limit)
                           (WatchedBody items None) (Some 15000)), S j)
          | (Thrown e, j) => (Thrown e, j)
          end
      end
  end.
Proof.
  intros Henv. unfold PlexServer.recentlyWatched, recentlyWatched.
  unfold Plex.hasTautulliEnv in Henv. rewrite Henv. cbn [negb].
  rewrite exec_mbind, exec_getCached.
  fold (watchedCacheKey limit).
  destruct (Cache.getC (clock i) cache (watchedCacheKey limit)); [reflexivity |].
  unfold PlexServer.apiBase. rewrite <- !append_assoc.
  match goal with |- context [upstream ?u] => destruct (upstream u) end;
    [| reflexivity].
  rewrite exec_mbind.
  change (Watched.recentlyWatchedItems h (Plex.posterFromTautulli cfg) limit records)
    with (Plex.recentlyWatchedItems h cfg limit records).
  destruct (exec (Plex.recentlyWatchedItems h cfg limit records) clock (S i))
    as [[items | e] j]; reflexivity.
Qed.

Lemma exec_recentlyAdded (cfg : Plex.Config) (upstream : string -> Upstream)
    (limit : option Z) (cache : gmap string (Cache.Entry Body))
    (clock : nat -> Z) (i : nat) :
  Plex.hasTautulliEnv cfg = true ->
  exec (PlexServer.recentlyAdded cfg upstream limit cache) clock i =
  match Cache.getC (clock i) cache (addedCacheKey limit) with
  | Some body => (Returned (body, cache), S i)
  | None =>
      match upstream (PlexServer.apiBase cfg +:+ "&cmd=get_recently_added&count=" +:+
                      numText (maxScaled 30 limit 2)) with
      | UpstreamError error =>
          (Returned (AddedBody [] (Some ("tautulli: " +:+ error)), cache), S i)
      | UpstreamOk records =>
          match exec (Plex.Added.recentlyAddedItems cfg limit records) clock (S i) with
          | (Returned items, j) =>
              (Returned (AddedBody items None,
                         Cache.setC (clock j) cache (addedCacheKey limit)
                           (AddedBody items None) (Some 30000)), S j)
          | (Thrown e, j) => (Thrown e, j)
          end
      end
  end.
Proof.
  intros Henv. unfold PlexServer.recentlyAdded. rewrite Henv. cbn [negb].
  rewrite exec_mbind, exec_getCached.
  fold (addedCacheKey limit).
  destruct (Cache.getC (clock i) cache (addedCacheKey limit)); [reflexivity |].
  match goal with |- context [upstream ?u] => destruct (upstream u) end;
    [| reflexivity].
  rewrite exec_mbind.
  destruct (exec (Plex.Added.recentlyAddedItems cfg limit records) clock (S i))
    as [[items | e] j]; reflexivity.
Qed.

Lemma exec_activityWeekly (h : Host) (cfg : Plex.Config) (upstream : string -> Upstream)
    (cache : gmap string (Cache.Entry Body)) (clock : nat -> Z) (i : nat) :
  Plex.hasTautulliEnv cfg = true ->
  exec (PlexServer.activityWeekly h cfg upstream cache) clock i =
  match Cache.getC (clock i) cache "activity-weekly" with
  | Some body => (Returned (body, cache), S i)
  | None =>
      match upstream (PlexServer.apiBase cfg +:+ "&cmd=get_history&length=500") with
      | UpstreamError error =>
          (Returned (GridBody PlexServer.createEmptyWeeklyData
                       (Some ("tautulli: " +:+ error)), cache), S i)
      | UpstreamOk records =>
          let payload := GridBody (PlexServer.weeklyGrid h (clock (S i)) records) None in
          (Returned (payload,
                     Cache.setC (clock (S (S i))) cache "activity-weekly" payload
                       (Some 30000)), S (S (S i)))
      end
  end.
Proof.
  intros Henv. unfold PlexServer.activityWeekly. rewrite Henv. cbn [negb].
  rewrite exec_mbind, exec_getCached.
  destruct (Cache.getC (clock i) cache "activity-weekly"); [reflexivity |].
  match goal with |- context [upstream ?u] => destruct (upstream u) end; reflexivity.
Qed.

Lemma exec_activityMonthly (h : Host) (cfg : Plex.Config) (upstream : string -> Upstream)
    (cache : gmap string (Cache.Entry Body)) (clock : nat -> Z) (i : nat) :
  Plex.hasTautulliEnv cfg = true ->
  exec (PlexServer.activityMonthly h cfg upstream cache) clock i =
  match Cache.getC (clock i) cache "activity-monthly" with
  | Some body => (Returned (body, cache), S i)
  | None =>
      match upstream (PlexServer.apiBase cfg +:+ "&cmd=get_history&length=800") with
      | UpstreamError error =>
          (Returned (GridBody Plex.initMonthly (Some ("tautulli: " +:+ error)), cache), S i)
      | UpstreamOk records =>
          let payload := GridBody (Plex.monthlyGrid h (clock (S i)) records) None in
          (Returned (payload,
                     Cache.setC (clock (S (S i))) cache "activity-monthly" payload
                       (Some 30000)), S (S (S i)))
      end
  end.
Proof.
  intros Henv. unfold PlexServer.activityMonthly. rewrite Henv. cbn [negb].
  rewrite exec_mbind, exec_getCached.
  destruct (Cache.getC (clock i) cache "activity-monthly"); [reflexivity |].
  match goal with |- context [upstream ?u] => destruct (upstream u) end; reflexivity.
Qed.

(** Once a request has been answered from the upstream, the same
    request is answered from the cache for the next 15 seconds
    (recently-watched) or 30 seconds (recently-added): the body is the
    same, the cache is left as it is, and the upstream is not consulted;
    whatever it would answer makes no difference. *)
Lemma served_while_fresh (h : Host) (cfg : Plex.Config)
    (upstream upstream' : string -> Upstream) (limit : option Z)
    (cache cache' : gmap string (Cache.Entry Body)) (body : Body)
    (clock clock' : nat -> Z) (i j i' : nat) :
  Plex.hasTautulliEnv cfg = true ->
  hasWarning body = false ->
  (Cache.getC (clock i) cache (watchedCacheKey limit) = None ->
   exec (PlexServer.recentlyWatched h cfg upstream limit cache) clock i =
     (Returned (body, cache'), j) ->
   clock' i' < clock (pred j) + 15000 ->
   exec (PlexServer.recentlyWatched h cfg upstream' limit cache') clock' i' =
     (Returned (body, cache'), S i')) /\
  (Cache.getC (clock i) cache (addedCacheKey limit) = None ->
   exec (PlexServer.recentlyAdded cfg upstream limit cache) clock i =
     (Returned (body, cache'), j) ->
   clock' i' < clock (pred j) + 30000 ->
   exec (PlexServer.recentlyAdded cfg upstream' limit cache') clock' i' =
     (Returned (body, cache'), S i')).
Proof.
  intros Henv Hclean. split.
  - intros Hmiss Hfirst Hsoon.
    rewrite exec_recentlyWatched, Hmiss in Hfirst by exact Henv.
    rewrite exec_recentlyWatched by exact Henv.
    match type of Hfirst with context [upstream ?u] => destruct (upstream u) end.
    + destruct (exec (Plex.recentlyWatchedItems h cfg limit records) clock (S i))
        as [[items | e] j0]; [| discriminate].
      injection Hfirst as <- <- <-. cbn [pred] in Hsoon.
      rewrite getC_setC_same. unfold default, from_option, id.
      destruct (Z.ltb_spec (clock' i') (clock j0 + 15000)); [reflexivity | lia].
    + injection Hfirst as <- _ _. discriminate Hclean.
  - intros Hmiss Hfirst Hsoon.
    rewrite exec_recentlyAdded, Hmiss in Hfirst by exact Henv.
    rewrite exec_recentlyAdded by exact Henv.
    match type of Hfirst with context [upstream ?u] => destruct (upstream u) end.
    + destruct (exec (Plex.Added.recentlyAddedItems cfg limit records) clock (S i))
        as [[items | e] j0]; [| discriminate].
      injection Hfirst as <- <- <-. cbn [pred] in Hsoon.
      rewrite getC_setC_same. unfold default, from_option, id.
      destruct (Z.ltb_spec (clock' i') (clock j0 + 30000)); [reflexivity | lia].
    + injection Hfirst as <- _ _. discriminate Hclean.
Qed.

(** A cached answer is not served at or after its expiry: the handler
    asks the upstream again, and when that fails the answer is the warning
    and not the items of before. *)
Lemma asked_again_once_expired (h : Host) (cfg : Plex.Config)
    (upstream upstream' : string -> Upstream) (limit : option Z)
    (cache cache' : gmap string (Cache.Entry Body)) (body : Body)
    (clock clock' : nat -> Z) (i j i' : nat) (error : string) :
  Plex.hasTautulliEnv cfg = true ->
  hasWarning body = false ->
  (forall url, upstream' url = UpstreamError error) ->
  (Cache.getC (clock i) cache (watchedCacheKey limit) = None ->
   exec (PlexServer.recentlyWatched h cfg upstream limit cache) clock i =
     (Returned (body, cache'), j) ->
   clock (pred j) + 15000 <= clock' i' ->
   exec (PlexServer.recentlyWatched h cfg upstream' limit cache') clock' i' =
     (Returned (WatchedBody [] (Some ("tautulli: " +:+ error)), cache'), S i')) /\
  (Cache.getC (clock i) cache (addedCacheKey limit) = None ->
   exec (PlexServer.recentlyAdded cfg upstream limit cache) clock i =
     (Returned (body, cache'), j) ->
   clock (pred j) + 30000 <= clock' i' ->
   exec (PlexServer.recentlyAdded cfg upstream' limit cache') clock' i' =
     (Returned (AddedBody [] (Some ("tautulli: " +:+ error)), cache'), S i')).
Proof.
  intros Henv Hclean Hdown. split.
  - intros Hmiss Hfirst Hlate.
    rewrite exec_recentlyWatched, Hmiss in Hfirst by exact Henv.
    rewrite exec_recentlyWatched by exact Henv.
    match type of Hfirst with context [upstream ?u] => destruct (upstream u) end.
    + destruct (exec (Plex.recentlyWatchedItems h cfg limit records) clock (S i))
        as [[items | e] j0]; [| discriminate].
      injection Hfirst as <- <- <-. cbn [pred] in Hlate.
      rewrite getC_setC_same. unfold default, from_option, id.
      destruct (Z.ltb_spec (clock' i') (clock j0 + 15000)); [lia |].
      rewrite Hdown. reflexivity.
    + injection Hfirst as <- _ _. discriminate Hclean.
  - intros Hmiss Hfirst Hlate.
    rewrite exec_recentlyAdded, Hmiss in Hfirst by exact Henv.
    rewrite exec_recentlyAdded by exact Henv.
    match type of Hfirst with context [upstream ?u] => destruct (upstream u) end.
    + destruct (exec (Plex.Added.recentlyAddedItems cfg limit records) clock (S i))
        as [[items | e] j0]; [| discriminate].
      injection Hfirst as <- <- <-. cbn [pred] in Hlate.
      rewrite getC_setC_same. unfold default, from_option, id.
      destruct (Z.ltb_spec (clock' i') (clock j0 + 30000)); [lia |].
      rewrite Hdown. reflexivity.
    + injection Hfirst as <- _ _. discriminate Hclean.
Qed.

(** X20: the four handlers of the Tautulli+Plex variant never cache an
    answer that carries a warning: after "not configured" or an upstream
    failure the cache is what it was, so the next request tries again. *)
Theorem warnings_are_not_cached (h : Host) (cfg : Plex.Config)
    (upstream : string -> Upstream) (limit : option Z)
    (cache cache' : gmap string (Cache.Entry Body)) (body : Body)
    (clock : nat -> Z) (i j : nat) :
  hasWarning body = true ->
  (Cache.getC (clock i) cache (watchedCacheKey limit) = None ->
   exec (PlexServer.recentlyWatched h cfg upstream limit cache) clock i =
     (Returned (body, cache'), j) -> cache' = cache) /\
  (Cache.getC (clock i) cache (addedCacheKey limit) = None ->
   exec (PlexServer.recentlyAdded cfg upstream limit cache) clock i =
     (Returned (body, cache'), j) -> cache' = cache) /\
  (Cache.getC (clock i) cache "activity-weekly" = None ->
   exec (PlexServer.activityWeekly h cfg upstream cache) clock i =
     (Returned (body, cache'), j) -> cache' = cache) /\
  (Cache.getC (clock i) cache "activity-monthly" = None ->
   exec (PlexServer.activityMonthly h cfg upstream cache) clock i =
     (Returned (body, cache'), j) -> cache' = cache).
Proof.
  intros Hwarn.
  destruct (Plex.hasTautulliEnv cfg) eqn:Henv.
  - split; [| split; [| split]]; intros Hmiss Hrun.
    + rewrite exec_recentlyWatched, Hmiss in Hrun by exact Henv.
      match type of Hrun with context [upstream ?u] => destruct (upstream u) end.
      * destruct (exec (Plex.recentlyWatchedItems h cfg limit records) clock (S i))
          as [[items | e] j0]; [| discriminate].
        injection Hrun as <- _ _. discriminate Hwarn.
      * injection Hrun as _ <- _. reflexivity.
    + rewrite exec_recentlyAdded, Hmiss in Hrun by exact Henv.
      match type of Hrun with context [upstream ?u] => destruct (upstream u) end.
      * destruct (exec (Plex.Added.recentlyAddedItems cfg limit records) clock (S i))
          as [[items | e] j0]; [| discriminate].
        injection Hrun as <- _ _. discriminate Hwarn.
      * injection Hrun as _ <- _. reflexivity.
    + rewrite exec_activityWeekly, Hmiss in Hrun by exact Henv.
      match type of Hrun with context [upstream ?u] => destruct (upstream u) end.
      * cbn zeta in Hrun.
        apply (f_equal (fun r => match r with
                                 | (Returned (b, _), _) => hasWarning b
                                 | _ => true
                                 end)) in Hrun.
        rewrite Hwarn in Hrun. discriminate Hrun.
      * apply (f_equal (fun r => match r with
                                 | (Returned (_, c), _) => Some c
                                 | _ => None
                                 end)) in Hrun.
        injection Hrun as <-. reflexivity.
    + rewrite exec_activityMonthly, Hmiss in Hrun by exact Henv.
      match type of Hrun with context [upstream ?u] => destruct (upstream u) end.
      * cbn zeta in Hrun.
        apply (f_equal (fun r => match r with
                                 | (Returned (b, _), _) => hasWarning b
                                 | _ => true
                                 end)) in Hrun.
        rewrite Hwarn in Hrun. discriminate Hrun.
      * apply (f_equal (fun r => match r with
                                 | (Returned (_, c), _) => Some c
                                 | _ => None
                                 end)) in Hrun.
        injection Hrun as <-. reflexivity.
  - split; [| split; [| split]]; intros _ Hrun.
    + unfold PlexServer.recentlyWatched, recentlyWatched in Hrun.
      unfold Plex.hasTautulliEnv in Henv. rewrite Henv in Hrun. cbn in Hrun.
      apply (f_equal (fun r => match r with
                               | (Returned (_, c), _) => Some c
                               | _ => None
                               end)) in Hrun.
      injection Hrun as <-. reflexivity.
    + unfold PlexServer.recentlyAdded in Hrun. rewrite Henv in Hrun. cbn in Hrun.
      apply (f_equal (fun r => match r with
                               | (Returned (_, c), _) => Some c
                               | _ => None
                               end)) in Hrun.
      injection Hrun as <-. reflexivity.
    + unfold PlexServer.activityWeekly in Hrun. rewrite Henv in Hrun. cbn in Hrun.
      apply (f_equal (fun r => match r with
                               | (Returned (_, c), _) => Some c
                               | _ => None
                               end)) in Hrun.
      injection Hrun as <-. reflexivity.
    + unfold PlexServer.activityMonthly in Hrun. rewrite Henv in Hrun. cbn in Hrun.
      apply (f_equal (fun r => match r with
                               | (Returned (_, c), _) => Some c
                               | _ => None
                               end)) in Hrun.
      injection Hrun as <-. reflexivity.
Qed.

Lemma warnings_are_not_cached_witness :
  watchedCacheAfter = watchedCacheAfter /\ addedCacheAfter = addedCacheAfter /\
  watchedCacheAfter = watchedCacheAfter /\ addedCacheAfter = addedCacheAfter.
Proof.
  split; [| split; [| split]].
  - apply (proj1 (warnings_are_not_cached utcHost plexCfg downUpstream (Some 7)
                    watchedCacheAfter watchedCacheAfter
                    (WatchedBody [] (Some "tautulli: down")) ticking 0 1 eq_refl)).
    + vm_compute. reflexivity.
    + vm_compute. reflexivity.
  - apply (proj1 (proj2 (warnings_are_not_cached utcHost plexCfg downUpstream (Some 7)
                    addedCacheAfter addedCacheAfter
                    (AddedBody [] (Some "tautulli: down")) ticking 0 1 eq_refl))).
    + vm_compute. reflexivity.
    + vm_compute. reflexivity.
  - apply (proj1 (proj2 (proj2 (warnings_are_not_cached utcHost plexCfg downUpstream None
                    watchedCacheAfter watchedCacheAfter
                    (GridBody PlexServer.createEmptyWeeklyData (Some "tautulli: down"))
                    ticking 0 1 eq_refl)))).
    + vm_compute. reflexivity.
    + vm_compute. reflexivity.
  - apply (proj2 (proj2 (proj2 (warnings_are_not_cached utcHost plexCfg downUpstream None
                    addedCacheAfter addedCacheAfter
                    (GridBody Plex.initMonthly (Some "tautulli: down"))
                    ticking 0 1 eq_refl)))).
    + vm_compute. reflexivity.
    + vm_compute. reflexivity.
Defined.

Lemma numToString_not_NaN (z : Z) : numToString z <> "NaN".
Proof.
  unfold numToString. intros H.
  apply (f_equal NilZero.int_of_string) in H.
  assert (Hnn : Z.to_int z <> Decimal.Pos Decimal.Nil /\
                Z.to_int z <> Decimal.Neg Decimal.Nil).
  { destruct z as [| p | p]; cbn; split; try discriminate;
      intros E; injection E as E; exact (DecimalPos.Unsigned.to_uint_nonnil p E). }
  rewrite NilZero.isi in H by apply Hnn.
  vm_compute in H. discriminate H.
Qed.

Lemma numText_inj (a b : option Z) : numText a = numText b -> a = b.
Proof.
  destruct a as [x |], b as [y |]; cbn [numText]; intros H.
  - f_equal. exact (numToString_inj _ _ H).
  - destruct (numToString_not_NaN _ H).
  - symmetry in H. destruct (numToString_not_NaN _ H).
  - reflexivity.
Qed.

Lemma recentlyWatched_cache (h : Host) (cfg : Plex.Config) (upstream : string -> Upstream)
    (limit : option Z) (cache cache' : gmap string (Cache.Entry Body)) (body : Body)
    (clock : nat -> Z) (i j : nat) :
  exec (PlexServer.recentlyWatched h cfg upstream limit cache) clock i =
    (Returned (body, cache'), j) ->
  cache' = cache \/
  exists t, cache' = Cache.setC t cache (watchedCacheKey limit) body (Some 15000).
Proof.
  intros Hrun. destruct (Plex.hasTautulliEnv cfg) eqn:Henv.
  - rewrite exec_recentlyWatched in Hrun by exact Henv.
    destruct (Cache.getC (clock i) cache (watchedCacheKey limit)).
    { injection Hrun as _ <- _. left. reflexivity. }
    match type of Hrun with context [upstream ?u] => destruct (upstream u) end.
    + destruct (exec (Plex.recentlyWatchedItems h cfg limit records) clock (S i))
        as [[items | e] j0]; [| discriminate].
      injection Hrun as <- <- _. right. eexists. reflexivity.
    + injection Hrun as _ <- _. left. reflexivity.
  - unfold PlexServer.recentlyWatched, recentlyWatched in Hrun.
    unfold Plex.hasTautulliEnv in Henv. rewrite Henv in Hrun. cbn in Hrun.
    injection Hrun as _ <- _. left. reflexivity.
Qed.

Lemma recentlyAdded_cache (cfg : Plex.Config) (upstream : string -> Upstream)
    (limit : option Z) (cache cache' : gmap string (Cache.Entry Body)) (body : Body)
    (clock : nat -> Z) (i j : nat) :
  exec (PlexServer.recentlyAdded cfg upstream limit cache) clock i =
    (Returned (body, cache'), j) ->
  cache' = cache \/
  exists t, cache' = Cache.setC t cache (addedCacheKey limit) body (Some 30000).
Proof.
  intros Hrun. destruct (Plex.hasTautulliEnv cfg) eqn:Henv.
  - rewrite exec_recentlyAdded in Hrun by exact Henv.
    destruct (Cache.getC (clock i) cache (addedCacheKey limit)).
    { injection Hrun as _ <- _. left. reflexivity. }
    match type of Hrun with context [upstream ?u] => destruct (upstream u) end.
    + destruct (exec (Plex.Added.recentlyAddedItems cfg limit records) clock (S i))
        as [[items | e] j0]; [| discriminate].
      injection Hrun as <- <- _. right. eexists. reflexivity.
    + injection Hrun as _ <- _. left. reflexivity.
  - unfold PlexServer.recentlyAdded in Hrun. rewrite Henv in Hrun. cbn in Hrun.
    injection Hrun as _ <- _. left. reflexivity.
Qed.

Lemma watchedCacheKey_inj (a b : option Z) :
  watchedCacheKey a = watchedCacheKey b -> a = b.
Proof.
  unfold watchedCacheKey. intros H. apply append_cancel_l in H.
  exact (numText_inj _ _ H).
Qed.

Lemma addedCacheKey_inj (a b : option Z) :
  addedCacheKey a = addedCacheKey b -> a = b.
Proof.
  unfold addedCacheKey. intros H. apply append_cancel_l in H.
  exact (numText_inj _ _ H).
Qed.

Lemma watched_added_keys_differ (a b : option Z) : watchedCacheKey a <> addedCacheKey b.
Proof. unfold watchedCacheKey, addedCacheKey. cbv [String.append]. discriminate. Qed.

Lemma watched_key_not_activity (a : option Z) :
  watchedCacheKey a <> "activity-weekly" /\ watchedCacheKey a <> "activity-monthly".
Proof. unfold watchedCacheKey. cbv [String.append]. split; discriminate. Qed.

Lemma added_key_not_activity (a : option Z) :
  addedCacheKey a <> "activity-weekly" /\ addedCacheKey a <> "activity-monthly".
Proof. unfold addedCacheKey. cbv [String.append]. split; discriminate. Qed.

(** X21: the list handlers cache per limit: answering
    [recently-watched?limit=l] changes what the cache holds for no other
    limit, for no [recently-added] request and for neither activity grid,
    and likewise for [recently-added]; an answer computed for one limit is
    never served to a request with another. *)
Theorem answers_are_cached_per_limit (h : Host) (cfg : Plex.Config)
    (upstream : string -> Upstream) (limit limit' : option Z)
    (cache cache' : gmap string (Cache.Entry Body)) (body : Body)
    (clock : nat -> Z) (i j : nat) (t : Z) :
  limit <> limit' ->
  (exec (PlexServer.recentlyWatched h cfg upstream limit cache) clock i =
     (Returned (body, cache'), j) ->
   Cache.getC t cache' (watchedCacheKey limit') = Cache.getC t cache (watchedCacheKey limit') /\
   (forall l, Cache.getC t cache' (addedCacheKey l) = Cache.getC t cache (addedCacheKey l)) /\
   Cache.getC t cache' "activity-weekly" = Cache.getC t cache "activity-weekly" /\
   Cache.getC t cache' "activity-monthly" = Cache.getC t cache "activity-monthly") /\
  (exec (PlexServer.recentlyAdded cfg upstream limit cache) clock i =
     (Returned (body, cache'), j) ->
   Cache.getC t cache' (addedCacheKey limit') = Cache.getC t cache (addedCacheKey limit') /\
   (forall l, Cache.getC t cache' (watchedCacheKey l) = Cache.getC t cache (watchedCacheKey l)) /\
   Cache.getC t cache' "activity-weekly" = Cache.getC t cache "activity-weekly" /\
   Cache.getC t cache' "activity-monthly" = Cache.getC t cache "activity-monthly").
Proof.
  intros Hne. split; intros Hrun.
  - destruct (recentlyWatched_cache _ _ _ _ _ _ _ _ _ _ Hrun) as [-> | [tw ->]].
    { split; [| split; [| split]]; reflexivity. }
    split; [| split; [| split]].
    + apply getC_setC_other. intros E. apply Hne. exact (watchedCacheKey_inj _ _ E).
    + intros l. apply getC_setC_other, watched_added_keys_differ.
    + apply getC_setC_other, watched_key_not_activity.
    + apply getC_setC_other, watched_key_not_activity.
  - destruct (recentlyAdded_cache _ _ _ _ _ _ _ _ _ Hrun) as [-> | [tw ->]].
    { split; [| split; [| split]]; reflexivity. }
    split; [| split; [| split]].
    + apply getC_setC_other. intros E. apply Hne. exact (addedCacheKey_inj _ _ E).
    + intros l. apply getC_setC_other. intros E. symmetry in E.
      exact (watched_added_keys_differ _ _ E).
    + apply getC_setC_other, added_key_not_activity.
    + apply getC_setC_other, added_key_not_activity.
Qed.

Lemma answers_are_cached_per_limit_witness :
  (Cache.getC (ticking 2) watchedCacheAfter (watchedCacheKey (Some 10)) = None /\
   Cache.getC (ticking 2) watchedCacheAfter "activity-weekly" = None) /\
  (Cache.getC (ticking 2) addedCacheAfter (addedCacheKey (Some 10)) = None /\
   Cache.getC (ticking 2) addedCacheAfter "activity-weekly" = None).
Proof.
  split.
  - destruct (proj1 (answers_are_cached_per_limit utcHost plexCfg historyUpstream
                       (Some 5) (Some 10) ∅ watchedCacheAfter watchedAnswer ticking
                       0 2 (ticking 2) ltac:(discriminate)))
      as (Hw & _ & Hweek & _).
    + vm_compute. reflexivity.
    + split; [exact Hw | exact Hweek].
  - destruct (proj2 (answers_are_cached_per_limit utcHost plexCfg fiveUpstream
                       (Some 2) (Some 10) ∅ addedCacheAfter addedAnswer ticking
                       0 2 (ticking 2) ltac:(discriminate)))
      as (Ha & _ & Hweek & _).
    + vm_compute. reflexivity.
    + split; [exact Ha | exact Hweek].
Defined.

(* --------------------------------------------------------------------- *)
(** ** The Jellyfin activity handlers *)
(* --------------------------------------------------------------------- *)

Lemma exec_cacheAndSend (cache : gmap string (Cache.Entry JellyfinServer.Grid))
    (key : string) (payload : JellyfinServer.Grid) (clock : nat -> Z) (i : nat) :
  exec (JellyfinServer.cacheAndSend cache key payload) clock i =
  (Returned (payload, Cache.setC (clock i) cache key payload (Some 30000)), S i).
Proof. reflexivity. Qed.

Lemma exec_jellyfin_getCached (cache : gmap string (Cache.Entry JellyfinServer.Grid))
    (key : string) (clock : nat -> Z) (i : nat) :
  exec (JellyfinServer.getCached cache key) clock i =
  (Returned (Cache.getC (clock i) cache key), S i).
Proof. reflexivity. Qed.

Lemma zero_weekly_ok :
  dom Activity.initWeekly = Activity.weeklyKeys /\
  map_Forall (fun _ n => 0 <= n) Activity.initWeekly.
Proof. rewrite initWeekly_zero. split; [apply dom_gset_to_gmap | apply zero_grid_nonneg]. Qed.

Lemma zero_monthly_ok :
  dom Activity.initMonthly = Activity.monthlyKeys /\
  map_Forall (fun _ n => 0 <= n) Activity.initMonthly.
Proof. rewrite initMonthly_zero. split; [apply dom_gset_to_gmap | apply zero_grid_nonneg]. Qed.

(** On a miss both handlers return and write what they return. *)
Lemma jellyfin_activity_grid_cached (h : Host) (cfg : Jellyfin.Config)
    (open : JellyfinServer.Opener) (cache : gmap string (Cache.Entry JellyfinServer.Grid))
    (clock : nat -> Z) (i : nat) :
  (Cache.getC (clock i) cache "jellyfin-activity-weekly" = None ->
   exists g j,
     exec (JellyfinServer.activityWeekly h cfg open cache) clock i =
       (Returned (g, Cache.setC (clock j) cache "jellyfin-activity-weekly" g (Some 30000)),
        S j)) /\
  (Cache.getC (clock i) cache "jellyfin-activity-monthly" = None ->
   exists g j,
     exec (JellyfinServer.activityMonthly h cfg open cache) clock i =
       (Returned (g, Cache.setC (clock j) cache "jellyfin-activity-monthly" g (Some 30000)),
        S j)).
Proof.
  split; intros Hmiss.
  - unfold JellyfinServer.activityWeekly.
    rewrite exec_mbind, exec_jellyfin_getCached, Hmiss. cbv zeta.
    destruct (negb (envTruthy (Jellyfin.JELLYFIN_DB_PATH cfg)));
      [eexists _, _; apply exec_cacheAndSend |].
    destruct (JellyfinServer.openJellyfinDatabase cfg open) as [message | db];
      [eexists _, _; apply exec_cacheAndSend |].
    destruct (JellyfinServer.getPlaybackEvents h db 7) as [| event events];
      [eexists _, _; apply exec_cacheAndSend |].
    eexists _, _. reflexivity.
  - unfold JellyfinServer.activityMonthly.
    rewrite exec_mbind, exec_jellyfin_getCached, Hmiss. cbv zeta.
    destruct (negb (envTruthy (Jellyfin.JELLYFIN_DB_PATH cfg)));
      [eexists _, _; apply exec_cacheAndSend |].
    destruct (JellyfinServer.openJellyfinDatabase cfg open) as [message | db];
      [eexists _, _; apply exec_cacheAndSend |].
    destruct (JellyfinServer.getPlaybackEvents h db 30) as [| event events];
      [eexists _, _; apply exec_cacheAndSend |].
    eexists _, _. reflexivity.
Qed.

(** X22: on a cache miss the two Jellyfin activity handlers always answer,
    and always with a full grid: exactly the 56 weekly (30 monthly) keys
    with non-negative counts, all of them 0 when the answer carries a
    warning.  Every answer, a failure included, is written to the cache
    for 30 seconds under the handler's key. *)
Theorem jellyfin_activity_answers_a_full_grid (h : Host) (cfg : Jellyfin.Config)
    (open : JellyfinServer.Opener) (cache : gmap string (Cache.Entry JellyfinServer.Grid))
    (clock : nat -> Z) (i : nat) :
  (Cache.getC (clock i) cache "jellyfin-activity-weekly" = None ->
   exists g j,
     exec (JellyfinServer.activityWeekly h cfg open cache) clock i =
       (Returned (g, Cache.setC (clock j) cache "jellyfin-activity-weekly" g (Some 30000)),
        S j) /\
     dom (JellyfinServer.data g) = Activity.weeklyKeys /\
     map_Forall (fun _ n => 0 <= n) (JellyfinServer.data g) /\
     (JellyfinServer.warning g <> None ->
      JellyfinServer.data g = gset_to_gmap 0 Activity.weeklyKeys)) /\
  (Cache.getC (clock i) cache "jellyfin-activity-monthly" = None ->
   exists g j,
     exec (JellyfinServer.activityMonthly h cfg open cache) clock i =
       (Returned (g, Cache.setC (clock j) cache "jellyfin-activity-monthly" g (Some 30000)),
        S j) /\
     dom (JellyfinServer.data g) = Activity.monthlyKeys /\
     map_Forall (fun _ n => 0 <= n) (JellyfinServer.data g) /\
     (JellyfinServer.warning g <> None ->
      JellyfinServer.data g = gset_to_gmap 0 Activity.monthlyKeys)).
Proof.
  split; intros Hmiss.
  - unfold JellyfinServer.activityWeekly.
    rewrite exec_mbind, exec_jellyfin_getCached, Hmiss. cbv zeta.
    destruct (negb (envTruthy (Jellyfin.JELLYFIN_DB_PATH cfg))).
    { eexists _, _. split; [apply exec_cacheAndSend |]. cbn [JellyfinServer.data].
      split; [apply zero_weekly_ok |]. split; [apply zero_weekly_ok |].
      intros _. apply initWeekly_zero. }
    destruct (JellyfinServer.openJellyfinDatabase cfg open) as [message | db].
    { eexists _, _. split; [apply exec_cacheAndSend |]. cbn [JellyfinServer.data].
      split; [apply zero_weekly_ok |]. split; [apply zero_weekly_ok |].
      intros _. apply initWeekly_zero. }
    destruct (JellyfinServer.getPlaybackEvents h db 7) as [| event events].
    { eexists _, _. split; [apply exec_cacheAndSend |]. cbn [JellyfinServer.data].
      split; [apply zero_weekly_ok |]. split; [apply zero_weekly_ok |].
      intros _. apply initWeekly_zero. }
    eexists _, _. split; [reflexivity |].
    cbn [JellyfinServer.data JellyfinServer.warning].
    split; [apply weeklyGrid_keeps |]. split; [apply weeklyGrid_keeps |].
    intros Hw. destruct Hw. reflexivity.
  - unfold JellyfinServer.activityMonthly.
    rewrite exec_mbind, exec_jellyfin_getCached, Hmiss. cbv zeta.
    destruct (negb (envTruthy (Jellyfin.JELLYFIN_DB_PATH cfg))).
    { eexists _, _. split; [apply exec_cacheAndSend |]. cbn [JellyfinServer.data].
      split; [apply zero_monthly_ok |]. split; [apply zero_monthly_ok |].
      intros _. apply initMonthly_zero. }
    destruct (JellyfinServer.openJellyfinDatabase cfg open) as [message | db].
    { eexists _, _. split; [apply exec_cacheAndSend |]. cbn [JellyfinServer.data].
      split; [apply zero_monthly_ok |]. split; [apply zero_monthly_ok |].
      intros _. apply initMonthly_zero. }
    destruct (JellyfinServer.getPlaybackEvents h db 30) as [| event events].
    { eexists _, _. split; [apply exec_cacheAndSend |]. cbn [JellyfinServer.data].
      split; [apply zero_monthly_ok |]. split; [apply zero_monthly_ok |].
      intros _. apply initMonthly_zero. }
    eexists _, _. split; [reflexivity |].
    cbn [JellyfinServer.data JellyfinServer.warning].
    split; [apply monthlyGrid_keeps |]. split; [apply monthlyGrid_keeps |].
    intros Hw. destruct Hw. reflexivity.
Qed.

Lemma jellyfin_activity_answers_a_full_grid_witness :
  (exists g j,
     exec (JellyfinServer.activityWeekly utcHost jellyfinCfg opensPlayedDb ∅) ticking 0 =
       (Returned (g, Cache.setC (ticking j) ∅ "jellyfin-activity-weekly" g (Some 30000)),
        S j) /\
     dom (JellyfinServer.data g) = Activity.weeklyKeys /\
     map_Forall (fun _ n => 0 <= n) (JellyfinServer.data g) /\
     (JellyfinServer.warning g <> None ->
      JellyfinServer.data g = gset_to_gmap 0 Activity.weeklyKeys)) /\
  (exists g j,
     exec (JellyfinServer.activityMonthly utcHost jellyfinCfg lockedDb ∅) ticking 0 =
       (Returned (g, Cache.setC (ticking j) ∅ "jellyfin-activity-monthly" g (Some 30000)),
        S j) /\
     dom (JellyfinServer.data g) = Activity.monthlyKeys /\
     map_Forall (fun _ n => 0 <= n) (JellyfinServer.data g) /\
     (JellyfinServer.warning g <> None ->
      JellyfinServer.data g = gset_to_gmap 0 Activity.monthlyKeys)).
Proof.
  split.
  - apply (proj1 (jellyfin_activity_answers_a_full_grid utcHost jellyfinCfg
                    opensPlayedDb ∅ ticking 0)).
    vm_compute. reflexivity.
  - apply (proj2 (jellyfin_activity_answers_a_full_grid utcHost jellyfinCfg
                    lockedDb ∅ ticking 0)).
    vm_compute. reflexivity.
Defined.

(** X23: the Jellyfin activity handlers serve what they cached for 30
    seconds without opening the database: a second request in that time
    gets the first answer again, a failure answer included, whatever the
    database would now give. *)
Theorem jellyfin_answer_is_repeated_for_30_seconds (h : Host) (cfg : Jellyfin.Config)
    (open open' : JellyfinServer.Opener)
    (cache cache' : gmap string (Cache.Entry JellyfinServer.Grid))
    (g : JellyfinServer.Grid) (clock clock' : nat -> Z) (i j i' : nat) :
  (Cache.getC (clock i) cache "jellyfin-activity-weekly" = None ->
   exec (JellyfinServer.activityWeekly h cfg open cache) clock i =
     (Returned (g, cache'), j) ->
   clock' i' < clock (pred j) + 30000 ->
   exec (JellyfinServer.activityWeekly h cfg open' cache') clock' i' =
     (Returned (g, cache'), S i')) /\
  (Cache.getC (clock i) cache "jellyfin-activity-monthly" = None ->
   exec (JellyfinServer.activityMonthly h cfg open cache) clock i =
     (Returned (g, cache'), j) ->
   clock' i' < clock (pred j) + 30000 ->
   exec (JellyfinServer.activityMonthly h cfg open' cache') clock' i' =
     (Returned (g, cache'), S i')).
Proof.
  split; intros Hmiss Hfirst Hsoon.
  - destruct (proj1 (jellyfin_activity_grid_cached h cfg open cache clock i) Hmiss)
      as (g0 & j0 & Hrun).
    rewrite Hrun in Hfirst. injection Hfirst as <- <- <-. cbn [pred] in Hsoon.
    unfold JellyfinServer.activityWeekly.
    rewrite exec_mbind, exec_jellyfin_getCached, getC_setC_same.
    unfold default, from_option, id.
    destruct (Z.ltb_spec (clock' i') (clock j0 + 30000)); [reflexivity | lia].
  - destruct (proj2 (jellyfin_activity_grid_cached h cfg open cache clock i) Hmiss)
      as (g0 & j0 & Hrun).
    rewrite Hrun in Hfirst. injection Hfirst as <- <- <-. cbn [pred] in Hsoon.
    unfold JellyfinServer.activityMonthly.
    rewrite exec_mbind, exec_jellyfin_getCached, getC_setC_same.
    unfold default, from_option, id.
    destruct (Z.ltb_spec (clock' i') (clock j0 + 30000)); [reflexivity | lia].
Qed.

Lemma jellyfin_answer_is_repeated_for_30_seconds_witness :
  exec (JellyfinServer.activityWeekly utcHost jellyfinCfg opensPlayedDb
          (Cache.setC (ticking 1) ∅ "jellyfin-activity-weekly" lockedAnswer (Some 30000)))
    ticking 20 =
  (Returned (lockedAnswer,
             Cache.setC (ticking 1) ∅ "jellyfin-activity-weekly" lockedAnswer (Some 30000)),
   21%nat) /\
  exec (JellyfinServer.activityMonthly utcHost jellyfinCfg opensPlayedDb
          (Cache.setC (ticking 1) ∅ "jellyfin-activity-monthly" lockedMonthlyAnswer
             (Some 30000)))
    ticking 20 =
  (Returned (lockedMonthlyAnswer,
             Cache.setC (ticking 1) ∅ "jellyfin-activity-monthly" lockedMonthlyAnswer
               (Some 30000)),
   21%nat).
Proof.
  split.
  - apply (proj1 (jellyfin_answer_is_repeated_for_30_seconds utcHost jellyfinCfg
                    lockedDb opensPlayedDb ∅
                    (Cache.setC (ticking 1) ∅ "jellyfin-activity-weekly" lockedAnswer
                       (Some 30000))
                    lockedAnswer ticking ticking 0 2 20)).
    + vm_compute. reflexivity.
    + reflexivity.
    + vm_compute. reflexivity.
  - apply (proj2 (jellyfin_answer_is_repeated_for_30_seconds utcHost jellyfinCfg
                    lockedDb opensPlayedDb ∅
                    (Cache.setC (ticking 1) ∅ "jellyfin-activity-monthly"
                       lockedMonthlyAnswer (Some 30000))
                    lockedMonthlyAnswer ticking ticking 0 2 20)).
    + vm_compute. reflexivity.
    + reflexivity.
    + vm_compute. reflexivity.
Defined.

(* --------------------------------------------------------------------- *)
(** ** The playback queries *)
(* --------------------------------------------------------------------- *)

Lemma tryQueries_skips (h : Host) (db : JellyfinServer.Db) (pre rest : list string) :
  Forall (fun query => db query = None \/ db query = Some []) pre ->
  JellyfinServer.tryQueries h db (pre ++ rest) = JellyfinServer.tryQueries h db rest.
Proof.
  induction 1 as [| query pre Hq _ IH]; [reflexivity |].
  cbn [app JellyfinServer.tryQueries].
  destruct Hq as [-> | ->]; exact IH.
Qed.

Lemma omap_length_le {A B : Type} (f : A -> option B) (l : list A) :
  (length (omap f l) <= length l)%nat.
Proof.
  induction l as [| a l IH]; [reflexivity |].
  cbn [omap list_omap length]. destruct (f a); cbn [length]; lia.
Qed.

(** X24: [getPlaybackEvents] tries its six queries in their fixed order
    and stops at the first one that runs and has a row: the events are the
    valid timestamps of that query's rows, in row order, and the queries
    after it are not consulted, not even when none of its rows has a
    valid timestamp.  When every query throws or has no row the result is
    the empty list. *)
Theorem first_answering_query_decides (h : Host) (db : JellyfinServer.Db) (daysBack : Z)
    (pre post : list string) (query : string) (rows : list Raw) :
  JellyfinServer.possibleQueries daysBack = (pre ++ query :: post)%list ->
  Forall (fun q => db q = None \/ db q = Some []) pre ->
  (db query = Some rows -> rows <> [] ->
   JellyfinServer.getPlaybackEvents h db daysBack = JellyfinServer.validEvents h rows /\
   (length (JellyfinServer.getPlaybackEvents h db daysBack) <= length rows)%nat) /\
  ((db query = None \/ db query = Some []) ->
   Forall (fun q => db q = None \/ db q = Some []) post ->
   JellyfinServer.getPlaybackEvents h db daysBack = []).
Proof.
  intros Hsplit Hpre. unfold JellyfinServer.getPlaybackEvents.
  rewrite Hsplit, (tryQueries_skips h db pre _ Hpre). split.
  - intros Hq Hrows. cbn [JellyfinServer.tryQueries]. rewrite Hq.
    destruct rows as [| row rows]; [contradiction |].
    split; [reflexivity |].
    unfold JellyfinServer.validEvents. apply omap_length_le.
  - intros Hq Hpost.
    change (query :: post) with ([query] ++ post)%list.
    rewrite (tryQueries_skips h db [query] post) by (constructor; [exact Hq | constructor]).
    rewrite <- (app_nil_r post).
    rewrite (tryQueries_skips h db post [] Hpost). reflexivity.
Qed.

Lemma first_answering_query_decides_witness :
  JellyfinServer.getPlaybackEvents utcHost playedDb 7 =
    JellyfinServer.validEvents utcHost
      [ {[ "timestamp" := JStr "1970-01-01T00:00:00Z" ]};
        {[ "timestamp" := JStr "yesterday" ]} ] /\
  JellyfinServer.getPlaybackEvents utcHost (fun _ => Some []) 7 = [].
Proof.
  split.
  - refine (proj1 (proj1 (first_answering_query_decides utcHost playedDb 7
                     (firstn 4 (JellyfinServer.possibleQueries 7))
                     (skipn 5 (JellyfinServer.possibleQueries 7))
                     (nth 4 (JellyfinServer.possibleQueries 7) EmptyString)
                     _ eq_refl _) eq_refl _)).
    + repeat constructor; left; vm_compute; reflexivity.
    + discriminate.
  - refine (proj2 (first_answering_query_decides utcHost (fun _ => Some []) 7
                     []
                     (skipn 1 (JellyfinServer.possibleQueries 7))
                     (nth 0 (JellyfinServer.possibleQueries 7) EmptyString)
                     [] eq_refl _) _ _).
    + constructor.
    + right. reflexivity.
    + repeat constructor; right; reflexivity.
Defined.

(* --------------------------------------------------------------------- *)
(** ** The image proxies *)
(* --------------------------------------------------------------------- *)

(** X25: what the three image proxies can answer.  All three answer 400
    [missing u] exactly when [u] is missing or empty.  Otherwise the
    Jellyfin and the Tautulli+Plex proxy either redirect to the placeholder
    or pipe the image with the one-hour cache header, and never send JSON;
    the Tautulli proxy either sends a JSON error under 502 or 500 or pipes
    the image without a cache header, and never redirects. *)
Theorem image_proxy_answers (jcfg : Jellyfin.Config) (pcfg : Plex.Config)
    (tcfg : Tautulli.Config) (fetch : Fetch) (u auth : option string) :
  ((missingU u /\ Jellyfin.imgHandler jcfg fetch u auth = JsonError 400 "missing u") \/
   (~ missingU u /\
    (Jellyfin.imgHandler jcfg fetch u auth = Redirect "/placeholder-poster.jpg" \/
     exists ct, Jellyfin.imgHandler jcfg fetch u auth =
                Piped ct (Some "public, max-age=3600")))) /\
  ((missingU u /\ Plex.imgHandler pcfg fetch u = JsonError 400 "missing u") \/
   (~ missingU u /\
    (Plex.imgHandler pcfg fetch u = Redirect "/placeholder-poster.jpg" \/
     exists ct, Plex.imgHandler pcfg fetch u = Piped ct (Some "public, max-age=3600")))) /\
  ((missingU u /\ Tautulli.imgHandler tcfg fetch u = JsonError 400 "missing u") \/
   (~ missingU u /\
    ((exists error, Tautulli.imgHandler tcfg fetch u = JsonError 502 error \/
                    Tautulli.imgHandler tcfg fetch u = JsonError 500 error) \/
     exists ct, Tautulli.imgHandler tcfg fetch u = Piped ct None))).
Proof.
  destruct u as [url |].
  2: { split; [| split]; left; (split; [left; reflexivity | reflexivity]). }
  destruct (String.eqb_spec url EmptyString) as [-> | Hurl].
  { split; [| split]; left; (split; [right; reflexivity | reflexivity]). }
  assert (Hnot : ~ missingU (Some url)).
  { intros [H | H]; [discriminate H | injection H as H; contradiction]. }
  split; [| split]; right; (split; [exact Hnot |]).
  - unfold Jellyfin.imgHandler.
    destruct (String.eqb_spec url EmptyString); [contradiction |].
    destruct_fetch fetch E; [| left; reflexivity | left; reflexivity].
    destruct (isOk status); cbn [negb]; [right; eexists; reflexivity | left; reflexivity].
  - unfold Plex.imgHandler.
    destruct (String.eqb_spec url EmptyString); [contradiction |].
    destruct_fetch fetch E; [| left; reflexivity | left; reflexivity].
    destruct (isOk status); cbn [negb]; [right; eexists; reflexivity | left; reflexivity].
  - unfold Tautulli.imgHandler.
    destruct (String.eqb_spec url EmptyString); [contradiction |].
    destruct_fetch fetch E.
    + destruct (isOk status); cbn [negb].
      * right. eexists. reflexivity.
      * left. eexists. left. reflexivity.
    + left. eexists. right. reflexivity.
    + left. eexists. right. reflexivity.
Qed.

(** X26: the Jellyfin image proxy sends the server's Jellyfin token in an
    [Authorization] header exactly when the request says [auth=jellyfin],
    and then to whatever URL [u] names: the URL is not compared with the
    configured Jellyfin address.  The Tautulli+Plex proxy sends no header
    but [User-Agent]. *)
Theorem jellyfin_token_follows_the_auth_flag (jcfg : Jellyfin.Config) (pcfg : Plex.Config)
    (url : string) (auth : option string) :
  url <> EmptyString ->
  (Jellyfin.imgHandler jcfg
     (expecting "Authorization"
        ("MediaBrowser Token=" +:+ dquote +:+ envStr (Jellyfin.JELLYFIN_TOKEN jcfg) +:+ dquote))
     (Some url) auth = Piped "image/jpeg" (Some "public, max-age=3600") <->
   auth = Some "jellyfin") /\
  (forall name value, name <> "User-Agent" ->
     Plex.imgHandler pcfg (expecting name value) (Some url) =
     Redirect "/placeholder-poster.jpg").
Proof.
  intros Hurl. split.
  - unfold Jellyfin.imgHandler, expecting.
    destruct (String.eqb_spec url EmptyString); [contradiction |].
    destruct (bool_decide (auth = Some "jellyfin")) eqn:Hauth.
    + apply bool_decide_eq_true in Hauth.
      rewrite bool_decide_eq_true_2.
      * split; [intros _; exact Hauth | reflexivity].
      * apply elem_of_app. right. apply list_elem_of_singleton. reflexivity.
    + apply bool_decide_eq_false in Hauth.
      rewrite bool_decide_eq_false_2.
      * split; [discriminate | contradiction].
      * intros Hin. apply list_elem_of_singleton in Hin. discriminate Hin.
  - intros name value Hname. unfold Plex.imgHandler, expecting.
    destruct (String.eqb_spec url EmptyString); [contradiction |].
    rewrite bool_decide_eq_false_2; [reflexivity |].
    intros Hin. apply list_elem_of_singleton in Hin. injection Hin as Hn _.
    contradiction.
Qed.

Lemma jellyfin_token_follows_the_auth_flag_witness :
  Jellyfin.imgHandler jellyfinCfg
    (expecting "Authorization" ("MediaBrowser Token=" +:+ dquote +:+ "j3llyT0k3n" +:+ dquote))
    (Some "http://elsewhere.example/pixel.png") (Some "jellyfin") =
  Piped "image/jpeg" (Some "public, max-age=3600").
Proof.
  apply (proj1 (jellyfin_token_follows_the_auth_flag jellyfinCfg plexCfg
                  "http://elsewhere.example/pixel.png" (Some "jellyfin")
                  ltac:(discriminate))).
  reflexivity.
Defined.

(* --------------------------------------------------------------------- *)
(** ** The daily counts *)
(* --------------------------------------------------------------------- *)










Section DailyCounts.
Variable h : Host.
Variable startOfDay : Z -> option Z.
Variable isoDay : Z -> string.









End DailyCounts.






(* --------------------------------------------------------------------- *)
(** ** The Jellyfin lists *)
(* --------------------------------------------------------------------- *)

Lemma filter_length_perm {A : Type} (p : A -> bool) (l l' : list A) :
  Permutation l l' -> length (List.filter p l) = length (List.filter p l').
Proof.
  induction 1 as [| a l l' _ IH | a b l | l l' l'' _ IH1 _ IH2]; cbn [List.filter].
  - reflexivity.
  - destruct (p a); cbn [length]; congruence.
  - destruct (p a), (p b); reflexivity.
  - congruence.
Qed.

(** In a list sorted downwards the elements above a bound come first. *)
Lemma sorted_above_first {A : Type} (key : A -> Z) (T : Z) (l : list A) :
  StronglySorted (fun a b => key b <= key a) l ->
  Forall (fun a => T < key a) (firstn (length (List.filter (fun a => T <? key a) l)) l) /\
  Forall (fun a => key a <= T) (skipn (length (List.filter (fun a => T <? key a) l)) l).
Proof.
  induction 1 as [| a l Hl IH Ha]; [split; constructor |].
  cbn [List.filter]. destruct (Z.ltb_spec T (key a)) as [Hlt | Hge].
  - cbn [length firstn skipn]. destruct IH as [IH1 IH2].
    split; [constructor; assumption | exact IH2].
  - assert (Hall : Forall (fun b => key b <= T) l).
    { eapply Forall_impl; [exact Ha |]. cbn. intros b Hb. lia. }
    assert (Hnone : List.filter (fun b => T <? key b) l = []).
    { clear -Hall. induction Hall as [| b l Hb _ IH]; [reflexivity |].
      cbn [List.filter]. destruct (Z.ltb_spec T (key b)); [lia | exact IH]. }
    rewrite Hnone. cbn [length firstn skipn].
    split; [constructor | constructor; [exact Hge | exact Hall]].
Qed.

Section JellyfinListFacts.
Variable h : Host.
Variable cfg : Jellyfin.Config.
Variable toLowerCase : string -> string.

Lemma mediaType_runs (e : JellyfinLists.Entry) :
  typeOk e -> exists media, JellyfinLists.mediaType toLowerCase e = Ret media.
Proof.
  unfold typeOk, JellyfinLists.mediaType.
  destruct (JellyfinLists.prop e "Type"); cbn; intros H;
    try discriminate H; eexists; reflexivity.
Qed.

Lemma watchedItem_runs (e : JellyfinLists.Entry) :
  typeOk e ->
  exists it, JellyfinLists.watchedItem h cfg toLowerCase e = Ret it.
Proof.
  intros Hty. destruct (mediaType_runs e Hty) as [media Hm].
  unfold JellyfinLists.watchedItem. rewrite Hm.
  destruct (JellyfinLists.isString (JellyfinLists.prop e "Type") "Episode");
    eexists; reflexivity.
Qed.

Lemma collectWatched_runs (entries : list JellyfinLists.Entry) :
  Forall typeOk entries ->
  forall acc (clock : nat -> Z) (i : nat),
  exists built,
    exec (JellyfinLists.collectWatched h cfg toLowerCase acc entries) clock i =
      (Returned (acc ++ built)%list, i) /\
    Forall2 (fun e it => JellyfinLists.watchedItem h cfg toLowerCase e = Ret it)
            (List.filter played entries) built.
Proof.
  induction 1 as [| e entries He _ IH]; intros acc clock i.
  - exists []. rewrite app_nil_r. split; [reflexivity | constructor].
  - cbn [JellyfinLists.collectWatched List.filter]. unfold played at 1.
    destruct (truthy (JellyfinLists.lastPlayedDate e)); cbn [negb].
    + destruct (watchedItem_runs e He) as [it Hit]. rewrite Hit.
      rewrite exec_mbind. cbn [exec].
      destruct (IH (acc ++ [it])%list clock i) as (built & Hrun & Hall).
      exists (it :: built). rewrite Hrun, <- app_assoc.
      split; [reflexivity | constructor; assumption].
    + apply IH.
Qed.

Lemma addedItem_runs (e : JellyfinLists.Entry) (clock : nat -> Z) (i : nat) :
  typeOk e ->
  exists it,
    exec (JellyfinLists.addedItem h cfg toLowerCase e) clock i =
      (Returned it, if dateless e then S i else i) /\
    JellyfinLists.Added.added_at it =
      (if dateless e then Some (clock i)
       else JellyfinServer.newDate h (JellyfinLists.prop e "DateCreated")).
Proof.
  intros Hty. destruct (mediaType_runs e Hty) as [media Hm].
  unfold JellyfinLists.addedItem, dateless. rewrite Hm.
  destruct (JellyfinLists.isString (JellyfinLists.prop e "Type") "Episode");
    [| destruct (JellyfinLists.isString (JellyfinLists.prop e "Type") "Season")];
    destruct (truthy (JellyfinLists.prop e "DateCreated")); cbn [negb];
    eexists; split; reflexivity.
Qed.

Lemma collectAdded_runs (T : Z) (clock : nat -> Z) (entries : list JellyfinLists.Entry) :
  (forall k, T < clock k) ->
  Forall typeOk entries ->
  Forall (fun e => dateless e = false -> createdKey h e <= T) entries ->
  forall acc (i : nat),
  exists built,
    exec (JellyfinLists.collectAdded h cfg toLowerCase acc entries) clock i =
      (Returned (acc ++ built)%list, (i + length (List.filter dateless entries))%nat) /\
    length built = length entries /\
    length (List.filter (fun it => T <? jellyfinAddedKey it) built) =
      length (List.filter dateless entries).
Proof.
  intros Hclock Hty Hold. revert Hold.
  induction Hty as [| e entries He _ IH]; intros Hold acc i.
  - exists []. rewrite app_nil_r, Nat.add_0_r. repeat split; reflexivity.
  - apply Forall_cons_iff in Hold. destruct Hold as [Hd Hold].
    cbn [JellyfinLists.collectAdded]. rewrite exec_mbind.
    destruct (addedItem_runs e clock i He) as (it & Hrun & Hat). rewrite Hrun.
    destruct (IH Hold (acc ++ [it])%list (if dateless e then S i else i))
      as (built & Hrest & Hlen & Hcount).
    exists (it :: built). rewrite Hrest, <- app_assoc. cbn [app length List.filter].
    assert (Hkey : (T <? jellyfinAddedKey it) = dateless e).
    { unfold jellyfinAddedKey. rewrite Hat. destruct (dateless e) eqn:Hde.
      - change (orZero (Some (clock i))) with (clock i).
        apply Z.ltb_lt, Hclock.
      - apply Z.ltb_ge. apply Hd. reflexivity. }
    rewrite Hkey. destruct (dateless e); cbn [length];
      (split; [f_equal; lia | split; [lia | lia]]).
Qed.

(** X29: the Jellyfin recently-watched loop lists the played entries and
    only them, whatever the limit: when no entry has an ill-typed [Type],
    it returns one item for every upstream entry with a truthy
    [UserData.LastPlayedDate], the items arranged by descending
    [watched_at] (an unparseable date counting as 0). *)
Theorem jellyfin_watched_lists_the_played (entries : list JellyfinLists.Entry)
    (clock : nat -> Z) :
  Forall typeOk entries ->
  exists built items,
    run (JellyfinLists.recentlyWatchedItems h cfg toLowerCase entries) clock =
      Returned items /\
    Forall2 (fun e it => JellyfinLists.watchedItem h cfg toLowerCase e = Ret it)
            (List.filter played entries) built /\
    arrangedDescending jellyfinWatchedKey built items /\
    length items = length (List.filter played entries).
Proof.
  intros Hty.
  destruct (collectWatched_runs entries Hty [] clock 0%nat) as (built & Hrun & Hall).
  exists built, (sortBy JellyfinLists.Watched.compareItems built).
  split.
  { unfold run, JellyfinLists.recentlyWatchedItems. rewrite exec_mbind, Hrun. reflexivity. }
  split; [exact Hall |].
  split; [apply sortBy_arranged; reflexivity |].
  rewrite (sortBy_length JellyfinLists.Watched.compareItems).
  symmetry. exact (Forall2_length _ _ _ Hall).
Qed.

(** X30: in the Jellyfin recently-added loop an entry without
    [DateCreated] is stamped with the time of the request, one clock
    reading each: when every dated entry was created before the request,
    the items of the dateless entries stand in front of all the others in
    the answer. *)
Theorem jellyfin_dateless_entries_come_first (T : Z) (entries : list JellyfinLists.Entry)
    (clock : nat -> Z) (i : nat) :
  (forall k, T < clock k) ->
  Forall typeOk entries ->
  Forall (fun e => dateless e = false -> createdKey h e <= T) entries ->
  let n := length (List.filter dateless entries) in
  exists items,
    exec (JellyfinLists.recentlyAddedItems h cfg toLowerCase entries) clock i =
      (Returned items, (i + n)%nat) /\
    length items = length entries /\
    Forall (fun it => T < jellyfinAddedKey it) (firstn n items) /\
    Forall (fun it => jellyfinAddedKey it <= T) (skipn n items).
Proof.
  intros Hclock Hty Hold n.
  destruct (collectAdded_runs T clock entries Hclock Hty Hold [] i)
    as (built & Hrun & Hlen & Hcount).
  exists (sortBy JellyfinLists.Added.compareItems built).
  split.
  { unfold JellyfinLists.recentlyAddedItems. rewrite exec_mbind, Hrun. reflexivity. }
  split; [rewrite (sortBy_length JellyfinLists.Added.compareItems); exact Hlen |].
  assert (Hn : length (List.filter (fun it => T <? jellyfinAddedKey it)
                         (sortBy JellyfinLists.Added.compareItems built)) = n).
  { rewrite (filter_length_perm _ _ built); [exact Hcount |].
    apply (sortBy_perm JellyfinLists.Added.compareItems). }
  rewrite <- Hn. apply sorted_above_first.
  apply (sortBy_sorted jellyfinAddedKey JellyfinLists.Added.compareItems).
  reflexivity.
Qed.

End JellyfinListFacts.

Lemma jellyfin_watched_lists_the_played_witness :
  exists built items,
    run (JellyfinLists.recentlyWatchedItems utcHost jellyfinCfg asciiLower threeEntries)
        noon = Returned items /\
    Forall2 (fun e it => JellyfinLists.watchedItem utcHost jellyfinCfg asciiLower e = Ret it)
            (List.filter played threeEntries) built /\
    arrangedDescending jellyfinWatchedKey built items /\
    length items = length (List.filter played threeEntries).
Proof.
  apply (jellyfin_watched_lists_the_played utcHost jellyfinCfg asciiLower threeEntries noon).
  repeat (apply List.Forall_cons; [reflexivity |]). apply List.Forall_nil.
Defined.

Lemma jellyfin_dateless_entries_come_first_witness :
  exists items,
    exec (JellyfinLists.recentlyAddedItems utcHost jellyfinCfg asciiLower datedThenDateless)
         noon 0 = (Returned items, 1%nat) /\
    length items = 2%nat /\
    Forall (fun it => 0 < jellyfinAddedKey it) (firstn 1 items) /\
    Forall (fun it => jellyfinAddedKey it <= 0) (skipn 1 items).
Proof.
  apply (jellyfin_dateless_entries_come_first utcHost jellyfinCfg asciiLower 0
           datedThenDateless noon 0).
  - intros k. reflexivity.
  - repeat (apply List.Forall_cons; [reflexivity |]). apply List.Forall_nil.
  - apply List.Forall_cons; [intros _; vm_compute; discriminate |].
    apply List.Forall_cons; [intros H; vm_compute in H; discriminate H |].
    apply List.Forall_nil.
Defined.

(* --------------------------------------------------------------------- *)
(** ** The cache and the upstream around the recently-watched handler *)
(* --------------------------------------------------------------------- *)

(** X18: an answer taken from the upstream lives in the cache for its
    time to live, 15 seconds for recently-watched and 30 for
    recently-added: a repeated request in that time gets the same body
    without the upstream being asked, whatever it would answer; from the
    expiry on the upstream is asked again, and when it fails the answer is
    the warning and not the items of before. *)
Theorem cached_answer_lives_for_its_ttl (h : Host) (cfg : Plex.Config)
    (upstream upstream' : string -> Upstream) (limit : option Z)
    (cache cache' : gmap string (Cache.Entry Body)) (body : Body)
    (clock clock' : nat -> Z) (i j i' : nat) :
  Plex.hasTautulliEnv cfg = true ->
  hasWarning body = false ->
  (Cache.getC (clock i) cache (watchedCacheKey limit) = None ->
   exec (PlexServer.recentlyWatched h cfg upstream limit cache) clock i =
     (Returned (body, cache'), j) ->
   (clock' i' < clock (pred j) + 15000 ->
    exec (PlexServer.recentlyWatched h cfg upstream' limit cache') clock' i' =
      (Returned (body, cache'), S i')) /\
   (forall error, clock (pred j) + 15000 <= clock' i' ->
    (forall url, upstream' url = UpstreamError error) ->
    exec (PlexServer.recentlyWatched h cfg upstream' limit cache') clock' i' =
      (Returned (WatchedBody [] (Some ("tautulli: " +:+ error)), cache'), S i'))) /\
  (Cache.getC (clock i) cache (addedCacheKey limit) = None ->
   exec (PlexServer.recentlyAdded cfg upstream limit cache) clock i =
     (Returned (body, cache'), j) ->
   (clock' i' < clock (pred j) + 30000 ->
    exec (PlexServer.recentlyAdded cfg upstream' limit cache') clock' i' =
      (Returned (body, cache'), S i')) /\
   (forall error, clock (pred j) + 30000 <= clock' i' ->
    (forall url, upstream' url = UpstreamError error) ->
    exec (PlexServer.recentlyAdded cfg upstream' limit cache') clock' i' =
      (Returned (AddedBody [] (Some ("tautulli: " +:+ error)), cache'), S i'))).
Proof.
  intros Henv Hclean. split; intros Hmiss Hfirst; split.
  - intros Hsoon.
    exact (proj1 (served_while_fresh h cfg upstream upstream' limit cache cache' body
                    clock clock' i j i' Henv Hclean) Hmiss Hfirst Hsoon).
  - intros error Hlate Hdown.
    exact (proj1 (asked_again_once_expired h cfg upstream upstream' limit cache cache'
                    body clock clock' i j i' error Henv Hclean Hdown) Hmiss Hfirst Hlate).
  - intros Hsoon.
    exact (proj2 (served_while_fresh h cfg upstream upstream' limit cache cache' body
                    clock clock' i j i' Henv Hclean) Hmiss Hfirst Hsoon).
  - intros error Hlate Hdown.
    exact (proj2 (asked_again_once_expired h cfg upstream upstream' limit cache cache'
                    body clock clock' i j i' error Henv Hclean Hdown) Hmiss Hfirst Hlate).
Qed.

Lemma cached_answer_lives_for_its_ttl_witness :
  (exec (PlexServer.recentlyWatched utcHost plexCfg downUpstream (Some 5) watchedCacheAfter)
     ticking 5 = (Returned (watchedAnswer, watchedCacheAfter), 6%nat) /\
   exec (PlexServer.recentlyWatched utcHost plexCfg downUpstream (Some 5) watchedCacheAfter)
     ticking 16 =
     (Returned (WatchedBody [] (Some "tautulli: down"), watchedCacheAfter), 17%nat)) /\
  (exec (PlexServer.recentlyAdded plexCfg downUpstream (Some 2) addedCacheAfter)
     ticking 5 = (Returned (addedAnswer, addedCacheAfter), 6%nat) /\
   exec (PlexServer.recentlyAdded plexCfg downUpstream (Some 2) addedCacheAfter)
     ticking 31 =
     (Returned (AddedBody [] (Some "tautulli: down"), addedCacheAfter), 32%nat)).
Proof.
  split; split.
  - refine (proj1 (proj1 (cached_answer_lives_for_its_ttl utcHost plexCfg
                     historyUpstream downUpstream (Some 5) ∅ watchedCacheAfter
                     watchedAnswer ticking ticking 0 2 5 eq_refl eq_refl) _ _) _);
      vm_compute; reflexivity.
  - refine (proj2 (proj1 (cached_answer_lives_for_its_ttl utcHost plexCfg
                     historyUpstream downUpstream (Some 5) ∅ watchedCacheAfter
                     watchedAnswer ticking ticking 0 2 16 eq_refl eq_refl) _ _)
              "down" _ (fun _ => eq_refl));
      vm_compute; first [reflexivity | discriminate].
  - refine (proj1 (proj2 (cached_answer_lives_for_its_ttl utcHost plexCfg
                     fiveUpstream downUpstream (Some 2) ∅ addedCacheAfter
                     addedAnswer ticking ticking 0 2 5 eq_refl eq_refl) _ _) _);
      vm_compute; reflexivity.
  - refine (proj2 (proj2 (cached_answer_lives_for_its_ttl utcHost plexCfg
                     fiveUpstream downUpstream (Some 2) ∅ addedCacheAfter
                     addedAnswer ticking ticking 0 2 31 eq_refl eq_refl) _ _)
              "down" _ (fun _ => eq_refl));
      vm_compute; first [reflexivity | discriminate].
Defined.




